(** * Reconcilers of cluster-api-provider-vsphere: a shallow embedding

    The development embeds the VSphereVM controller (Reconcile, reconcile,
    reconcileNormal, reconcileDelete, the address-claim sub-reconciler and
    the cluster-watch predicates) and the VSphereDeploymentZone delete path,
    and states the properties of the specification over them.

    Kubernetes objects are records, label and condition sets are finite
    maps, the API server is an explicit store threaded through every call,
    and the collaborators reached through interfaces (the VM service, the
    remote cluster client, the session provider) are fields of the
    reconciler record, as they are fields of the Go receiver. *)

From stdpp Require Import gmap strings list fin_maps pretty sorting.

Set Warnings "-register-all".
Open Scope string_scope.
Open Scope list_scope.

(** ** Errors *)

(** Go errors as the controllers build and inspect them: API status errors
    (of which only the not-found reason is ever tested), [errors.Errorf],
    [errors.Wrapf], [kerrors.NewAggregate], the sentinel
    [remote.ErrClusterLocked], and the error of a deployment zone still in
    use, whose two arguments (the zone name and the enumeration of the
    machines) are kept apart instead of being formatted into one text. *)
Inductive error : Type :=
| StatusNotFound (what : string)
| StatusOther (msg : string)
| Errorf (msg : string)
| Wrapf (cause : error) (msg : string)
| Aggregate (errs : list error)
| ErrClusterLocked
| InUseError (zone : string) (machines : list string).

Inductive result (A : Type) : Type :=
| Ok (a : A)
| Err (e : error).
Arguments Ok {A} a.
Arguments Err {A} e.

Module apierrors.
(** [apierrors.IsNotFound] looks through wrapped errors. *)
Fixpoint IsNotFound (e : error) : bool :=
  match e with
  | StatusNotFound _ => true
  | Wrapf cause _ => IsNotFound cause
  | _ => false
  end.
End apierrors.

Module kerrors.
(** [kerrors.NewAggregate] drops the nil entries and returns nil when
    nothing is left. *)
Definition NewAggregate (errs : list (option error)) : option error :=
  match omap id errs with
  | [] => None
  | es => Some (Aggregate es)
  end.
End kerrors.

Module reconcile.
Record Result : Type := mkResult { Requeue : bool; RequeueAfter : nat }.

Definition zero : Result := mkResult false 0.

Definition IsZero (r : Result) : bool :=
  negb (Requeue r) && Nat.eqb (RequeueAfter r) 0.
End reconcile.

(** ** Object metadata *)

Definition ObjectKey : Type := (string * string)%type.

Module metav1.
(** The API version of an owner reference is kept split into group and
    version, the two parts [schema.ParseGroupVersion] recovers. *)
Record OwnerReference : Type := mkOwnerReference {
  Group : string;
  Version : string;
  Kind : string;
  RefName : string;
  RefUID : string
}.

Record ObjectMeta : Type := mkObjectMeta {
  Name : string;
  Namespace : string;
  UID : string;
  Labels : gmap string string;
  Annotations : gmap string string;
  CreationTimestamp : nat;
  DeletionTimestamp : option nat;
  Finalizers : list string;
  OwnerReferences : list OwnerReference
}.

Definition key (m : ObjectMeta) : ObjectKey := (Namespace m, Name m).

Definition setFinalizers (fs : list string) (m : ObjectMeta) : ObjectMeta :=
  mkObjectMeta (Name m) (Namespace m) (UID m) (Labels m) (Annotations m)
    (CreationTimestamp m) (DeletionTimestamp m) fs (OwnerReferences m).

Definition setOwnerReferences (rs : list OwnerReference) (m : ObjectMeta) : ObjectMeta :=
  mkObjectMeta (Name m) (Namespace m) (UID m) (Labels m) (Annotations m)
    (CreationTimestamp m) (DeletionTimestamp m) (Finalizers m) rs.

Definition setLabels (ls : gmap string string) (m : ObjectMeta) : ObjectMeta :=
  mkObjectMeta (Name m) (Namespace m) (UID m) ls (Annotations m)
    (CreationTimestamp m) (DeletionTimestamp m) (Finalizers m) (OwnerReferences m).

(** [DeletionTimestamp.IsZero()]. *)
Definition notDeleting (m : ObjectMeta) : bool :=
  match DeletionTimestamp m with None => true | Some _ => false end.
End metav1.

Module ctrlutil.
Import metav1.

Definition ContainsFinalizer (m : ObjectMeta) (f : string) : bool :=
  bool_decide (f ∈ Finalizers m).

(** Appends the finalizer unless it is already there. *)
Definition AddFinalizer (m : ObjectMeta) (f : string) : ObjectMeta :=
  if ContainsFinalizer m f then m
  else setFinalizers (Finalizers m ++ [f]) m.

(** Drops every occurrence of the finalizer; the flag tells whether the
    list changed. *)
Definition RemoveFinalizer (m : ObjectMeta) (f : string) : ObjectMeta * bool :=
  let fs := filter (λ g, g ≠ f) (Finalizers m) in
  (setFinalizers fs m, negb (Nat.eqb (length fs) (length (Finalizers m)))).
End ctrlutil.

Module clusterutilv1.
Import metav1.

(** Two references point at the same object when group, kind and name
    agree. *)
Definition referSameObject (a b : OwnerReference) : bool :=
  bool_decide (Group a = Group b ∧ Kind a = Kind b ∧ RefName a = RefName b).

Fixpoint indexOwnerRef (refs : list OwnerReference) (ref : OwnerReference) : option nat :=
  match refs with
  | [] => None
  | r :: rest =>
      if referSameObject r ref then Some 0
      else S <$> indexOwnerRef rest ref
  end.

Definition EnsureOwnerRef (refs : list OwnerReference) (ref : OwnerReference)
  : list OwnerReference :=
  match indexOwnerRef refs ref with
  | None => refs ++ [ref]
  | Some idx => <[idx := ref]> refs
  end.

Definition RemoveOwnerRef (refs : list OwnerReference) (ref : OwnerReference)
  : list OwnerReference :=
  match indexOwnerRef refs ref with
  | None => refs
  | Some idx => take idx refs ++ drop (S idx) refs
  end.
End clusterutilv1.

(** ** Conditions *)

Module clusterv1.
Inductive ConditionStatus : Type := ConditionTrue | ConditionFalse | ConditionUnknown.

Inductive ConditionSeverity : Type :=
| ConditionSeverityError
| ConditionSeverityWarning
| ConditionSeverityInfo
| ConditionSeverityNone.

Record Condition : Type := mkCondition {
  Type_ : string;
  Status : ConditionStatus;
  Severity : ConditionSeverity;
  Reason : string;
  Message : string
}.

Definition ReadyCondition : string := "Ready".
Definition DeletingReason : string := "Deleting".
Definition ClusterNameLabel : string := "cluster.x-k8s.io/cluster-name".
Definition PausedAnnotation : string := "cluster.x-k8s.io/paused".
Definition WatchLabel : string := "cluster.x-k8s.io/watch-filter".

Record ObjectReference : Type := mkObjectReference {
  InfraRefName : string
}.

Record Cluster : Type := mkCluster {
  ClusterMeta : metav1.ObjectMeta;
  Paused : bool;
  InfrastructureRef : option ObjectReference
}.

Record Machine : Type := mkMachine {
  MachineMeta : metav1.ObjectMeta;
  FailureDomain : option string
}.
End clusterv1.

Module conditions.
Import clusterv1.

(** The condition set of an object, keyed by condition type: [Set] keeps
    one condition per type.  Transition times and the display order of
    the slice are not represented. *)
Abbreviation Conditions := (gmap string Condition).

Definition Get (cs : Conditions) (t : string) : option Condition := cs !! t.

Definition Has (cs : Conditions) (t : string) : bool := bool_decide (is_Some (cs !! t)).

Definition Set_ (cs : Conditions) (c : Condition) : Conditions :=
  <[Type_ c := c]> cs.

Definition TrueCondition (t : string) : Condition :=
  mkCondition t ConditionTrue ConditionSeverityNone "" "".

Definition FalseCondition (t reason : string) (sev : ConditionSeverity) (msg : string)
  : Condition :=
  mkCondition t ConditionFalse sev reason msg.

Definition MarkTrue (cs : Conditions) (t : string) : Conditions :=
  Set_ cs (TrueCondition t).

Definition MarkFalse (cs : Conditions) (t reason : string)
    (sev : ConditionSeverity) (msg : string) : Conditions :=
  Set_ cs (FalseCondition t reason sev msg).

Definition retarget (t : string) (c : Condition) : Condition :=
  mkCondition t (Status c) (Severity c) (Reason c) (Message c).

Section Merge.
(** The merge strategy of the conditions library (grouping by status
    and severity, reason and message of the top group, step counter)
    is a parameter: it yields the merged condition, or nothing when
    there is no condition to merge. *)
Variable merge : list Condition → option Condition.

(** [SetSummary] with [WithConditions ts]: merges the listed conditions
    that the object has into its Ready condition. *)
Definition SetSummary (cs : Conditions) (ts : list string) : Conditions :=
  match merge (omap (λ t, cs !! t) ts) with
  | None => cs
  | Some c => Set_ cs (retarget ReadyCondition c)
  end.

(** [SetAggregate]: merges the Ready conditions of the source objects
    into the target condition. *)
Definition SetAggregate (cs : Conditions) (t : string) (from : list Conditions)
  : Conditions :=
  match merge (omap (λ o, o !! ReadyCondition) from) with
  | None => cs
  | Some c => Set_ cs (retarget t c)
  end.
End Merge.
End conditions.

Module annotations.
Import metav1 clusterv1.

Definition HasPaused (o : ObjectMeta) : bool :=
  bool_decide (is_Some (Annotations o !! PausedAnnotation)).

(** [annotations.IsPaused cluster o]. *)
Definition IsPaused (cluster : Cluster) (o : ObjectMeta) : bool :=
  Paused cluster || HasPaused o.
End annotations.


(** ** API types *)

Module corev1.
Record TypedLocalObjectReference : Type := mkTypedLocalObjectReference {
  APIGroup : option string;
  Kind : string;
  Name : string
}.
End corev1.

Module ipamv1.
(** An address claim: the pool reference of its spec, and the status the
    external allocator owns (the resolved address reference and the
    conditions). *)
Record IPAddressClaim : Type := mkIPAddressClaim {
  ObjectMeta : metav1.ObjectMeta;
  PoolRef : corev1.TypedLocalObjectReference;
  AddressRefName : string;
  Conditions : gmap string clusterv1.Condition
}.

Definition setObjectMeta (m : metav1.ObjectMeta) (c : IPAddressClaim) : IPAddressClaim :=
  mkIPAddressClaim m (PoolRef c) (AddressRefName c) (Conditions c).

Definition setPoolRef (p : corev1.TypedLocalObjectReference) (c : IPAddressClaim)
  : IPAddressClaim :=
  mkIPAddressClaim (ObjectMeta c) p (AddressRefName c) (Conditions c).
End ipamv1.

Module infrav1.

(** The group and version, the finalizers, and the condition types and
    reasons of the API package; the properties below depend on these texts
    only through the condition types being pairwise distinct. *)
Definition GroupVersionGroup : string := "infrastructure.cluster.x-k8s.io".
Definition GroupVersionVersion : string := "v1beta1".

Definition VMFinalizer : string := "vspherevm.infrastructure.cluster.x-k8s.io".
Definition IPAddressClaimFinalizer : string :=
  "vspherevm.infrastructure.cluster.x-k8s.io/ip-claim-protection".
Definition DeploymentZoneFinalizer : string :=
  "vspheredeploymentzone.infrastructure.cluster.x-k8s.io".

Definition VCenterAvailableCondition : string := "VCenterAvailable".
Definition VCenterUnreachableReason : string := "VCenterUnreachable".
Definition VMProvisionedCondition : string := "VMProvisioned".
Definition WaitingForStaticIPAllocationReason : string := "WaitingForStaticIPAllocation".
Definition WaitingForIPAllocationReason : string := "WaitingForIPAllocation".
Definition IPAddressClaimedCondition : string := "IPAddressClaimed".
Definition IPAddressClaimsBeingCreatedReason : string := "IPAddressClaimsBeingCreated".
Definition WaitingForIPAddressReason : string := "WaitingForIPAddress".
Definition IPAddressClaimNotFoundReason : string := "IPAddressClaimNotFound".

(** Modelled from the spec: the API package is not part of the sources;
    the observed VM carries the lifecycle state enum NotFound,
    Provisioning (pending), Ready, the unique hardware id, the backend
    reference id and the per-device network status. *)
Inductive VirtualMachineState : Type :=
| VirtualMachineStateNotFound
| VirtualMachineStatePending
| VirtualMachineStateReady.

Record NetworkStatus : Type := mkNetworkStatus {
  Connected : bool;
  IPAddrs : list string;
  MACAddr : string;
  NetworkName : string
}.

Module VirtualMachine.
Record t : Type := mk {
  Name : string;
  BiosUUID : string;
  State : VirtualMachineState;
  Network : list NetworkStatus;
  VMRef : string
}.
End VirtualMachine.

Module NetworkDeviceSpec.
Record t : Type := mk {
  DHCP4 : bool;
  DHCP6 : bool;
  IPAddrs : list string;
  AddressesFromPools : list corev1.TypedLocalObjectReference
}.
End NetworkDeviceSpec.

Module VSphereVMSpec.
Record t : Type := mk {
  Server : string;
  Datacenter : string;
  Thumbprint : string;
  BiosUUID : string;
  Devices : list NetworkDeviceSpec.t
}.

Definition setBiosUUID (u : string) (s : t) : t :=
  mk (Server s) (Datacenter s) (Thumbprint s) u (Devices s).
End VSphereVMSpec.

Module VSphereVMStatus.
Record t : Type := mk {
  VMRef : string;
  Network : list NetworkStatus;
  Addresses : list string;
  Ready : bool;
  FailureReason : option string;
  FailureMessage : option string;
  TaskRef : string;
  Conditions : gmap string clusterv1.Condition
}.

Definition setVMRef (v : string) (s : t) : t :=
  mk v (Network s) (Addresses s) (Ready s) (FailureReason s) (FailureMessage s)
    (TaskRef s) (Conditions s).

Definition setNetwork (n : list NetworkStatus) (s : t) : t :=
  mk (VMRef s) n (Addresses s) (Ready s) (FailureReason s) (FailureMessage s)
    (TaskRef s) (Conditions s).

Definition setAddresses (a : list string) (s : t) : t :=
  mk (VMRef s) (Network s) a (Ready s) (FailureReason s) (FailureMessage s)
    (TaskRef s) (Conditions s).

Definition setReady (b : bool) (s : t) : t :=
  mk (VMRef s) (Network s) (Addresses s) b (FailureReason s) (FailureMessage s)
    (TaskRef s) (Conditions s).

Definition setConditions (cs : gmap string clusterv1.Condition) (s : t) : t :=
  mk (VMRef s) (Network s) (Addresses s) (Ready s) (FailureReason s) (FailureMessage s)
    (TaskRef s) cs.
End VSphereVMStatus.

Module VSphereVM.
(** [Group], [Version] and [Kind] are the type meta of the object. *)
Record t : Type := mk {
  Group : string;
  Version : string;
  Kind : string;
  ObjectMeta : metav1.ObjectMeta;
  Spec : VSphereVMSpec.t;
  Status : VSphereVMStatus.t
}.

Definition setObjectMeta (m : metav1.ObjectMeta) (vm : t) : t :=
  mk (Group vm) (Version vm) (Kind vm) m (Spec vm) (Status vm).
Definition setSpec (s : VSphereVMSpec.t) (vm : t) : t :=
  mk (Group vm) (Version vm) (Kind vm) (ObjectMeta vm) s (Status vm).
Definition setStatus (s : VSphereVMStatus.t) (vm : t) : t :=
  mk (Group vm) (Version vm) (Kind vm) (ObjectMeta vm) (Spec vm) s.

Definition GetConditions (vm : t) : gmap string clusterv1.Condition :=
  VSphereVMStatus.Conditions (Status vm).
Definition SetConditions (cs : gmap string clusterv1.Condition) (vm : t) : t :=
  setStatus (VSphereVMStatus.setConditions cs (Status vm)) vm.
End VSphereVM.

Record ClusterModule : Type := mkClusterModule {
  ControlPlane : bool;
  TargetObjectName : string;
  ModuleUUID : string
}.

Record VSphereCluster : Type := mkVSphereCluster {
  VSphereClusterMeta : metav1.ObjectMeta;
  VSphereClusterServer : string;
  VSphereClusterThumbprint : string;
  IdentityRef : option string;
  ClusterModules : list ClusterModule
}.

Record VSphereMachine : Type := mkVSphereMachine {
  VSphereMachineMeta : metav1.ObjectMeta
}.

Record VSphereFailureDomain : Type := mkVSphereFailureDomain {
  FailureDomainMeta : metav1.ObjectMeta;
  TopologyDatacenter : string
}.

Module VSphereDeploymentZone.
Record t : Type := mk {
  Kind : string;
  ObjectMeta : metav1.ObjectMeta;
  Server : string;
  FailureDomain : string
}.

Definition setObjectMeta (m : metav1.ObjectMeta) (z : t) : t :=
  mk (Kind z) m (Server z) (FailureDomain z).
End VSphereDeploymentZone.

End infrav1.

#[global] Instance OwnerReference_eq_dec : EqDecision metav1.OwnerReference.
Proof. solve_decision. Defined.
#[global] Instance ObjectMeta_eq_dec : EqDecision metav1.ObjectMeta.
Proof. solve_decision. Defined.
#[global] Instance ConditionStatus_eq_dec : EqDecision clusterv1.ConditionStatus.
Proof. solve_decision. Defined.
#[global] Instance ConditionSeverity_eq_dec : EqDecision clusterv1.ConditionSeverity.
Proof. solve_decision. Defined.
#[global] Instance Condition_eq_dec : EqDecision clusterv1.Condition.
Proof. solve_decision. Defined.
#[global] Instance TypedLocalObjectReference_eq_dec :
  EqDecision corev1.TypedLocalObjectReference.
Proof. solve_decision. Defined.
#[global] Instance IPAddressClaim_eq_dec : EqDecision ipamv1.IPAddressClaim.
Proof. solve_decision. Defined.
#[global] Instance VirtualMachineState_eq_dec : EqDecision infrav1.VirtualMachineState.
Proof. solve_decision. Defined.

(** ** Collaborators of the VM controller *)

Module session.
Record Params : Type := mkParams {
  server : string;
  datacenter : string;
  username : string;
  password : string;
  thumbprint : string
}.

(** An authenticated session is an opaque handle. *)
Record Session : Type := mkSession { handle : string }.

Definition WithUserInfo (u p : string) (ps : Params) : Params :=
  mkParams (server ps) (datacenter ps) u p (thumbprint ps).
End session.

Module capvcontext.
Import infrav1.

Record VMContext : Type := mkVMContext {
  VSphereVM : VSphereVM.t;
  VSphereFailureDomain : option infrav1.VSphereFailureDomain;
  Session : session.Session;
  ClusterModuleInfo : option string
}.

Definition setVSphereVM (vm : VSphereVM.t) (c : VMContext) : VMContext :=
  mkVMContext vm (VSphereFailureDomain c) (Session c) (ClusterModuleInfo c).

Definition setClusterModuleInfo (i : option string) (c : VMContext) : VMContext :=
  mkVMContext (VSphereVM c) (VSphereFailureDomain c) (Session c) i.
End capvcontext.

(** The calls that leave the controller: backend requests, writes of
    claims through the API client, the node deletion on the workload
    cluster and the patch of the VSphereVM. *)
Inductive Call : Type :=
| CallReconcileVM
| CallDestroyVM
| CallDeleteNode (name : string)
| CallCreateClaim (k : ObjectKey)
| CallPatchClaim (k : ObjectKey)
| CallUpdateClaim (k : ObjectKey)
| CallPatchVM (k : ObjectKey).

(** The part of the API server the VM controller reads and writes, and the
    trace of outgoing calls. *)
Record World : Type := mkWorld {
  vms : gmap ObjectKey infrav1.VSphereVM.t;
  claims : gmap ObjectKey ipamv1.IPAddressClaim;
  calls : list Call
}.

Definition setVMs (m : gmap ObjectKey infrav1.VSphereVM.t) (w : World) : World :=
  mkWorld m (claims w) (calls w).
Definition setClaims (m : gmap ObjectKey ipamv1.IPAddressClaim) (w : World) : World :=
  mkWorld (vms w) m (calls w).
Definition record (c : Call) (w : World) : World :=
  mkWorld (vms w) (claims w) (calls w ++ [c]).

(** The object store purges an object marked for deletion as soon as its
    last finalizer is gone; any other write replaces the stored object. *)
Definition store {A : Type} (meta : A → metav1.ObjectMeta) (o : A)
    (m : gmap ObjectKey A) : gmap ObjectKey A :=
  if negb (metav1.notDeleting (meta o)) && bool_decide (metav1.Finalizers (meta o) = [])
  then delete (metav1.key (meta o)) m
  else <[metav1.key (meta o) := o]> m.

(** The receiver of the VM controller.  [Username], [Password] and
    [WatchFilterValue] come from the controller context and
    [NodeAntiAffinity] is the feature gate.  The VM service is
    modelled from the spec: [ReconcileVM] and [DestroyVM] answer with the
    observed VM (and, for [DestroyVM], a requeue signal) or an error.  The
    remaining fields are the answers of the API client and of the helper
    packages to reads this development keeps no store for, and the
    failures the client may report on each kind of call; [summaryMerge]
    and [aggregateMerge] are the merge strategies of the conditions
    library under the options of the two call sites, and [errorText] is
    the text [Error()] renders for an error. *)
Record vmReconciler : Type := mkVMReconciler {
  Username : string;
  Password : string;
  WatchFilterValue : string;
  NodeAntiAffinity : bool;
  ReconcileVM : capvcontext.VMContext → result infrav1.VirtualMachine.t;
  DestroyVM : capvcontext.VMContext →
              reconcile.Result * infrav1.VirtualMachine.t * option error;
  trackerGetClient : ObjectKey → option error;
  remoteDelete : ObjectKey → string → option error;
  GetOrCreate : session.Params → result session.Session;
  GetCredentials : infrav1.VSphereCluster → result (string * string);
  GetClusterFromMetadata : metav1.ObjectMeta → result clusterv1.Cluster;
  getVSphereCluster : ObjectKey → result infrav1.VSphereCluster;
  GetOwnerVSphereMachine : metav1.ObjectMeta → result (option infrav1.VSphereMachine);
  GetVSphereClusterFromVSphereMachine :
    infrav1.VSphereMachine → result (option infrav1.VSphereCluster);
  GetOwnerMachine : metav1.ObjectMeta → result (option clusterv1.Machine);
  getDeploymentZone : string → result infrav1.VSphereDeploymentZone.t;
  getFailureDomain : string → result infrav1.VSphereFailureDomain;
  IsControlPlaneMachine : clusterv1.Machine → bool;
  FetchControlPlaneOwnerObject : clusterv1.Machine → result string;
  FetchMachineDeploymentOwnerObject : clusterv1.Machine → result string;
  getVMError : ObjectKey → option error;
  listVMsError : option error;
  newHelperError : infrav1.VSphereVM.t → option error;
  patchVMError : infrav1.VSphereVM.t → option error;
  getClaimError : ObjectKey → option error;
  createClaimError : ObjectKey → option error;
  patchClaimError : ObjectKey → option error;
  updateClaimError : ObjectKey → option error;
  summaryMerge : list clusterv1.Condition → option clusterv1.Condition;
  aggregateMerge : list clusterv1.Condition → option clusterv1.Condition;
  errorText : error → string
}.

Module util.
(** Modelled from the spec: the helper package is not part of the sources;
    the claim name is derived deterministically from the VM name, the
    device index and the pool-reference index. *)
Definition IPAddressClaimName (vmName : string) (devIdx poolRefIdx : nat) : string :=
  vmName +:+ "-" +:+ pretty devIdx +:+ "-" +:+ pretty poolRefIdx.

End util.

(** ** The VM controller *)

Module VMController.
Import metav1 infrav1 capvcontext.

Inductive OperationResult : Type :=
| OperationResultNone
| OperationResultCreated
| OperationResultUpdated.

(** The counters and lists [reconcileIPAddressClaims] accumulates over the
    device/pool pairs; [claimConditions] holds the condition sets of the
    claims that expose a Ready condition. *)
Record tally : Type := mkTally {
  totalClaims : nat;
  claimsCreated : nat;
  claimsFulfilled : nat;
  claimConditions : list (gmap string clusterv1.Condition);
  errList : list error
}.

Definition emptyTally : tally := mkTally 0 0 0 [] [].

(** The (device index, pool-reference index, pool reference) triples in
    the order the two nested loops visit them. *)
Definition claimPairs (vm : VSphereVM.t)
  : list (nat * nat * corev1.TypedLocalObjectReference) :=
  mjoin (imap (λ devIdx device,
                 imap (λ poolRefIdx poolRef, (devIdx, poolRefIdx, poolRef))
                      (NetworkDeviceSpec.AddressesFromPools device))
              (VSphereVMSpec.Devices (VSphereVM.Spec vm))).

Definition markTrue (t : string) (vm : VSphereVM.t) : VSphereVM.t :=
  VSphereVM.SetConditions (conditions.MarkTrue (VSphereVM.GetConditions vm) t) vm.

Definition markFalse (t reason : string) (sev : clusterv1.ConditionSeverity)
    (msg : string) (vm : VSphereVM.t) : VSphereVM.t :=
  VSphereVM.SetConditions
    (conditions.MarkFalse (VSphereVM.GetConditions vm) t reason sev msg) vm.

Definition setBiosUUID (u : string) (vm : VSphereVM.t) : VSphereVM.t :=
  VSphereVM.setSpec (VSphereVMSpec.setBiosUUID u (VSphereVM.Spec vm)) vm.

Definition setVMRef (v : string) (vm : VSphereVM.t) : VSphereVM.t :=
  VSphereVM.setStatus (VSphereVMStatus.setVMRef v (VSphereVM.Status vm)) vm.

Definition setReady (b : bool) (vm : VSphereVM.t) : VSphereVM.t :=
  VSphereVM.setStatus (VSphereVMStatus.setReady b (VSphereVM.Status vm)) vm.

Section reconciler.
Variable r : vmReconciler.

(** [Client.Get] of a claim: the failure the client reports, else the
    stored claim, else a not-found error. *)
Definition getClaim (w : World) (k : ObjectKey) : result ipamv1.IPAddressClaim :=
  match getClaimError r k with
  | Some e => Err e
  | None =>
      match claims w !! k with
      | Some c => Ok c
      | None => Err (StatusNotFound k.2)
      end
  end.

(** The mutation [createOrPatchIPAddressClaim] hands to [CreateOrPatch]. *)
Definition mutateFn (vm : VSphereVM.t) (poolRef : corev1.TypedLocalObjectReference)
    (claim : ipamv1.IPAddressClaim) : ipamv1.IPAddressClaim :=
  let m := ipamv1.ObjectMeta claim in
  let m := setOwnerReferences
             (clusterutilv1.EnsureOwnerRef (OwnerReferences m)
                (mkOwnerReference (VSphereVM.Group vm) (VSphereVM.Version vm)
                   (VSphereVM.Kind vm)
                   (Name (VSphereVM.ObjectMeta vm)) (UID (VSphereVM.ObjectMeta vm))))
             m in
  let m := ctrlutil.AddFinalizer m IPAddressClaimFinalizer in
  let m := setLabels
             (<[clusterv1.ClusterNameLabel :=
                  default "" (Labels (VSphereVM.ObjectMeta vm)
                                !! clusterv1.ClusterNameLabel)]> (Labels m))
             m in
  ipamv1.setPoolRef poolRef (ipamv1.setObjectMeta m claim).

(** [ctrlutil.CreateOrPatch] on a claim: create the mutated object when the
    claim does not exist; otherwise mutate the fetched claim and patch it
    when the mutation changed it.  The mutation never touches the status,
    so no status patch is issued. *)
Definition CreateOrPatch (w : World) (claim : ipamv1.IPAddressClaim)
    (f : ipamv1.IPAddressClaim → ipamv1.IPAddressClaim)
  : result (ipamv1.IPAddressClaim * OperationResult) * World :=
  let k := key (ipamv1.ObjectMeta claim) in
  match getClaim w k with
  | Err e =>
      if apierrors.IsNotFound e then
        let obj := f claim in
        match createClaimError r k with
        | Some e' => (Err e', w)
        | None =>
            (Ok (obj, OperationResultCreated),
             record (CallCreateClaim k)
               (setClaims (store ipamv1.ObjectMeta obj (claims w)) w))
        end
      else (Err e, w)
  | Ok before =>
      let obj := f before in
      if bool_decide (obj = before) then (Ok (obj, OperationResultNone), w)
      else
        match patchClaimError r k with
        | Some e' => (Err e', w)
        | None =>
            (Ok (obj, OperationResultUpdated),
             record (CallPatchClaim k)
               (setClaims (store ipamv1.ObjectMeta obj (claims w)) w))
        end
  end.

Definition newClaim (name namespace : string) : ipamv1.IPAddressClaim :=
  ipamv1.mkIPAddressClaim
    (mkObjectMeta name namespace "" ∅ ∅ 0 None [] [])
    (corev1.mkTypedLocalObjectReference None "" "") "" ∅.

Definition createOrPatchIPAddressClaim (vmCtx : VMContext) (w : World) (name : string)
    (poolRef : corev1.TypedLocalObjectReference)
  : result (ipamv1.IPAddressClaim * bool) * World :=
  let claim := newClaim name (Namespace (VSphereVM.ObjectMeta (VSphereVM vmCtx))) in
  match CreateOrPatch w claim (mutateFn (VSphereVM vmCtx) poolRef) with
  | (Err e, w') => (Err e, w')
  | (Ok (claim', OperationResultCreated), w') => (Ok (claim', true), w')
  | (Ok (claim', OperationResultUpdated), w') => (Ok (claim', false), w')
  | (Ok (claim', OperationResultNone), w') => (Ok (claim', false), w')
  end.

(** The body of the two nested loops of [reconcileIPAddressClaims], run
    over the pairs still to visit.  An error of the first [Get] other than
    not-found leaves the function at once (first component [Some]); an
    error of the create-or-patch is collected and the loop goes on. *)
Fixpoint claimLoop (vmCtx : VMContext)
    (pairs : list (nat * nat * corev1.TypedLocalObjectReference))
    (acc : tally) (w : World) : option error * tally * World :=
  match pairs with
  | [] => (None, acc, w)
  | (devIdx, poolRefIdx, poolRef) :: rest =>
      let vm := VSphereVM vmCtx in
      let acc := mkTally (S (totalClaims acc)) (claimsCreated acc) (claimsFulfilled acc)
                   (claimConditions acc) (errList acc) in
      let ipAddrClaimName :=
        util.IPAddressClaimName (Name (VSphereVM.ObjectMeta vm)) devIdx poolRefIdx in
      let ipAddrClaimKey := (Namespace (VSphereVM.ObjectMeta vm), ipAddrClaimName) in
      let fetchFailed :=
        match getClaim w ipAddrClaimKey with
        | Err e => if apierrors.IsNotFound e then None else Some e
        | Ok _ => None
        end in
      match fetchFailed with
      | Some e => (Some e, acc, w)
      | None =>
          match createOrPatchIPAddressClaim vmCtx w ipAddrClaimName poolRef with
          | (Err e, w') =>
              claimLoop vmCtx rest
                (mkTally (totalClaims acc) (claimsCreated acc) (claimsFulfilled acc)
                   (claimConditions acc) (errList acc ++ [e])) w'
          | (Ok (ipAddrClaim, created), w') =>
              let c := if created then S (claimsCreated acc) else claimsCreated acc in
              let f := if bool_decide (ipamv1.AddressRefName ipAddrClaim ≠ "")
                       then S (claimsFulfilled acc) else claimsFulfilled acc in
              let cs := if conditions.Has (ipamv1.Conditions ipAddrClaim)
                             clusterv1.ReadyCondition
                        then claimConditions acc ++ [ipamv1.Conditions ipAddrClaim]
                        else claimConditions acc in
              claimLoop vmCtx rest (mkTally (totalClaims acc) c f cs (errList acc)) w'
          end
      end
  end.

(** The fallback classification of the address-claimed condition. *)
Definition fallbackCondition (t : tally) (vm : VSphereVM.t) : VSphereVM.t :=
  if bool_decide (totalClaims t = claimsFulfilled t) then
    markTrue IPAddressClaimedCondition vm
  else if bool_decide (claimsFulfilled t < totalClaims t ∧ 0 < claimsCreated t) then
    markFalse IPAddressClaimedCondition IPAddressClaimsBeingCreatedReason
      clusterv1.ConditionSeverityInfo
      (pretty (claimsCreated t) +:+ "/" +:+ pretty (totalClaims t)
         +:+ " claims being created") vm
  else if bool_decide (claimsFulfilled t < totalClaims t ∧ claimsCreated t = 0) then
    markFalse IPAddressClaimedCondition WaitingForIPAddressReason
      clusterv1.ConditionSeverityInfo
      (pretty (totalClaims t - claimsFulfilled t) +:+ "/" +:+ pretty (totalClaims t)
         +:+ " claims being processed") vm
  else vm.

Definition reconcileIPAddressClaims (vmCtx : VMContext) (w : World)
  : option error * VMContext * World :=
  match claimLoop vmCtx (claimPairs (VSphereVM vmCtx)) emptyTally w with
  | (Some e, _, w') => (Some e, vmCtx, w')
  | (None, t, w') =>
      let vm := VSphereVM vmCtx in
      match kerrors.NewAggregate (Some <$> errList t) with
      | Some aggregatedErr =>
          (Some aggregatedErr,
           setVSphereVM
             (markFalse IPAddressClaimedCondition IPAddressClaimNotFoundReason
                clusterv1.ConditionSeverityError (errorText r aggregatedErr) vm) vmCtx,
           w')
      | None =>
          if bool_decide (length (claimConditions t) = totalClaims t) then
            (None,
             setVSphereVM
               (VSphereVM.SetConditions
                  (conditions.SetAggregate (aggregateMerge r) (VSphereVM.GetConditions vm)
                     IPAddressClaimedCondition (claimConditions t)) vm) vmCtx,
             w')
          else (None, setVSphereVM (fallbackCondition t vm) vmCtx, w')
      end
  end.

(** [deleteIPAddressClaims]: for every device/pool pair, fetch the claim,
    skip it when it does not exist, and write it back only when removing
    the claim finalizer changed it. *)
Fixpoint releaseLoop (vm : VSphereVM.t)
    (pairs : list (nat * nat * corev1.TypedLocalObjectReference)) (w : World)
  : option error * World :=
  match pairs with
  | [] => (None, w)
  | (devIdx, poolRefIdx, _) :: rest =>
      let ipAddrClaimName :=
        util.IPAddressClaimName (Name (VSphereVM.ObjectMeta vm)) devIdx poolRefIdx in
      let ipAddrClaimKey := (Namespace (VSphereVM.ObjectMeta vm), ipAddrClaimName) in
      match getClaim w ipAddrClaimKey with
      | Err e =>
          if apierrors.IsNotFound e then releaseLoop vm rest w
          else (Some (Wrapf e "failed to find IPAddressClaim to remove the finalizer"), w)
      | Ok ipAddrClaim =>
          match ctrlutil.RemoveFinalizer (ipamv1.ObjectMeta ipAddrClaim)
                  IPAddressClaimFinalizer with
          | (m, true) =>
              match updateClaimError r ipAddrClaimKey with
              | Some e => (Some (Wrapf e "failed to update IPAddressClaim"), w)
              | None =>
                  releaseLoop vm rest
                    (record (CallUpdateClaim ipAddrClaimKey)
                       (setClaims
                          (store ipamv1.ObjectMeta (ipamv1.setObjectMeta m ipAddrClaim)
                             (claims w)) w))
              end
          | (_, false) => releaseLoop vm rest w
          end
      end
  end.

Definition deleteIPAddressClaims (vmCtx : VMContext) (w : World) : option error * World :=
  releaseLoop (VSphereVM vmCtx) (claimPairs (VSphereVM vmCtx)) w.


(** [isWaitingForStaticIPAllocation]: some device has neither DHCP nor a
    static address nor a pool to take one from. *)
Definition isWaitingForStaticIPAllocation (vmCtx : VMContext) : bool :=
  existsb (λ dev,
             negb (NetworkDeviceSpec.DHCP4 dev) && negb (NetworkDeviceSpec.DHCP6 dev)
             && Nat.eqb (length (NetworkDeviceSpec.IPAddrs dev)) 0
             && Nat.eqb (length (NetworkDeviceSpec.AddressesFromPools dev)) 0)
          (VSphereVMSpec.Devices (VSphereVM.Spec (VSphereVM vmCtx))).

Definition reconcileNetwork (o : VSphereVM.t) (vm : VirtualMachine.t) : VSphereVM.t :=
  let st := VSphereVMStatus.setNetwork (VirtualMachine.Network vm) (VSphereVM.Status o) in
  let ipAddrs := mjoin (IPAddrs <$> VSphereVMStatus.Network st) in
  VSphereVM.setStatus (VSphereVMStatus.setAddresses ipAddrs st) o.

Definition reconcileNormal (vmCtx : VMContext) (w : World)
  : (reconcile.Result * option error) * VMContext * World :=
  let st := VSphereVM.Status (VSphereVM vmCtx) in
  if bool_decide (VSphereVMStatus.FailureReason st ≠ None
                  ∨ VSphereVMStatus.FailureMessage st ≠ None) then
    ((reconcile.zero, None), vmCtx, w)
  else if isWaitingForStaticIPAllocation vmCtx then
    ((reconcile.zero, None),
     setVSphereVM
       (markFalse VMProvisionedCondition WaitingForStaticIPAllocationReason
          clusterv1.ConditionSeverityInfo "" (VSphereVM vmCtx)) vmCtx,
     w)
  else
    match reconcileIPAddressClaims vmCtx w with
    | (Some e, vmCtx, w) => ((reconcile.zero, Some e), vmCtx, w)
    | (None, vmCtx, w) =>
        let w := record CallReconcileVM w in
        match ReconcileVM r vmCtx with
        | Err e => ((reconcile.zero, Some (Wrapf e "failed to reconcile VM")), vmCtx, w)
        | Ok vm =>
            if bool_decide (VirtualMachine.State vm ≠ VirtualMachineStateReady) then
              ((reconcile.zero, None), vmCtx, w)
            else if bool_decide (VirtualMachine.BiosUUID vm ≠ "") then
              let o := setBiosUUID (VirtualMachine.BiosUUID vm) (VSphereVM vmCtx) in
              let o :=
                if bool_decide (VirtualMachine.VMRef vm ≠ "")
                   && bool_decide (VSphereVMStatus.VMRef (VSphereVM.Status o) = "")
                then setVMRef (VirtualMachine.VMRef vm) o
                else o in
              let o := reconcileNetwork o vm in
              if Nat.eqb (length (VSphereVMStatus.Addresses (VSphereVM.Status o))) 0 then
                ((reconcile.mkResult false 10, None),
                 setVSphereVM
                   (markFalse VMProvisionedCondition WaitingForIPAllocationReason
                      clusterv1.ConditionSeverityInfo "" o) vmCtx,
                 w)
              else
                ((reconcile.zero, None),
                 setVSphereVM (markTrue VMProvisionedCondition (setReady true o)) vmCtx,
                 w)
            else
              ((reconcile.zero, Some (Errorf "bios uuid is empty while VM is ready")),
               vmCtx, w)
        end
    end.

(** [errors.Is err remote.ErrClusterLocked]. *)
Fixpoint isClusterLocked (e : error) : bool :=
  match e with
  | ErrClusterLocked => true
  | Wrapf cause _ => isClusterLocked cause
  | _ => false
  end.

Definition deleteNode (vmCtx : VMContext) (w : World) (name : string)
  : (reconcile.Result * option error) * World :=
  match GetClusterFromMetadata r (VSphereVM.ObjectMeta (VSphereVM vmCtx)) with
  | Err e => ((reconcile.zero, Some e), w)
  | Ok cluster =>
      let k := key (clusterv1.ClusterMeta cluster) in
      match trackerGetClient r k with
      | Some e =>
          if isClusterLocked e then ((reconcile.mkResult true 0, None), w)
          else ((reconcile.zero, Some e), w)
      | None => ((reconcile.zero, remoteDelete r k name), record (CallDeleteNode name) w)
      end
  end.

Definition removeVMFinalizer (vm : VSphereVM.t) : VSphereVM.t :=
  VSphereVM.setObjectMeta
    (ctrlutil.RemoveFinalizer (VSphereVM.ObjectMeta vm) VMFinalizer).1 vm.

Definition reconcileDelete (vmCtx : VMContext) (w : World)
  : (reconcile.Result * option error) * VMContext * World :=
  let vmCtx :=
    setVSphereVM
      (markFalse VMProvisionedCondition clusterv1.DeletingReason
         clusterv1.ConditionSeverityInfo "" (VSphereVM vmCtx)) vmCtx in
  let w := record CallDestroyVM w in
  match DestroyVM r vmCtx with
  | (_, _, Some err) =>
      ((reconcile.zero, Some (Wrapf err "failed to destroy VM")),
       setVSphereVM
         (markFalse VMProvisionedCondition "DeletionFailed"
            clusterv1.ConditionSeverityWarning (errorText r err) (VSphereVM vmCtx)) vmCtx,
       w)
  | (result, vm, None) =>
      if negb (reconcile.IsZero result) then ((result, None), vmCtx, w)
      else if bool_decide (VirtualMachine.State vm ≠ VirtualMachineStateNotFound) then
        ((reconcile.zero, None), vmCtx, w)
      else
        match deleteNode vmCtx w (VirtualMachine.Name vm) with
        | ((result, _), w) =>
            if negb (reconcile.IsZero result) then ((result, None), vmCtx, w)
            else
              match deleteIPAddressClaims vmCtx w with
              | (Some err, w) => ((reconcile.zero, Some err), vmCtx, w)
              | (None, w) =>
                  ((reconcile.zero, None),
                   setVSphereVM (removeVMFinalizer (VSphereVM vmCtx)) vmCtx, w)
              end
        end
  end.

Record fetchClusterModuleInput : Type := mkFetchClusterModuleInput {
  InputVSphereCluster : VSphereCluster;
  InputMachine : clusterv1.Machine
}.

Definition fetchClusterModuleInfo (clusterModInput : fetchClusterModuleInput)
  : result (option string) :=
  let machine := InputMachine clusterModInput in
  let owner :=
    if IsControlPlaneMachine r machine then FetchControlPlaneOwnerObject r machine
    else FetchMachineDeploymentOwnerObject r machine in
  match owner with
  | Err e => if apierrors.IsNotFound e then Ok None else Err e
  | Ok ownerName =>
      match list_find (λ mod_, TargetObjectName mod_ = ownerName)
              (ClusterModules (InputVSphereCluster clusterModInput)) with
      | Some (_, mod_) => Ok (Some (ModuleUUID mod_))
      | None => Ok None
      end
  end.

Definition reconcile_ (vmCtx : VMContext) (w : World) (input : fetchClusterModuleInput)
  : (reconcile.Result * option error) * VMContext * World :=
  let deleting := negb (notDeleting (VSphereVM.ObjectMeta (VSphereVM vmCtx))) in
  let gate : result VMContext :=
    if NodeAntiAffinity r then
      match fetchClusterModuleInfo input with
      | Err e => if deleting then Ok (setClusterModuleInfo None vmCtx) else Err e
      | Ok clusterModuleInfo => Ok (setClusterModuleInfo clusterModuleInfo vmCtx)
      end
    else Ok vmCtx in
  match gate with
  | Err e => ((reconcile.zero, Some e), vmCtx, w)
  | Ok vmCtx =>
      if deleting then reconcileDelete vmCtx w else reconcileNormal vmCtx w
  end.

Definition retrieveVcenterSession (vsphereVM : VSphereVM.t) : result session.Session :=
  let spec := VSphereVM.Spec vsphereVM in
  let params :=
    session.mkParams (VSphereVMSpec.Server spec) (VSphereVMSpec.Datacenter spec)
      (Username r) (Password r) (VSphereVMSpec.Thumbprint spec) in
  match GetClusterFromMetadata r (VSphereVM.ObjectMeta vsphereVM) with
  | Err _ => GetOrCreate r params
  | Ok cluster =>
      match clusterv1.InfrastructureRef cluster with
      | None =>
          Err (Errorf "cannot retrieve vCenter session: .spec.infrastructureRef is nil")
      | Some ref =>
          let k := (Namespace (clusterv1.ClusterMeta cluster), clusterv1.InfraRefName ref) in
          match getVSphereCluster r k with
          | Err _ => GetOrCreate r params
          | Ok vsphereCluster =>
              match IdentityRef vsphereCluster with
              | Some _ =>
                  match GetCredentials r vsphereCluster with
                  | Err e => Err (Wrapf e "failed to retrieve credentials from IdentityRef")
                  | Ok (u, p) => GetOrCreate r (session.WithUserInfo u p params)
                  end
              | None => GetOrCreate r params
              end
          end
      end
  end.

(** [Client.Get] of the VSphereVM. *)
Definition getVM (w : World) (k : ObjectKey) : result VSphereVM.t :=
  match getVMError r k with
  | Some e => Err e
  | None =>
      match vms w !! k with
      | Some vm => Ok vm
      | None => Err (StatusNotFound k.2)
      end
  end.

(** The lookup of the failure domain of the machine, through its
    deployment zone. *)
Definition lookupFailureDomain (machine : clusterv1.Machine)
  : result (option infrav1.VSphereFailureDomain) :=
  match clusterv1.FailureDomain machine with
  | None => Ok None
  | Some failureDomain =>
      match getDeploymentZone r failureDomain with
      | Err e => Err (Wrapf e "failed to find vsphere deployment zone")
      | Ok vsphereDeploymentZone =>
          match getFailureDomain r (VSphereDeploymentZone.FailureDomain vsphereDeploymentZone) with
          | Err e => Err (Wrapf e "failed to find vsphere failure domain")
          | Ok d => Ok (Some d)
          end
      end
  end.

(** The deferred function of [Reconcile]: refresh the summary condition
    and patch the VSphereVM, on every exit path that follows its
    registration. *)
Definition patchOnExit (out : (reconcile.Result * option error) * VMContext * World)
  : (reconcile.Result * option error) * World :=
  match out with
  | ((res, reterr), vmCtx, w) =>
      let vm := VSphereVM vmCtx in
      let vm :=
        VSphereVM.SetConditions
          (conditions.SetSummary (summaryMerge r) (VSphereVM.GetConditions vm)
             [VCenterAvailableCondition; IPAddressClaimedCondition; VMProvisionedCondition])
          vm in
      match patchVMError r vm with
      | Some e => ((res, kerrors.NewAggregate [reterr; Some e]), w)
      | None =>
          ((res, reterr),
           record (CallPatchVM (key (VSphereVM.ObjectMeta vm)))
             (setVMs (store VSphereVM.ObjectMeta vm (vms w)) w))
      end
  end.

(** The part of [Reconcile] that runs under the deferred patch: the pause
    check, the finalizer gate, and the call of [reconcile]. *)
Definition reconcileBody (vmContext : VMContext) (w : World)
    (input : fetchClusterModuleInput)
  : (reconcile.Result * option error) * VMContext * World :=
  let vsphereVM := VSphereVM vmContext in
  let paused :=
    match GetClusterFromMetadata r (VSphereVM.ObjectMeta vsphereVM) with
    | Ok cluster => annotations.IsPaused cluster (VSphereVM.ObjectMeta vsphereVM)
    | Err _ => false
    end in
  if paused then ((reconcile.zero, None), vmContext, w)
  else if notDeleting (VSphereVM.ObjectMeta vsphereVM)
          && negb (ctrlutil.ContainsFinalizer (VSphereVM.ObjectMeta vsphereVM) VMFinalizer)
  then
    ((reconcile.zero, None),
     setVSphereVM
       (VSphereVM.setObjectMeta
          (ctrlutil.AddFinalizer (VSphereVM.ObjectMeta vsphereVM) VMFinalizer) vsphereVM)
       vmContext,
     w)
  else reconcile_ vmContext w input.

Definition Reconcile (w : World) (req : ObjectKey)
  : (reconcile.Result * option error) * World :=
  match getVM w req with
  | Err e =>
      if apierrors.IsNotFound e then ((reconcile.zero, None), w)
      else ((reconcile.zero, Some e), w)
  | Ok vsphereVM =>
      match newHelperError r vsphereVM with
      | Some e => ((reconcile.zero, Some (Wrapf e "failed to init patch helper")), w)
      | None =>
          match retrieveVcenterSession vsphereVM with
          | Err e => ((reconcile.zero, Some e), w)
          | Ok authSession =>
              let vsphereVM := markTrue VCenterAvailableCondition vsphereVM in
              match GetOwnerVSphereMachine r (VSphereVM.ObjectMeta vsphereVM) with
              | Err _ | Ok None => ((reconcile.zero, None), w)
              | Ok (Some vsphereMachine) =>
                  match GetVSphereClusterFromVSphereMachine r vsphereMachine with
                  | Err _ | Ok None => ((reconcile.zero, None), w)
                  | Ok (Some vsphereCluster) =>
                      match GetOwnerMachine r (VSphereMachineMeta vsphereMachine) with
                      | Err e => ((reconcile.zero, Some e), w)
                      | Ok None => ((reconcile.zero, None), w)
                      | Ok (Some machine) =>
                          match lookupFailureDomain machine with
                          | Err e => ((reconcile.zero, Some e), w)
                          | Ok vsphereFailureDomain =>
                              patchOnExit
                                (reconcileBody
                                   (mkVMContext vsphereVM vsphereFailureDomain
                                      authSession None)
                                   w
                                   (mkFetchClusterModuleInput vsphereCluster machine))
                          end
                      end
                  end
              end
          end
      end
  end.


(** [clusterToVSphereVMs]: the keys of the VSphereVMs that carry the
    cluster-name label of the cluster, or nothing when the list fails. *)
Definition clusterToVSphereVMs (w : World) (a : ObjectMeta) : list ObjectKey :=
  match listVMsError r with
  | Some _ => []
  | None =>
      (λ vm, (Namespace (VSphereVM.ObjectMeta vm), Name (VSphereVM.ObjectMeta vm)))
        <$> filter (λ vm, Labels (VSphereVM.ObjectMeta vm) !! clusterv1.ClusterNameLabel
                          = Some (Name a))
              (map_to_list (vms w)).*2
  end.

End reconciler.

End VMController.

(** ** Watches *)

Module event.
Inductive Event (A : Type) : Type :=
| CreateEvent (Object : A)
| UpdateEvent (ObjectOld ObjectNew : A)
| DeleteEvent (Object : A)
| GenericEvent (Object : A).
Arguments CreateEvent {A} Object.
Arguments UpdateEvent {A} ObjectOld ObjectNew.
Arguments DeleteEvent {A} Object.
Arguments GenericEvent {A} Object.
End event.

Module predicates.
Import metav1.

Definition ResourceNotPaused (o : ObjectMeta) : bool := negb (annotations.HasPaused o).

Definition ResourceHasFilterLabel (labelValue : string) (o : ObjectMeta) : bool :=
  if bool_decide (labelValue = "") then true
  else bool_decide (Labels o !! clusterv1.WatchLabel = Some labelValue).

(** The filter looks at the object of the event, the new one for an
    update. *)
Definition ResourceNotPausedAndHasFilterLabel {A : Type} (meta : A → ObjectMeta)
    (labelValue : string) (e : event.Event A) : bool :=
  let o := match e with
           | event.CreateEvent o | event.DeleteEvent o | event.GenericEvent o => meta o
           | event.UpdateEvent _ o => meta o
           end in
  ResourceNotPaused o && ResourceHasFilterLabel labelValue o.
End predicates.

Module handler.
(** [EnqueueRequestsFromMapFunc]: an update maps the old and the new
    object, and a key is enqueued once. *)
Definition EnqueueRequestsFromMapFunc {A : Type} (mapFn : A → list ObjectKey)
    (e : event.Event A) : list ObjectKey :=
  match e with
  | event.CreateEvent o | event.DeleteEvent o | event.GenericEvent o =>
      remove_dups (mapFn o)
  | event.UpdateEvent old new => remove_dups (mapFn old ++ mapFn new)
  end.
End handler.

Module VMWatches.
Import clusterv1.

(** The predicate functions of the Cluster watch in
    [AddVMControllerToManager]; the functions left unset accept. *)
Definition clusterUpdateFunc (ObjectOld ObjectNew : Cluster) : bool :=
  let newCluster := ObjectNew in
  negb (annotations.IsPaused newCluster (ClusterMeta newCluster)).

Definition clusterCreateFunc (Object : Cluster) : bool :=
  let cluster := Object in
  annotations.IsPaused cluster (ClusterMeta cluster).

Definition clusterPredicates (e : event.Event Cluster) : bool :=
  match e with
  | event.UpdateEvent old new => clusterUpdateFunc old new
  | event.CreateEvent o => clusterCreateFunc o
  | event.DeleteEvent _ | event.GenericEvent _ => true
  end.

(** The keys the Cluster watch enqueues for an event: the event filter of
    the controller and the predicates of the watch must both accept, and
    the map function then yields the keys. *)
Definition clusterWatch (r : vmReconciler) (w : World) (e : event.Event Cluster)
  : list ObjectKey :=
  if predicates.ResourceNotPausedAndHasFilterLabel ClusterMeta (WatchFilterValue r) e
     && clusterPredicates e
  then handler.EnqueueRequestsFromMapFunc
         (λ c, VMController.clusterToVSphereVMs r w (ClusterMeta c)) e
  else [].
End VMWatches.

(** ** The deployment-zone controller *)

Module collections.
Import clusterv1.

(** [collections.Machines]: a collection of machines keyed by the machine
    name alone, without the namespace. *)
Abbreviation Machines := (gmap string Machine).

(** [Insert]: the machine takes the place of the one held under its
    name. *)
Definition Insert (s : Machines) (m : Machine) : Machines :=
  <[metav1.Name (MachineMeta m) := m]> s.

(** [FromMachineList]: the items are inserted in the order of the list, so
    of several listed machines of one name, whatever their namespaces,
    only the last is held. *)
Definition FromMachineList (items : list Machine) : Machines :=
  foldl Insert ∅ items.

Definition ActiveMachines (machine : Machine) : bool :=
  metav1.notDeleting (MachineMeta machine).

(** [Filter]: the collection of the held machines that pass every
    filter. *)
Definition Filter (filters : list (Machine → bool)) (s : Machines) : Machines :=
  filter (λ kv, forallb (λ f, f kv.2) filters = true) s.

Definition byCreationTimestamp (a b : Machine) : Prop :=
  let ta := metav1.CreationTimestamp (MachineMeta a) in
  let tb := metav1.CreationTimestamp (MachineMeta b) in
  if bool_decide (ta = tb)
  then String.leb (metav1.Name (MachineMeta a)) (metav1.Name (MachineMeta b)) = true
  else ta < tb.

#[global] Instance byCreationTimestamp_dec a b : Decision (byCreationTimestamp a b).
Proof. unfold byCreationTimestamp. case_bool_decide; apply _. Defined.

(** [SortedByCreationTimestamp]: the held machines, sorted. *)
Definition SortedByCreationTimestamp (s : Machines) : list Machine :=
  merge_sort byCreationTimestamp (map_to_list s).*2.
End collections.

Module ZoneController.
Import metav1 infrav1.

(** Modelled from the spec: the helper package is not part of the sources;
    the blocking machines are enumerated by namespace and name. *)
Definition MachinesAsString (machines : list clusterv1.Machine) : list string :=
  (λ m, Namespace (clusterv1.MachineMeta m) +:+ "/" +:+ Name (clusterv1.MachineMeta m))
    <$> machines.

Inductive ZoneCall : Type :=
| CallPatchFailureDomain (name : string)
| CallDeleteFailureDomain (name : string).

(** Failure domains are cluster scoped and stored by name. *)
Record ZoneWorld : Type := mkZoneWorld {
  failureDomains : gmap string VSphereFailureDomain;
  zoneCalls : list ZoneCall
}.

(** The receiver of the deployment-zone controller: the answer of the
    machine list, and the failures the client may report. *)
Record vsphereDeploymentZoneReconciler : Type := mkZoneReconciler {
  listMachines : result (list clusterv1.Machine);
  getFailureDomainError : string → option error;
  newHelperError : VSphereFailureDomain → option error;
  patchError : VSphereFailureDomain → option error;
  deleteError : string → option error
}.

Definition setFailureDomainOwnerReferences (refs : list OwnerReference)
    (d : VSphereFailureDomain) : VSphereFailureDomain :=
  mkVSphereFailureDomain (setOwnerReferences refs (FailureDomainMeta d))
    (TopologyDatacenter d).

Section reconciler.
Variable r : vsphereDeploymentZoneReconciler.

Definition getFailureDomain (w : ZoneWorld) (name : string) : result VSphereFailureDomain :=
  match getFailureDomainError r name with
  | Some e => Err e
  | None =>
      match failureDomains w !! name with
      | Some d => Ok d
      | None => Err (StatusNotFound name)
      end
  end.

(** [updateOwnerReferences]: set the owner references the function
    computes and patch the object. *)
Definition updateOwnerReferences (w : ZoneWorld) (obj : VSphereFailureDomain)
    (ownerRefFunc : unit → list OwnerReference)
  : result VSphereFailureDomain * ZoneWorld :=
  match newHelperError r obj with
  | Some e => (Err (Wrapf e "failed to init patch helper"), w)
  | None =>
      let obj := setFailureDomainOwnerReferences (ownerRefFunc ()) obj in
      match patchError r obj with
      | Some e => (Err (Wrapf e "failed to patch object"), w)
      | None =>
          (Ok obj,
           mkZoneWorld (<[Name (FailureDomainMeta obj) := obj]> (failureDomains w))
             (zoneCalls w ++ [CallPatchFailureDomain (Name (FailureDomainMeta obj))]))
      end
  end.

Definition machinesUsingDeploymentZone (zone : VSphereDeploymentZone.t)
    (machines : list clusterv1.Machine) : collections.Machines :=
  collections.Filter
    [collections.ActiveMachines;
     λ machine,
       match clusterv1.FailureDomain machine with
       | Some fd => bool_decide (fd = Name (VSphereDeploymentZone.ObjectMeta zone))
       | None => false
       end]
    (collections.FromMachineList machines).

Definition removeZoneFinalizer (zone : VSphereDeploymentZone.t) : VSphereDeploymentZone.t :=
  VSphereDeploymentZone.setObjectMeta
    (ctrlutil.RemoveFinalizer (VSphereDeploymentZone.ObjectMeta zone)
       DeploymentZoneFinalizer).1 zone.

(** The owner reference of the zone that [reconcileDelete] looks for. *)
Definition zoneOwnerRef (zone : VSphereDeploymentZone.t) : OwnerReference :=
  mkOwnerReference GroupVersionGroup GroupVersionVersion (VSphereDeploymentZone.Kind zone)
    (Name (VSphereDeploymentZone.ObjectMeta zone)) "".

(** [reconcileDelete] of the deployment zone.  The delete of the failure
    domain removes it from the store. *)
Definition reconcileDelete (zone : VSphereDeploymentZone.t) (w : ZoneWorld)
  : option error * VSphereDeploymentZone.t * ZoneWorld :=
  match listMachines r with
  | Err e => (Some (Wrapf e "unable to list machines"), zone, w)
  | Ok machines =>
      let blocking := machinesUsingDeploymentZone zone machines in
      if negb (Nat.eqb (size blocking) 0) then
        let machineNamesStr :=
          MachinesAsString (collections.SortedByCreationTimestamp blocking) in
        (Some (InUseError (Name (VSphereDeploymentZone.ObjectMeta zone)) machineNamesStr),
         zone, w)
      else
        match getFailureDomain w (VSphereDeploymentZone.FailureDomain zone) with
        | Err e =>
            if apierrors.IsNotFound e then (None, removeZoneFinalizer zone, w)
            else (Some e, zone, w)
        | Ok failureDomain =>
            match updateOwnerReferences w failureDomain
                    (λ _, clusterutilv1.RemoveOwnerRef
                            (OwnerReferences (FailureDomainMeta failureDomain))
                            (zoneOwnerRef zone)) with
            | (Err e, w) => (Some e, zone, w)
            | (Ok failureDomain, w) =>
                let name := Name (FailureDomainMeta failureDomain) in
                let deleted : option error * ZoneWorld :=
                  if Nat.eqb (length (OwnerReferences (FailureDomainMeta failureDomain))) 0
                  then
                    match deleteError r name with
                    | Some e =>
                        if apierrors.IsNotFound e then (None, w)
                        else (Some (Wrapf e "failed to delete VSphereFailureDomain"), w)
                    | None =>
                        (None,
                         mkZoneWorld (delete name (failureDomains w))
                           (zoneCalls w ++ [CallDeleteFailureDomain name]))
                    end
                  else (None, w) in
                match deleted with
                | (Some e, w) => (Some e, zone, w)
                | (None, w) => (None, removeZoneFinalizer zone, w)
                end
            end
        end
  end.

End reconciler.
End ZoneController.

(** ** Sample objects

    Concrete resources and collaborators on which the models are run. *)

Module Fixtures.
Import metav1 infrav1 capvcontext.

Definition meta (name : string) (finalizers : list string) : ObjectMeta :=
  mkObjectMeta name "default" "uid-1" {[clusterv1.ClusterNameLabel := "c1"]} ∅ 0 None
    finalizers [].

Definition emptyStatus : VSphereVMStatus.t :=
  VSphereVMStatus.mk "" [] [] false None None "" ∅.

Definition dhcpDevice : NetworkDeviceSpec.t := NetworkDeviceSpec.mk true false [] [].

Definition poolRefA : corev1.TypedLocalObjectReference :=
  corev1.mkTypedLocalObjectReference (Some "ipam.cluster.x-k8s.io") "InClusterIPPool" "pool-a".

Definition poolDevice : NetworkDeviceSpec.t :=
  NetworkDeviceSpec.mk false false [] [poolRefA].

Definition vmWith (finalizers : list string) (biosUUID : string)
    (devices : list NetworkDeviceSpec.t) : VSphereVM.t :=
  VSphereVM.mk GroupVersionGroup GroupVersionVersion "VSphereVM" (meta "vm-a" finalizers)
    (VSphereVMSpec.mk "vcenter" "dc" "" biosUUID devices) emptyStatus.

Definition observed (state : VirtualMachineState) (biosUUID : string) : VirtualMachine.t :=
  VirtualMachine.mk "vm-a" biosUUID state [mkNetworkStatus true ["10.0.0.5"] "" "net"] "vm-1".

Definition plainMeta (name : string) : ObjectMeta :=
  mkObjectMeta name "default" "" ∅ ∅ 0 None [] [].

Definition cluster1 : clusterv1.Cluster :=
  clusterv1.mkCluster (plainMeta "c1") false (Some (clusterv1.mkObjectReference "c1")).

Definition vsphereCluster1 : VSphereCluster :=
  mkVSphereCluster (plainMeta "c1") "vcenter" "" None [].

Definition vsphereMachine1 : VSphereMachine := mkVSphereMachine (plainMeta "vm-a").

Definition machine1 : clusterv1.Machine := clusterv1.mkMachine (plainMeta "m1") None.

Definition session1 : session.Session := session.mkSession "s".

(** A reconciler whose collaborators all answer without failure: the
    backend observes [vm] on reconcile and reports [gone] on destroy. *)
Definition healthy (vm gone : VirtualMachine.t) : vmReconciler :=
  {| Username := "user"; Password := "secret"; WatchFilterValue := "";
     NodeAntiAffinity := false;
     ReconcileVM := λ _, Ok vm;
     DestroyVM := λ _, (reconcile.zero, gone, None);
     trackerGetClient := λ _, None;
     remoteDelete := λ _ _, None;
     GetOrCreate := λ _, Ok session1;
     GetCredentials := λ _, Ok ("user", "secret");
     GetClusterFromMetadata := λ _, Ok cluster1;
     getVSphereCluster := λ _, Ok vsphereCluster1;
     GetOwnerVSphereMachine := λ _, Ok (Some vsphereMachine1);
     GetVSphereClusterFromVSphereMachine := λ _, Ok (Some vsphereCluster1);
     GetOwnerMachine := λ _, Ok (Some machine1);
     getDeploymentZone := λ n, Err (StatusNotFound n);
     getFailureDomain := λ n, Err (StatusNotFound n);
     IsControlPlaneMachine := λ _, false;
     FetchControlPlaneOwnerObject := λ _, Ok "kcp";
     FetchMachineDeploymentOwnerObject := λ _, Ok "md";
     getVMError := λ _, None;
     listVMsError := None;
     newHelperError := λ _, None;
     patchVMError := λ _, None;
     getClaimError := λ _, None;
     createClaimError := λ _, None;
     patchClaimError := λ _, None;
     updateClaimError := λ _, None;
     summaryMerge := λ _, None;
     aggregateMerge := λ _, None;
     errorText := λ _, "" |}.

Definition readyBackend (biosUUID : string) : vmReconciler :=
  healthy (observed VirtualMachineStateReady biosUUID)
    (observed VirtualMachineStateNotFound "").

Definition worldOf (vm : VSphereVM.t) : World :=
  mkWorld {[key (VSphereVM.ObjectMeta vm) := vm]} ∅ [].

Definition contextOf (vm : VSphereVM.t) : VMContext := mkVMContext vm None session1 None.

Definition keyA : ObjectKey := ("default", "vm-a").

(** A claim of the VM that the allocator has already resolved. *)
Definition resolvedClaim : ipamv1.IPAddressClaim :=
  ipamv1.mkIPAddressClaim
    (mkObjectMeta "vm-a-0-0" "default" "uid-c" ∅ ∅ 0 None [IPAddressClaimFinalizer] [])
    poolRefA "address-1"
    {[clusterv1.ReadyCondition := conditions.TrueCondition clusterv1.ReadyCondition]}.

Definition zone1 : VSphereDeploymentZone.t :=
  VSphereDeploymentZone.mk "VSphereDeploymentZone"
    (mkObjectMeta "zone-a" "" "uid-z" ∅ ∅ 0 (Some 5) [DeploymentZoneFinalizer] [])
    "vcenter" "fd-a".

Definition machineIn (name zone : string) : clusterv1.Machine :=
  clusterv1.mkMachine (plainMeta name) (Some zone).

Definition failureDomain1 : infrav1.VSphereFailureDomain :=
  mkVSphereFailureDomain
    (mkObjectMeta "fd-a" "" "uid-f" ∅ ∅ 0 None []
       [mkOwnerReference GroupVersionGroup GroupVersionVersion "VSphereDeploymentZone"
          "zone-a" "uid-z"])
    "dc".

Definition zoneReconcilerWith (machines : list clusterv1.Machine)
  : ZoneController.vsphereDeploymentZoneReconciler :=
  ZoneController.mkZoneReconciler (Ok machines) (λ _, None) (λ _, None) (λ _, None)
    (λ _, None).

Definition zoneWorld1 : ZoneController.ZoneWorld :=
  ZoneController.mkZoneWorld {["fd-a" := failureDomain1]} [].
End Fixtures.

(** ** Store invariants and trace measures *)

Module Invariants.
Import metav1 infrav1 VMController.

(** Every stored claim sits under its own namespace and name. *)
Definition wellKeyed (cs : gmap ObjectKey ipamv1.IPAddressClaim) : Prop :=
  ∀ k c, cs !! k = Some c → key (ipamv1.ObjectMeta c) = k.

(** The claim under a key needs no release: the client reports it as not
    found, or it does not carry the claim finalizer. *)
Definition released (r : vmReconciler) (w : World) (k : ObjectKey) : Prop :=
  match getClaim r w k with
  | Err e => apierrors.IsNotFound e = true
  | Ok c => IPAddressClaimFinalizer ∉ Finalizers (ipamv1.ObjectMeta c)
  end.

Definition isCreateClaim (c : Call) : bool :=
  match c with CallCreateClaim _ => true | _ => false end.

(** The number of claim creations in a trace of calls. *)
Definition createdCalls (cs : list Call) : nat :=
  length (filter (λ c, isCreateClaim c = true) cs).
End Invariants.

(** ** Further watches of the VM controller *)

Module VMMappers.
Import metav1 infrav1.

(** [clusterutilv1.HasOwner]: some reference has the group of the API
    version and one of the kinds. *)
Definition HasOwner (refList : list OwnerReference) (group : string) (kinds : list string)
  : bool :=
  existsb (λ mr, bool_decide (Group mr = group) && bool_decide (Kind mr ∈ kinds)) refList.

(** [ipAddressClaimToVSphereVM]: when the claim has an owner of the
    infrastructure group and kind VSphereVM, the request names the first
    owner reference of kind VSphereVM, in the namespace of the claim. *)
Definition ipAddressClaimToVSphereVM (ipAddressClaim : ipamv1.IPAddressClaim)
  : list ObjectKey :=
  let refs := OwnerReferences (ipamv1.ObjectMeta ipAddressClaim) in
  if HasOwner refs GroupVersionGroup ["VSphereVM"] then
    match list_find (λ ref, Kind ref = "VSphereVM") refs with
    | Some (_, ref) => [(Namespace (ipamv1.ObjectMeta ipAddressClaim), RefName ref)]
    | None => []
    end
  else [].

(** [vsphereClusterToVSphereVMs]: the VSphereVMs that carry the
    cluster-name label of the VSphereCluster; nothing when the
    VSphereCluster has no such label or the list fails. *)
Definition vsphereClusterToVSphereVMs (r : vmReconciler) (w : World) (a : VSphereCluster)
  : list ObjectKey :=
  match Labels (VSphereClusterMeta a) !! clusterv1.ClusterNameLabel with
  | None => []
  | Some clusterName =>
      match listVMsError r with
      | Some _ => []
      | None =>
          (λ vm, (Namespace (VSphereVM.ObjectMeta vm), Name (VSphereVM.ObjectMeta vm)))
            <$> filter (λ vm, Labels (VSphereVM.ObjectMeta vm) !! clusterv1.ClusterNameLabel
                              = Some clusterName)
                  (map_to_list (vms w)).*2
      end
  end.

(** The predicates of the VSphereCluster watch: only an update that
    changes the cluster modules passes.  [Compare] is the comparison of
    the cluster-module package, a parameter. *)
Definition vsphereClusterPredicates
    (Compare : list ClusterModule → list ClusterModule → bool)
    (e : event.Event VSphereCluster) : bool :=
  match e with
  | event.UpdateEvent oldCluster newCluster =>
      negb (Compare (ClusterModules oldCluster) (ClusterModules newCluster))
  | event.CreateEvent _ | event.DeleteEvent _ | event.GenericEvent _ => false
  end.

Definition vsphereClusterWatch
    (Compare : list ClusterModule → list ClusterModule → bool)
    (r : vmReconciler) (w : World) (e : event.Event VSphereCluster) : list ObjectKey :=
  if predicates.ResourceNotPausedAndHasFilterLabel VSphereClusterMeta (WatchFilterValue r) e
     && vsphereClusterPredicates Compare e
  then handler.EnqueueRequestsFromMapFunc (vsphereClusterToVSphereVMs r w) e
  else [].
End VMMappers.

(** ** Kinds of outgoing calls *)

Module Traces.
Definition isBackendCall (c : Call) : bool :=
  match c with CallReconcileVM | CallDestroyVM => true | _ => false end.

(** The writes of a claim through the API client: the create or patch of
    the create-or-patch, and the update that releases a claim. *)
Definition isClaimEnsure (c : Call) : bool :=
  match c with CallCreateClaim _ | CallPatchClaim _ => true | _ => false end.

Definition isClaimRelease (c : Call) : bool :=
  match c with CallUpdateClaim _ => true | _ => false end.

(** The keys of the claims of a VSphereVM, one per device/pool pair. *)
Definition claimKeys (vm : infrav1.VSphereVM.t) : list ObjectKey :=
  (λ '(devIdx, poolRefIdx, _),
     (metav1.Namespace (infrav1.VSphereVM.ObjectMeta vm),
      util.IPAddressClaimName (metav1.Name (infrav1.VSphereVM.ObjectMeta vm))
        devIdx poolRefIdx))
    <$> VMController.claimPairs vm.
End Traces.

(** ** What a reconcile may change *)

Module Frames.
Import metav1 infrav1.

(** Two versions of a VSphereVM that differ at most in the fields the
    lifecycle manages: the finalizers, the hardware id of the spec, and,
    in the status, the VM reference, the network status, the addresses,
    the readiness flag and the conditions. *)
Definition sameButLifecycle (a b : VSphereVM.t) : Prop :=
  VSphereVM.Group b = VSphereVM.Group a
  ∧ VSphereVM.Version b = VSphereVM.Version a
  ∧ VSphereVM.Kind b = VSphereVM.Kind a
  ∧ setFinalizers [] (VSphereVM.ObjectMeta b) = setFinalizers [] (VSphereVM.ObjectMeta a)
  ∧ VSphereVMSpec.setBiosUUID "" (VSphereVM.Spec b)
    = VSphereVMSpec.setBiosUUID "" (VSphereVM.Spec a)
  ∧ VSphereVMStatus.FailureReason (VSphereVM.Status b)
    = VSphereVMStatus.FailureReason (VSphereVM.Status a)
  ∧ VSphereVMStatus.FailureMessage (VSphereVM.Status b)
    = VSphereVMStatus.FailureMessage (VSphereVM.Status a)
  ∧ VSphereVMStatus.TaskRef (VSphereVM.Status b)
    = VSphereVMStatus.TaskRef (VSphereVM.Status a).
End Frames.

(** ** Further sample objects *)

Module Samples2.
Import metav1 infrav1 capvcontext.

(** A VSphereVM that is already placed and ready: reference "vm-0", id
    "h-0", while the sample backend observes "vm-1". *)
Definition placedVM : VSphereVM.t :=
  VSphereVM.setStatus
    (VSphereVMStatus.mk "vm-0" [] ["10.0.0.4"] true None None "" ∅)
    (Fixtures.vmWith [VMFinalizer] "h-0" [Fixtures.dhcpDevice]).

(** A VSphereVM marked for deletion. *)
Definition deletingVM (devices : list NetworkDeviceSpec.t) : VSphereVM.t :=
  VSphereVM.mk GroupVersionGroup GroupVersionVersion "VSphereVM"
    (mkObjectMeta "vm-a" "default" "uid-1" {[clusterv1.ClusterNameLabel := "c1"]} ∅ 0
       (Some 7) [VMFinalizer] [])
    (VSphereVMSpec.mk "vcenter" "dc" "" "h-1" devices) Fixtures.emptyStatus.

(** A VSphereVM with a terminal failure. *)
Definition failedVM : VSphereVM.t :=
  VSphereVM.setStatus
    (VSphereVMStatus.mk "" [] [] false (Some "UpdateError") (Some "vm is gone") "" ∅)
    (Fixtures.vmWith [VMFinalizer] "h-0" [Fixtures.poolDevice]).
End Samples2.

(** ** The normal path of the deployment-zone controller *)

Module ZoneNormal.
Import metav1 infrav1.

Definition PlacementConstraintMetCondition : string := "PlacementConstraintMet".
Definition VSphereFailureDomainValidatedCondition : string := "VSphereFailureDomainValidated".
Definition ResourcePoolNotFoundReason : string := "ResourcePoolNotFound".
Definition FolderNotFoundReason : string := "FolderNotFound".

(** [session.Params.WithThumbprint]. *)
Definition WithThumbprint (t : string) (ps : session.Params) : session.Params :=
  session.mkParams (session.server ps) (session.datacenter ps) (session.username ps)
    (session.password ps) t.

(** The deployment zone as the normal path reads and writes it: the
    record of the zone, the placement constraint of its spec, and its
    status ([Ready] is a pointer, nil until the first reconcile sets
    it). *)
Record Zone : Type := mkZone {
  Object : VSphereDeploymentZone.t;
  ResourcePool : string;
  Folder : string;
  Ready : option bool;
  Conditions : gmap string clusterv1.Condition
}.

Definition setObject (o : VSphereDeploymentZone.t) (z : Zone) : Zone :=
  mkZone o (ResourcePool z) (Folder z) (Ready z) (Conditions z).
Definition setReady (b : option bool) (z : Zone) : Zone :=
  mkZone (Object z) (ResourcePool z) (Folder z) b (Conditions z).
Definition setConditions (cs : gmap string clusterv1.Condition) (z : Zone) : Zone :=
  mkZone (Object z) (ResourcePool z) (Folder z) (Ready z) cs.

Definition markTrue (t : string) (z : Zone) : Zone :=
  setConditions (conditions.MarkTrue (Conditions z) t) z.
Definition markFalse (t reason : string) (sev : clusterv1.ConditionSeverity)
    (msg : string) (z : Zone) : Zone :=
  setConditions (conditions.MarkFalse (Conditions z) t reason sev msg) z.

Record VSphereDeploymentZoneContext : Type := mkContext {
  VSphereDeploymentZone : Zone;
  AuthSession : option session.Session
}.

Definition setZone (z : Zone) (c : VSphereDeploymentZoneContext)
  : VSphereDeploymentZoneContext :=
  mkContext z (AuthSession c).

(** The zones and the failure domains, both cluster scoped and stored by
    name, with the trace of the writes of failure domains and the names
    of the zones patched. *)
Record ZoneStore : Type := mkZoneStore {
  zones : gmap string Zone;
  domains : ZoneController.ZoneWorld;
  zonePatches : list string
}.

(** The receiver of the deployment-zone controller on the normal path:
    the part the delete path uses, the credentials of the controller
    context, the answers of the API client, of the identity package, of
    the session package and of the inventory finder of a session, and the
    text [Error()] renders.  Modelled from the spec:
    [reconcileFailureDomain] is not part of the sources; it is a
    parameter that may change the zone and the failure domains and may
    fail.  So is the merge strategy behind the summary condition that the
    [Patch] method of the context refreshes. *)
Record reconciler : Type := mkReconciler {
  Base : ZoneController.vsphereDeploymentZoneReconciler;
  Username : string;
  Password : string;
  listClusters : result (list VSphereCluster);
  GetCredentials : VSphereCluster → result (string * string);
  GetOrCreate : session.Params → result session.Session;
  FinderResourcePool : session.Session → string → option error;
  FinderFolder : session.Session → string → option error;
  reconcileFailureDomain :
    VSphereDeploymentZoneContext → VSphereFailureDomain → ZoneController.ZoneWorld →
    option error * VSphereDeploymentZoneContext * ZoneController.ZoneWorld;
  errorText : error → string;
  getZoneError : string → option error;
  newZoneHelperError : Zone → option error;
  patchZoneError : Zone → option error;
  summaryMerge : list clusterv1.Condition → option clusterv1.Condition
}.

Section reconciler.
Variable r : reconciler.

(** The loop of [getVCenterSession] over the VSphereClusters still to
    visit.  A cluster on another server or without an identity is
    skipped; the thumbprint of a cluster on the same server with an
    identity is taken over before its credentials are resolved, and stays
    in the parameters when they cannot be. *)
Fixpoint sessionLoop (server : string) (items : list VSphereCluster)
    (params : session.Params) : result session.Session :=
  match items with
  | [] => GetOrCreate r params
  | vsphereCluster :: rest =>
      if bool_decide (server ≠ VSphereClusterServer vsphereCluster)
         || bool_decide (IdentityRef vsphereCluster = None)
      then sessionLoop server rest params
      else
        let params := WithThumbprint (VSphereClusterThumbprint vsphereCluster) params in
        match GetCredentials r vsphereCluster with
        | Err _ => sessionLoop server rest params
        | Ok (u, p) => GetOrCreate r (session.WithUserInfo u p params)
        end
  end.

Definition getVCenterSession (deploymentZoneCtx : VSphereDeploymentZoneContext)
    (datacenter : string) : result session.Session :=
  let server :=
    VSphereDeploymentZone.Server (Object (VSphereDeploymentZone deploymentZoneCtx)) in
  let params := session.mkParams server datacenter (Username r) (Password r) "" in
  match listClusters r with
  | Err e => Err e
  | Ok items => sessionLoop server items params
  end.

(** [reconcilePlacementConstraint]; the finder is that of the session of
    the context, which [reconcileNormal] has set. *)
Definition reconcilePlacementConstraint (authSession : session.Session)
    (deploymentZoneCtx : VSphereDeploymentZoneContext)
  : option error * VSphereDeploymentZoneContext :=
  let zone := VSphereDeploymentZone deploymentZoneCtx in
  let resourcePool := ResourcePool zone in
  let folder := Folder zone in
  let poolFailure :=
    if bool_decide (resourcePool ≠ "") then FinderResourcePool r authSession resourcePool
    else None in
  match poolFailure with
  | Some e =>
      (Some (Wrapf e ("unable to find resource pool " +:+ resourcePool)),
       setZone
         (markFalse PlacementConstraintMetCondition ResourcePoolNotFoundReason
            clusterv1.ConditionSeverityError
            ("resource pool " +:+ resourcePool +:+ " is misconfigured") zone)
         deploymentZoneCtx)
  | None =>
      let folderFailure :=
        if bool_decide (folder ≠ "") then FinderFolder r authSession folder else None in
      match folderFailure with
      | Some e =>
          (Some (Wrapf e ("unable to find folder " +:+ folder)),
           setZone
             (markFalse PlacementConstraintMetCondition FolderNotFoundReason
                clusterv1.ConditionSeverityError
                ("datastore " +:+ folder +:+ " is misconfigured") zone)
             deploymentZoneCtx)
      | None => (None, deploymentZoneCtx)
      end
  end.

Definition reconcileNormal (deploymentZoneCtx : VSphereDeploymentZoneContext)
    (w : ZoneController.ZoneWorld)
  : option error * VSphereDeploymentZoneContext * ZoneController.ZoneWorld :=
  let zone := VSphereDeploymentZone deploymentZoneCtx in
  match ZoneController.getFailureDomain (Base r) w
          (VSphereDeploymentZone.FailureDomain (Object zone)) with
  | Err e =>
      (Some (Wrapf e "VSphereFailureDomain could not be retrieved"), deploymentZoneCtx, w)
  | Ok failureDomain =>
      match getVCenterSession deploymentZoneCtx (TopologyDatacenter failureDomain) with
      | Err e =>
          (Some (Wrapf e "unable to create auth session"),
           setZone
             (setReady (Some false)
                (markFalse VCenterAvailableCondition VCenterUnreachableReason
                   clusterv1.ConditionSeverityError (errorText r e) zone))
             deploymentZoneCtx,
           w)
      | Ok authSession =>
          let deploymentZoneCtx :=
            mkContext (markTrue VCenterAvailableCondition zone) (Some authSession) in
          match reconcilePlacementConstraint authSession deploymentZoneCtx with
          | (Some e, deploymentZoneCtx) =>
              (Some (Wrapf e "placement constraint is misconfigured"),
               setZone (setReady (Some false) (VSphereDeploymentZone deploymentZoneCtx))
                 deploymentZoneCtx,
               w)
          | (None, deploymentZoneCtx) =>
              let deploymentZoneCtx :=
                setZone
                  (markTrue PlacementConstraintMetCondition
                     (VSphereDeploymentZone deploymentZoneCtx))
                  deploymentZoneCtx in
              match reconcileFailureDomain r deploymentZoneCtx failureDomain w with
              | (Some e, deploymentZoneCtx, w) =>
                  (Some (Wrapf e "failed to reconcile failure domain"),
                   setZone (setReady (Some false) (VSphereDeploymentZone deploymentZoneCtx))
                     deploymentZoneCtx,
                   w)
              | (None, deploymentZoneCtx, w) =>
                  (None,
                   setZone (setReady (Some true) (VSphereDeploymentZone deploymentZoneCtx))
                     deploymentZoneCtx,
                   w)
              end
          end
      end
  end.

(** [Client.Get] of the zone of a request. *)
Definition getZone (w : ZoneStore) (name : string) : result Zone :=
  match getZoneError r name with
  | Some e => Err e
  | None =>
      match zones w !! name with
      | Some z => Ok z
      | None => Err (StatusNotFound name)
      end
  end.

(** The deferred function of [Reconcile]: the [Patch] method of the
    context refreshes the summary condition and patches the zone. *)
Definition patchOnExit
    (out : option error * VSphereDeploymentZoneContext * ZoneController.ZoneWorld)
    (w : ZoneStore) : option error * ZoneStore :=
  match out with
  | (reterr, deploymentZoneCtx, dw) =>
      let zone := VSphereDeploymentZone deploymentZoneCtx in
      let zone :=
        setConditions
          (conditions.SetSummary (summaryMerge r) (Conditions zone)
             [VCenterAvailableCondition; VSphereFailureDomainValidatedCondition;
              PlacementConstraintMetCondition])
          zone in
      match patchZoneError r zone with
      | Some e =>
          (kerrors.NewAggregate [reterr; Some e], mkZoneStore (zones w) dw (zonePatches w))
      | None =>
          let name := Name (VSphereDeploymentZone.ObjectMeta (Object zone)) in
          let purge :=
            negb (notDeleting (VSphereDeploymentZone.ObjectMeta (Object zone)))
            && bool_decide (Finalizers (VSphereDeploymentZone.ObjectMeta (Object zone)) = []) in
          (reterr,
           mkZoneStore (if purge then delete name (zones w) else <[name := zone]> (zones w))
             dw (zonePatches w ++ [name]))
      end
  end.

Definition Reconcile (w : ZoneStore) (request : string) : option error * ZoneStore :=
  match getZone w request with
  | Err e => if apierrors.IsNotFound e then (None, w) else (Some e, w)
  | Ok vsphereDeploymentZone =>
      match newZoneHelperError r vsphereDeploymentZone with
      | Some e => (Some (Wrapf e "failed to init patch helper"), w)
      | None =>
          let vsphereDeploymentZoneContext := mkContext vsphereDeploymentZone None in
          let meta := VSphereDeploymentZone.ObjectMeta (Object vsphereDeploymentZone) in
          let out :=
            if negb (notDeleting meta) then
              match ZoneController.reconcileDelete (Base r) (Object vsphereDeploymentZone)
                      (domains w) with
              | (reterr, o, dw) =>
                  (reterr,
                   setZone (setObject o vsphereDeploymentZone) vsphereDeploymentZoneContext,
                   dw)
              end
            else if negb (ctrlutil.ContainsFinalizer meta DeploymentZoneFinalizer) then
              (None,
               setZone
                 (setObject
                    (VSphereDeploymentZone.setObjectMeta
                       (ctrlutil.AddFinalizer meta DeploymentZoneFinalizer)
                       (Object vsphereDeploymentZone))
                    vsphereDeploymentZone)
                 vsphereDeploymentZoneContext,
               domains w)
            else reconcileNormal vsphereDeploymentZoneContext (domains w) in
          patchOnExit out w
      end
  end.

End reconciler.
End ZoneNormal.

(** ** The config map of the service-account controller *)

Module ServiceAccounts.
Import metav1.

Definition systemServiceAccountPrefix : string := "system.serviceaccount".

(** A provider service account: its metadata and the name of the
    VSphereCluster its spec refers to, nil when the reference is absent. *)
Record ProviderServiceAccount : Type := mkProviderServiceAccount {
  AccountMeta : ObjectMeta;
  Ref : option string
}.

(** A config map; its data is a Go map, nil ([None]) or allocated. *)
Record ConfigMap : Type := mkConfigMap {
  ConfigMapName : string;
  ConfigMapNamespace : string;
  Data : option (gmap string string)
}.

#[global] Instance ConfigMap_eq_dec : EqDecision ConfigMap.
Proof. solve_decision. Defined.

Definition setData (d : option (gmap string string)) (cm : ConfigMap) : ConfigMap :=
  mkConfigMap (ConfigMapName cm) (ConfigMapNamespace cm) d.

(** Reading a key of a Go map; a nil map has no key. *)
Definition lookupData (cm : ConfigMap) (k : string) : option string :=
  match Data cm with
  | None => None
  | Some d => d !! k
  end.

(** A call either returns or panics. *)
Inductive outcome (A : Type) : Type :=
| Returned (a : A)
| Panicked.
Arguments Returned {A} a.
Arguments Panicked {A}.

Inductive ConfigMapCall : Type :=
| CallCreateConfigMap
| CallPatchConfigMap.

(** The config map under the name [GetCMNamespaceName] reads from the
    environment, if it exists, and the trace of the writes. *)
Record World : Type := mkWorld {
  configMap : option ConfigMap;
  configMapCalls : list ConfigMapCall
}.

(** What a write leaves in the store: an empty data map is not
    serialized, and is read back as nil. *)
Definition stored (cm : ConfigMap) : ConfigMap :=
  if bool_decide (Data cm = Some ∅) then setData None cm else cm.

(** The receiver: the failures the client may report on the config map,
    and the answer of the list of provider service accounts of a
    namespace. *)
Record ServiceAccountReconciler : Type := mkServiceAccountReconciler {
  getConfigMapError : option error;
  createConfigMapError : option error;
  patchConfigMapError : option error;
  listProviderServiceAccounts : string → result (list ProviderServiceAccount)
}.

Definition getServiceAccountName (pSvcAccount : ProviderServiceAccount) : string :=
  Name (AccountMeta pSvcAccount).

Definition getServiceAccountNamespace (pSvcAccount : ProviderServiceAccount) : string :=
  Namespace (AccountMeta pSvcAccount).

Definition getSystemServiceAccountFullName (pSvcAccount : ProviderServiceAccount) : string :=
  systemServiceAccountPrefix +:+ "." +:+ getServiceAccountNamespace pSvcAccount
    +:+ "." +:+ getServiceAccountName pSvcAccount.

Section reconciler.
Variable r : ServiceAccountReconciler.

Definition getConfigMap (w : World) : result ConfigMap :=
  match getConfigMapError r with
  | Some e => Err e
  | None =>
      match configMap w with
      | Some cm => Ok cm
      | None => Err (StatusNotFound "")
      end
  end.

Definition getConfigMapAndBuffer (w : World) : result (ConfigMap * ConfigMap) :=
  match getConfigMap w with
  | Err e => Err e
  | Ok configMap =>
      Ok (mkConfigMap (ConfigMapName configMap) (ConfigMapNamespace configMap) None, configMap)
  end.

(** [controllerutil.CreateOrPatch] on the config map: the object is read
    into [obj] first; the mutation runs on what was read, or on [obj]
    itself when nothing is stored, and may panic; it must keep the name
    and the namespace; a patch is sent only when the mutation changed the
    object. *)
Definition CreateOrPatch (w : World) (obj : ConfigMap)
    (f : ConfigMap → outcome ConfigMap) : outcome (option error * World) :=
  let mutate (o : ConfigMap) (k : ConfigMap → outcome (option error * World)) :=
    match f o with
    | Panicked => Panicked
    | Returned o' =>
        if bool_decide (ConfigMapName o' = ConfigMapName o
                        ∧ ConfigMapNamespace o' = ConfigMapNamespace o)
        then k o'
        else Returned
               (Some (Errorf "MutateFn cannot mutate object name and/or object namespace"), w)
    end in
  match getConfigMap w with
  | Err e =>
      if apierrors.IsNotFound e then
        mutate obj (λ o',
          match createConfigMapError r with
          | Some e' => Returned (Some e', w)
          | None =>
              Returned (None,
                        mkWorld (Some (stored o')) (configMapCalls w ++ [CallCreateConfigMap]))
          end)
      else Returned (Some e, w)
  | Ok before =>
      mutate before (λ o',
        if bool_decide (o' = before) then Returned (None, w)
        else
          match patchConfigMapError r with
          | Some e' => Returned (Some e', w)
          | None =>
              Returned (None,
                        mkWorld (Some (stored o')) (configMapCalls w ++ [CallPatchConfigMap]))
          end)
  end.

(** [deleteServiceAccountConfigMap].  Deleting a key of a nil map does
    nothing. *)
Definition deleteServiceAccountConfigMap (w : World) (svcAccount : ProviderServiceAccount)
  : outcome (option error * World) :=
  let svcAccountName := getSystemServiceAccountFullName svcAccount in
  match getConfigMapAndBuffer w with
  | Err e => Returned (Some e, w)
  | Ok (configMapBuffer, configMap) =>
      if negb (bool_decide (lookupData configMap svcAccountName = Some "true"))
      then Returned (None, w)
      else
        CreateOrPatch w configMapBuffer
          (λ configMapBuffer,
             Returned (setData (delete svcAccountName <$> Data configMap) configMapBuffer))
  end.

(** [ensureServiceAccountConfigMap].  Assigning to a key of a nil map
    panics. *)
Definition ensureServiceAccountConfigMap (w : World) (svcAccount : ProviderServiceAccount)
  : outcome (option error * World) :=
  let svcAccountName := getSystemServiceAccountFullName svcAccount in
  match getConfigMapAndBuffer w with
  | Err e => Returned (Some e, w)
  | Ok (configMapBuffer, configMap) =>
      if bool_decide (lookupData configMap svcAccountName = Some "true")
      then Returned (None, w)
      else
        CreateOrPatch w configMapBuffer
          (λ configMapBuffer,
             match Data configMap with
             | None => Panicked
             | Some d =>
                 Returned (setData (Some (<[svcAccountName := "true"]> d)) configMapBuffer)
             end)
  end.

(** [getProviderServiceAccounts]: the listed accounts of the namespace of
    the VSphereCluster that are not being deleted and refer to it. *)
Definition getProviderServiceAccounts (vsphereCluster : ObjectMeta)
  : result (list ProviderServiceAccount) :=
  match listProviderServiceAccounts r (Namespace vsphereCluster) with
  | Err e => Err e
  | Ok items =>
      Ok (filter (λ pSvcAccount,
                    DeletionTimestamp (AccountMeta pSvcAccount) = None
                    ∧ Ref pSvcAccount = Some (Name vsphereCluster))
            items)
  end.

(** The loop of [ReconcileDelete] over the accounts still to visit. *)
Fixpoint deleteLoop (pSvcAccounts : list ProviderServiceAccount) (w : World)
  : outcome (option error * World) :=
  match pSvcAccounts with
  | [] => Returned (None, w)
  | pSvcAccount :: rest =>
      match deleteServiceAccountConfigMap w pSvcAccount with
      | Panicked => Panicked
      | Returned (Some err, w) =>
          Returned
            (Some (Wrapf err "unable to delete configmap entry for provider serviceaccount"),
             w)
      | Returned (None, w) => deleteLoop rest w
      end
  end.

Definition ReconcileDelete (vsphereCluster : ObjectMeta) (w : World)
  : outcome (option error * World) :=
  match getProviderServiceAccounts vsphereCluster with
  | Err err => Returned (Some err, w)
  | Ok pSvcAccounts => deleteLoop pSvcAccounts w
  end.

End reconciler.
End ServiceAccounts.

(** ** What the client reads of a claim *)

Module ClaimStatus.
Import VMController.

(** The claim under a key, as the client reads it, has its address
    resolved: the name of the address reference of its status is set. *)
Definition fulfilled (r : vmReconciler) (w : World) (k : ObjectKey) : bool :=
  match getClaim r w k with
  | Ok c => bool_decide (ipamv1.AddressRefName c ≠ "")
  | Err _ => false
  end.

(** The claim under a key, as the client reads it, has a Ready
    condition. *)
Definition exposesReady (r : vmReconciler) (w : World) (k : ObjectKey) : bool :=
  match getClaim r w k with
  | Ok c => conditions.Has (ipamv1.Conditions c) clusterv1.ReadyCondition
  | Err _ => false
  end.
End ClaimStatus.

(** ** Sample zones, clusters and service accounts *)

Module Samples3.
Import metav1 infrav1.

(** A zone that is neither being deleted nor carries the finalizer yet,
    with a resource pool and no folder. *)
Definition freshZone : ZoneNormal.Zone :=
  ZoneNormal.mkZone
    (VSphereDeploymentZone.mk "VSphereDeploymentZone"
       (mkObjectMeta "zone-a" "" "uid-z" ∅ ∅ 0 None [] []) "vcenter" "fd-a")
    "pool-a" "" None ∅.

(** Two VSphereClusters on the server of the zone, both with an identity;
    only the identity of the second resolves. *)
Definition clusterBad : VSphereCluster :=
  mkVSphereCluster (Fixtures.plainMeta "c-bad") "vcenter" "tp-bad" (Some "bad") [].

Definition clusterGood : VSphereCluster :=
  mkVSphereCluster (Fixtures.plainMeta "c-good") "vcenter" "tp-good" (Some "good") [].

(** A receiver of the zone controller whose client never fails, whose
    inventory has the resource pool "pool-a" and every folder, and whose
    reconcile of the failure domain succeeds and changes nothing. *)
Definition zoneReconciler (clusters : list VSphereCluster) : ZoneNormal.reconciler :=
  {| ZoneNormal.Base := Fixtures.zoneReconcilerWith [];
     ZoneNormal.Username := "user";
     ZoneNormal.Password := "secret";
     ZoneNormal.listClusters := Ok clusters;
     ZoneNormal.GetCredentials :=
       λ c, if bool_decide (IdentityRef c = Some "good") then Ok ("id-user", "id-secret")
            else Err (StatusOther "identity not found");
     ZoneNormal.GetOrCreate := λ _, Ok Fixtures.session1;
     ZoneNormal.FinderResourcePool :=
       λ _ name, if bool_decide (name = "pool-a") then None else Some (StatusNotFound name);
     ZoneNormal.FinderFolder := λ _ _, None;
     ZoneNormal.reconcileFailureDomain := λ c _ w, (None, c, w);
     ZoneNormal.errorText := λ _, "";
     ZoneNormal.getZoneError := λ _, None;
     ZoneNormal.newZoneHelperError := λ _, None;
     ZoneNormal.patchZoneError := λ _, None;
     ZoneNormal.summaryMerge := λ _, None |}.

Definition zoneStore1 : ZoneNormal.ZoneStore :=
  ZoneNormal.mkZoneStore {["zone-a" := freshZone]} Fixtures.zoneWorld1 [].

(** A provider service account of the VSphereCluster "c1", and one that
    is being deleted. *)
Definition account (name : string) (deletion : option nat)
  : ServiceAccounts.ProviderServiceAccount :=
  ServiceAccounts.mkProviderServiceAccount
    (mkObjectMeta name "ns" "" ∅ ∅ 0 deletion [] []) (Some "c1").

Definition serviceAccountReconciler : ServiceAccounts.ServiceAccountReconciler :=
  ServiceAccounts.mkServiceAccountReconciler None None None
    (λ _, Ok [account "sa-1" None; account "sa-2" (Some 3)]).

Definition configMapWith (d : option (gmap string string)) : ServiceAccounts.World :=
  ServiceAccounts.mkWorld (Some (ServiceAccounts.mkConfigMap "cm" "kube-system" d)) [].

(** A VSphereVM whose deletion is in progress, and a backend that has
    not finished destroying it. *)
Definition pendingBackend : vmReconciler :=
  Fixtures.healthy (Fixtures.observed VirtualMachineStateReady "h-1")
    (Fixtures.observed VirtualMachineStatePending "").

(** A backend that reports a Ready VM without any address. *)
Definition observedNoAddress : VirtualMachine.t :=
  VirtualMachine.mk "vm-a" "h-1" VirtualMachineStateReady [] "vm-1".

Definition noAddressBackend : vmReconciler :=
  Fixtures.healthy observedNoAddress (Fixtures.observed VirtualMachineStateNotFound "").

(** A reconciler as [Fixtures.readyBackend], except for the answers of
    the cluster lookup, of the VSphereCluster lookup, of the tracker, of
    the remote delete and of the owner lookup, the failures of the claim
    creation, and the feature gate. *)
Definition backendWith (cluster : result clusterv1.Cluster)
    (vsphereCluster : result VSphereCluster)
    (tracker : ObjectKey → option error) (nodeDelete : option error)
    (createFailure : ObjectKey → option error)
    (gate : bool) (owner : result string) : vmReconciler :=
  let r := Fixtures.readyBackend "h-1" in
  {| Username := Username r; Password := Password r;
     WatchFilterValue := WatchFilterValue r;
     NodeAntiAffinity := gate;
     ReconcileVM := ReconcileVM r;
     DestroyVM := DestroyVM r;
     trackerGetClient := tracker;
     remoteDelete := λ _ _, nodeDelete;
     GetOrCreate := GetOrCreate r;
     GetCredentials := λ _, Ok ("id-user", "id-secret");
     GetClusterFromMetadata := λ _, cluster;
     getVSphereCluster := λ _, vsphereCluster;
     GetOwnerVSphereMachine := GetOwnerVSphereMachine r;
     GetVSphereClusterFromVSphereMachine := GetVSphereClusterFromVSphereMachine r;
     GetOwnerMachine := GetOwnerMachine r;
     getDeploymentZone := getDeploymentZone r;
     getFailureDomain := getFailureDomain r;
     IsControlPlaneMachine := IsControlPlaneMachine r;
     FetchControlPlaneOwnerObject := FetchControlPlaneOwnerObject r;
     FetchMachineDeploymentOwnerObject := λ _, owner;
     getVMError := getVMError r;
     listVMsError := listVMsError r;
     newHelperError := newHelperError r;
     patchVMError := patchVMError r;
     getClaimError := getClaimError r;
     createClaimError := createFailure;
     patchClaimError := patchClaimError r;
     updateClaimError := updateClaimError r;
     summaryMerge := summaryMerge r;
     aggregateMerge := aggregateMerge r;
     errorText := errorText r |}.

(** A claim whose address the allocator has resolved, without a Ready
    condition. *)
Definition resolvedWithoutReady : ipamv1.IPAddressClaim :=
  ipamv1.mkIPAddressClaim
    (mkObjectMeta "vm-a-0-0" "default" "uid-c" ∅ ∅ 0 None [IPAddressClaimFinalizer] [])
    Fixtures.poolRefA "address-1" ∅.

(** An active machine of a namespace, placed in a zone. *)
Definition machineAt (namespace name zone : string) : clusterv1.Machine :=
  clusterv1.mkMachine (mkObjectMeta name namespace "" ∅ ∅ 0 None [] []) (Some zone).

Definition pausedCluster : clusterv1.Cluster :=
  clusterv1.mkCluster (Fixtures.plainMeta "c1") true (Some (clusterv1.mkObjectReference "c1")).

(** A VSphereCluster that carries the cluster-name label "c1". *)
Definition labelledCluster (modules : list ClusterModule) : VSphereCluster :=
  mkVSphereCluster (Fixtures.meta "c1" []) "vcenter" "" None modules.

Definition identityCluster : VSphereCluster :=
  mkVSphereCluster (Fixtures.plainMeta "c1") "vcenter" "" (Some "identity") [].
End Samples3.

(** * Properties

    ** The VM controller *)

Section VMProperties.
Import metav1 infrav1 capvcontext VMController.

(** *** Frame lemmas of the condition helpers *)

Lemma markTrue_spec t vm : VSphereVM.Spec (markTrue t vm) = VSphereVM.Spec vm.
Proof. reflexivity. Qed.
Lemma markFalse_spec t rsn sev msg vm :
  VSphereVM.Spec (markFalse t rsn sev msg vm) = VSphereVM.Spec vm.
Proof. reflexivity. Qed.
Lemma markTrue_meta t vm : VSphereVM.ObjectMeta (markTrue t vm) = VSphereVM.ObjectMeta vm.
Proof. reflexivity. Qed.
Lemma markFalse_meta t rsn sev msg vm :
  VSphereVM.ObjectMeta (markFalse t rsn sev msg vm) = VSphereVM.ObjectMeta vm.
Proof. reflexivity. Qed.

Lemma reconcileIPAddressClaims_frame r vmCtx w :
  ∃ cs,
    (reconcileIPAddressClaims r vmCtx w).1.2
      = setVSphereVM (VSphereVM.SetConditions cs (VSphereVM vmCtx)) vmCtx
    ∧ ∀ t, t ≠ IPAddressClaimedCondition →
           cs !! t = VSphereVM.GetConditions (VSphereVM vmCtx) !! t.
Proof.
  assert (Hid : setVSphereVM
                  (VSphereVM.SetConditions (VSphereVM.GetConditions (VSphereVM vmCtx))
                     (VSphereVM vmCtx)) vmCtx = vmCtx).
  { by destruct vmCtx as [[? ? ? ? ? []] ? ? ?]. }
  unfold reconcileIPAddressClaims.
  destruct (claimLoop _ _ _ _ _) as [[[e|] t] w'] eqn:Hloop; simpl.
  { eexists; split; [by rewrite Hid|done]. }
  destruct (kerrors.NewAggregate _) as [agg|]; simpl.
  { eexists; split; [reflexivity|].
    intros t' Ht. unfold conditions.MarkFalse, conditions.Set_. simpl.
    by rewrite lookup_insert_ne. }
  case_bool_decide; simpl.
  - eexists; split; [reflexivity|].
    intros t' Ht. unfold conditions.SetAggregate.
    destruct (aggregateMerge _ _); [|done].
    unfold conditions.Set_. simpl. by rewrite lookup_insert_ne.
  - unfold fallbackCondition, markTrue, markFalse.
    repeat case_bool_decide;
      [eexists; split; [reflexivity|] ..
      | exists (VSphereVM.GetConditions (VSphereVM vmCtx)); split; [|done];
        by destruct vmCtx as [[? ? ? ? ? []] ? ? ?]];
      intros t' Ht; unfold conditions.MarkTrue, conditions.MarkFalse, conditions.Set_;
      simpl; by rewrite ?lookup_insert_ne.
Qed.

(** *** The claim loops leave the stored VSphereVMs alone *)

Lemma CreateOrPatch_vms r w claim f :
  vms (CreateOrPatch r w claim f).2 = vms w.
Proof. unfold CreateOrPatch. by repeat case_match. Qed.

Lemma createOrPatchIPAddressClaim_vms r vmCtx w name poolRef :
  vms (createOrPatchIPAddressClaim r vmCtx w name poolRef).2 = vms w.
Proof.
  unfold createOrPatchIPAddressClaim.
  pose proof (CreateOrPatch_vms r w
    (newClaim name (Namespace (VSphereVM.ObjectMeta (VSphereVM vmCtx))))
    (mutateFn (VSphereVM vmCtx) poolRef)) as Hvms.
  by repeat case_match; simplify_eq/=.
Qed.

Lemma claimLoop_vms r vmCtx pairs acc w :
  vms (claimLoop r vmCtx pairs acc w).2 = vms w.
Proof.
  revert acc w. induction pairs as [|[[d p] ref] rest IH]; intros acc w; [done|].
  simpl. case_match; [done|].
  pose proof (createOrPatchIPAddressClaim_vms r vmCtx w
    (util.IPAddressClaimName (Name (VSphereVM.ObjectMeta (VSphereVM vmCtx))) d p) ref) as Hvms.
  repeat case_match; simplify_eq/=; by rewrite IH.
Qed.

Lemma reconcileIPAddressClaims_vms r vmCtx w :
  vms (reconcileIPAddressClaims r vmCtx w).2 = vms w.
Proof.
  unfold reconcileIPAddressClaims.
  pose proof (claimLoop_vms r vmCtx (claimPairs (VSphereVM vmCtx)) emptyTally w) as Hvms.
  by repeat case_match; simplify_eq/=.
Qed.

Lemma releaseLoop_vms r vm pairs w : vms (releaseLoop r vm pairs w).2 = vms w.
Proof.
  revert w. induction pairs as [|[[d p] ref] rest IH]; intros w; [done|].
  simpl. repeat case_match; simplify_eq/=; by rewrite ?IH.
Qed.

(** *** C2 *)

(** C2.  When the normal path gets as far as the backend (no terminal
    failure, no device waiting for a static address, the claims reconciled
    without error) and [ReconcileVM] answers Ready with an empty hardware
    id, [reconcileNormal] returns the hard error and leaves the readiness
    flag, the VM reference, the network status, the address list, the
    provisioned condition and the spec of the resource as they were. *)
Theorem reconcileNormal_ready_with_empty_bios_uuid r vmCtx w observed :
  VSphereVMStatus.FailureReason (VSphereVM.Status (VSphereVM vmCtx)) = None →
  VSphereVMStatus.FailureMessage (VSphereVM.Status (VSphereVM vmCtx)) = None →
  isWaitingForStaticIPAllocation vmCtx = false →
  (reconcileIPAddressClaims r vmCtx w).1.1 = None →
  ReconcileVM r (reconcileIPAddressClaims r vmCtx w).1.2 = Ok observed →
  VirtualMachine.State observed = VirtualMachineStateReady →
  VirtualMachine.BiosUUID observed = "" →
  let out := reconcileNormal r vmCtx w in
  let before := VSphereVM.Status (VSphereVM vmCtx) in
  let after := VSphereVM.Status (VSphereVM out.1.2) in
  out.1.1 = (reconcile.zero, Some (Errorf "bios uuid is empty while VM is ready"))
  ∧ VSphereVMStatus.Ready after = VSphereVMStatus.Ready before
  ∧ VSphereVMStatus.VMRef after = VSphereVMStatus.VMRef before
  ∧ VSphereVMStatus.Network after = VSphereVMStatus.Network before
  ∧ VSphereVMStatus.Addresses after = VSphereVMStatus.Addresses before
  ∧ VSphereVMStatus.Conditions after !! VMProvisionedCondition
      = VSphereVMStatus.Conditions before !! VMProvisionedCondition
  ∧ VSphereVM.Spec (VSphereVM out.1.2) = VSphereVM.Spec (VSphereVM vmCtx).
Proof.
  intros Hr Hm Hwait Hclaims Hvm Hstate Hbios. simpl.
  destruct (reconcileIPAddressClaims_frame r vmCtx w) as (cs & Hctx & Hcs).
  unfold reconcileNormal. rewrite Hr, Hm, Hwait.
  rewrite bool_decide_eq_false_2 by (intros [?|?]; congruence).
  destruct (reconcileIPAddressClaims r vmCtx w) as [[e c1] w1]. simpl in *.
  subst e. rewrite Hvm, Hstate, Hbios.
  rewrite bool_decide_eq_false_2 by congruence.
  rewrite bool_decide_eq_false_2 by congruence.
  simpl. rewrite Hctx. simpl. repeat split.
  apply Hcs. done.
Qed.

(** *** C5 *)

Lemma RemoveFinalizer_flag m f :
  (ctrlutil.RemoveFinalizer m f).2 = false ↔ f ∉ Finalizers m.
Proof.
  unfold ctrlutil.RemoveFinalizer. simpl.
  rewrite negb_false_iff, Nat.eqb_eq. split.
  - intros Hlen Hin.
    assert (Hlt : length (filter (λ g, g ≠ f) (Finalizers m)) < length (Finalizers m))
      by (apply (length_filter_lt _ _ f); [done|naive_solver]).
    lia.
  - intros Hnin. f_equal.
    induction (Finalizers m) as [|g fs IH]; [done|].
    apply not_elem_of_cons in Hnin as [Hne Hnin].
    rewrite filter_cons_True by done. f_equal. by apply IH.
Qed.

Lemma RemoveFinalizer_absent m f : f ∉ Finalizers (ctrlutil.RemoveFinalizer m f).1.
Proof.
  unfold ctrlutil.RemoveFinalizer. simpl. rewrite list_elem_of_filter.
  by intros [? ?].
Qed.

(** C5.  On the delete path the finalizer of the VSphereVM disappears
    only in a reconcile in which [DestroyVM] returned no error, signalled
    no requeue and reported the VM as not found. *)
Theorem reconcileDelete_finalizer_removed_only_when_not_found r vmCtx w :
  let deleting :=
    setVSphereVM
      (markFalse VMProvisionedCondition clusterv1.DeletingReason
         clusterv1.ConditionSeverityInfo "" (VSphereVM vmCtx)) vmCtx in
  let out := reconcileDelete r vmCtx w in
  VMFinalizer ∈ Finalizers (VSphereVM.ObjectMeta (VSphereVM vmCtx)) →
  VMFinalizer ∉ Finalizers (VSphereVM.ObjectMeta (VSphereVM out.1.2)) →
  ∃ result observed,
    DestroyVM r deleting = (result, observed, None)
    ∧ reconcile.IsZero result = true
    ∧ VirtualMachine.State observed = VirtualMachineStateNotFound
    ∧ VirtualMachine.State observed ≠ VirtualMachineStatePending
    ∧ VirtualMachine.State observed ≠ VirtualMachineStateReady.
Proof.
  simpl. intros Hin Hout. unfold reconcileDelete in Hout.
  destruct (DestroyVM r _) as [[result observed] [err|]] eqn:Hd; [done|].
  destruct (reconcile.IsZero result) eqn:Hz; simpl in Hout; [|done].
  case_bool_decide as Hs; [done|].
  exists result, observed. rewrite Hs. done.
Qed.

(** *** The shape of [Reconcile] *)

Lemma getVM_Ok r w req vm : getVM r w req = Ok vm → vms w !! req = Some vm.
Proof. unfold getVM. by repeat case_match; intros; simplify_eq. Qed.

(** Either [Reconcile] leaves before the deferred patch is registered, and
    the world is untouched, or it runs [reconcileBody] on the fetched
    resource, with the vCenter condition marked true, under the deferred
    patch. *)
Lemma Reconcile_shape r w req :
  (Reconcile r w req).2 = w
  ∨ ∃ vm fd s input,
      getVM r w req = Ok vm
      ∧ Reconcile r w req
        = patchOnExit r
            (reconcileBody r
               (mkVMContext (markTrue VCenterAvailableCondition vm) fd s None) w input).
Proof.
  unfold Reconcile. repeat case_match; simplify_eq/=; eauto 10.
Qed.

Lemma deleteNode_vms r vmCtx w name : vms (deleteNode r vmCtx w name).2 = vms w.
Proof. unfold deleteNode. by repeat case_match. Qed.

Lemma reconcileBody_vms r vmCtx w input :
  vms (reconcileBody r vmCtx w input).2 = vms w.
Proof.
  unfold reconcileBody, reconcile_, reconcileDelete, reconcileNormal,
    deleteIPAddressClaims.
  repeat case_match; simplify_eq/=; try done.
  all: repeat match goal with
       | H : reconcileIPAddressClaims ?r ?c ?w = (_, _, ?w') |- _ =>
           let Hv := fresh in
           pose proof (reconcileIPAddressClaims_vms r c w) as Hv;
           rewrite H in Hv; simpl in Hv; clear H
       | H : releaseLoop ?r ?vm ?ps ?w = (_, ?w') |- _ =>
           let Hv := fresh in
           pose proof (releaseLoop_vms r vm ps w) as Hv;
           rewrite H in Hv; simpl in Hv; clear H
       | H : deleteNode ?r ?c ?w ?n = (_, ?w') |- _ =>
           let Hv := fresh in
           pose proof (deleteNode_vms r c w n) as Hv;
           rewrite H in Hv; simpl in Hv; clear H
       end; congruence.
Qed.

(** What the deferred patch leaves in the store under a key: the object
    that was there, or the patched resource. *)
Lemma patchOnExit_lookup r out req vm' :
  vms (patchOnExit r out).2 !! req = Some vm' →
  vms out.2 !! req = Some vm'
  ∨ ∃ cs, vm' = VSphereVM.SetConditions cs (VSphereVM out.1.2).
Proof.
  destruct out as [[[res reterr] vmCtx] w]. unfold patchOnExit. simpl.
  case_match; simpl; [by left|].
  unfold store. case_match; simpl.
  - intros [_ ?]%lookup_delete_Some. by left.
  - intros [[_ <-]|[_ ?]]%lookup_insert_Some; [right; eauto|by left].
Qed.

(** *** C1 *)








Lemma reconcileNormal_ready_with_empty_bios_uuid_witness :
  let vmCtx := Fixtures.contextOf (Fixtures.vmWith [VMFinalizer] "" [Fixtures.dhcpDevice]) in
  (reconcileNormal (Fixtures.readyBackend "") vmCtx (Fixtures.worldOf (VSphereVM vmCtx))).1.1
  = (reconcile.zero, Some (Errorf "bios uuid is empty while VM is ready")).
Proof.
  refine (proj1 (reconcileNormal_ready_with_empty_bios_uuid (Fixtures.readyBackend "")
            (Fixtures.contextOf (Fixtures.vmWith [VMFinalizer] "" [Fixtures.dhcpDevice]))
            _ (Fixtures.observed VirtualMachineStateReady "") _ _ _ _ _ _ _));
    vm_compute; reflexivity.
Defined.

Lemma reconcileDelete_finalizer_removed_only_when_not_found_witness :
  let vmCtx := Fixtures.contextOf (Fixtures.vmWith [VMFinalizer] "h-1" [Fixtures.dhcpDevice]) in
  ∃ result observed,
    DestroyVM (Fixtures.readyBackend "h-1")
      (setVSphereVM
         (markFalse VMProvisionedCondition clusterv1.DeletingReason
            clusterv1.ConditionSeverityInfo "" (VSphereVM vmCtx)) vmCtx)
    = (result, observed, None)
    ∧ reconcile.IsZero result = true
    ∧ VirtualMachine.State observed = VirtualMachineStateNotFound
    ∧ VirtualMachine.State observed ≠ VirtualMachineStatePending
    ∧ VirtualMachine.State observed ≠ VirtualMachineStateReady.
Proof.
  apply (reconcileDelete_finalizer_removed_only_when_not_found (Fixtures.readyBackend "h-1")
           (Fixtures.contextOf (Fixtures.vmWith [VMFinalizer] "h-1" [Fixtures.dhcpDevice]))
           (Fixtures.worldOf (Fixtures.vmWith [VMFinalizer] "h-1" [Fixtures.dhcpDevice]))).
  - vm_compute. constructor.
  - vm_compute. intros Hin. inversion Hin.
Defined.

End VMProperties.

Section FinalizerFirst.
Import metav1 infrav1 capvcontext VMController.

(** *** C3 *)

(** The first reconcile of the sample resource without finalizer also
    marks the vCenter condition true: the stored resource had no such
    condition before and carries it afterwards, so the finalizer is not
    the only mutation. *)
Lemma Reconcile_first_pass_marks_condition :
  let vm := Fixtures.vmWith [] "" [Fixtures.dhcpDevice] in
  let w' := (Reconcile (Fixtures.readyBackend "h-1") (Fixtures.worldOf vm) Fixtures.keyA).2 in
  VSphereVM.GetConditions vm !! VCenterAvailableCondition = None
  ∧ (λ o, VSphereVM.GetConditions o !! VCenterAvailableCondition)
      <$> vms w' !! Fixtures.keyA
    = Some (Some (conditions.TrueCondition VCenterAvailableCondition)).
Proof. split; vm_compute; reflexivity. Qed.

(** C3, as the code has it.  For a stored resource that is not being
    deleted and lacks the finalizer, when the session, the owner and
    failure-domain lookups and the patch succeed and the cluster is not
    paused: the first [Reconcile] returns success, calls neither the
    backend nor the claim store, and stores the resource with the
    finalizer added and with its conditions refreshed (vCenter condition
    marked true, summary recomputed), the spec and the rest of the status
    being unchanged; a second [Reconcile] passes the finalizer gate and
    runs [reconcile] under the deferred patch. *)
Theorem Reconcile_finalizer_first r w req vm s vsm vc machine fd :
  vms w !! req = Some vm →
  key (VSphereVM.ObjectMeta vm) = req →
  notDeleting (VSphereVM.ObjectMeta vm) = true →
  VMFinalizer ∉ Finalizers (VSphereVM.ObjectMeta vm) →
  getVMError r req = None →
  (∀ o, newHelperError r o = None) →
  (∀ o, patchVMError r o = None) →
  (∀ o, retrieveVcenterSession r o = Ok s) →
  (∀ fs, GetOwnerVSphereMachine r (setFinalizers fs (VSphereVM.ObjectMeta vm))
         = Ok (Some vsm)) →
  GetVSphereClusterFromVSphereMachine r vsm = Ok (Some vc) →
  GetOwnerMachine r (VSphereMachineMeta vsm) = Ok (Some machine) →
  lookupFailureDomain r machine = Ok fd →
  (∀ fs cluster,
     GetClusterFromMetadata r (setFinalizers fs (VSphereVM.ObjectMeta vm)) = Ok cluster →
     annotations.IsPaused cluster (setFinalizers fs (VSphereVM.ObjectMeta vm)) = false) →
  let vm1 :=
    VSphereVM.SetConditions
      (conditions.SetSummary (summaryMerge r)
         (conditions.MarkTrue (VSphereVM.GetConditions vm) VCenterAvailableCondition)
         [VCenterAvailableCondition; IPAddressClaimedCondition; VMProvisionedCondition])
      (VSphereVM.setObjectMeta
         (setFinalizers (Finalizers (VSphereVM.ObjectMeta vm) ++ [VMFinalizer])
            (VSphereVM.ObjectMeta vm)) vm) in
  let w1 := mkWorld (<[req := vm1]> (vms w)) (claims w) (calls w ++ [CallPatchVM req]) in
  Reconcile r w req = ((reconcile.zero, None), w1)
  ∧ Reconcile r w1 req
    = patchOnExit r
        (reconcile_ r (mkVMContext (markTrue VCenterAvailableCondition vm1) fd s None) w1
           (mkFetchClusterModuleInput vc machine)).
Proof.
  intros Hvm Hkey Hnd Hfin Hget Hnew Hpatch Hsess Hvsm Hvc Hm Hfd Hpause vm1 w1.
  assert (Hid : ∀ m : ObjectMeta, setFinalizers (Finalizers m) m = m) by (by intros []).
  assert (Hcf : ctrlutil.ContainsFinalizer (VSphereVM.ObjectMeta vm) VMFinalizer = false)
    by (by apply bool_decide_eq_false_2).
  assert (Hnp : ∀ fs,
    match GetClusterFromMetadata r (setFinalizers fs (VSphereVM.ObjectMeta vm)) with
    | Ok cluster =>
        annotations.IsPaused cluster (setFinalizers fs (VSphereVM.ObjectMeta vm))
    | Err _ => false
    end = false).
  { intros fs. specialize (Hpause fs). destruct (GetClusterFromMetadata r _); auto. }
  split.
  - unfold Reconcile, getVM. rewrite Hget, Hvm, Hnew, Hsess. simpl.
    rewrite <- (Hid (VSphereVM.ObjectMeta vm)) at 1. rewrite Hvsm, Hvc, Hm, Hfd.
    unfold reconcileBody. simpl.
    pose proof (Hnp (Finalizers (VSphereVM.ObjectMeta vm))) as Hnp0.
    rewrite Hid in Hnp0. rewrite Hnp0, Hnd, Hcf. simpl.
    unfold patchOnExit. simpl. rewrite Hpatch.
    unfold ctrlutil.AddFinalizer. rewrite Hcf.
    unfold store. simpl.
    replace (notDeleting _) with true by (by destruct vm as [? ? ? [] ? ?]).
    simpl. unfold w1, record, setVMs. simpl.
    replace (key _) with req by (by destruct vm as [? ? ? [] ? ?]).
    reflexivity.
  - unfold Reconcile, getVM. rewrite Hget. unfold w1 at 1. simpl.
    rewrite lookup_insert_eq, Hnew, Hsess. simpl.
    rewrite Hvsm, Hvc, Hm, Hfd.
    unfold reconcileBody. simpl. rewrite Hnp.
    replace (notDeleting _ && negb (ctrlutil.ContainsFinalizer _ _)) with false; [done|].
    symmetry. apply andb_false_intro2, negb_false_iff, bool_decide_eq_true_2.
    simpl. set_solver.
Qed.

Lemma Reconcile_finalizer_first_witness :
  let vm := Fixtures.vmWith [] "" [Fixtures.dhcpDevice] in
  (Reconcile (Fixtures.readyBackend "h-1") (Fixtures.worldOf vm) Fixtures.keyA).1
  = (reconcile.zero, None).
Proof.
  refine (f_equal fst (proj1 (Reconcile_finalizer_first (Fixtures.readyBackend "h-1")
            (Fixtures.worldOf (Fixtures.vmWith [] "" [Fixtures.dhcpDevice])) Fixtures.keyA
            (Fixtures.vmWith [] "" [Fixtures.dhcpDevice]) Fixtures.session1
            Fixtures.vsphereMachine1 Fixtures.vsphereCluster1 Fixtures.machine1 None
            _ _ _ _ _ _ _ _ _ _ _ _ _))).
  - vm_compute; reflexivity.
  - reflexivity.
  - reflexivity.
  - vm_compute. intros Hin. inversion Hin.
  - reflexivity.
  - reflexivity.
  - reflexivity.
  - reflexivity.
  - reflexivity.
  - reflexivity.
  - reflexivity.
  - reflexivity.
  - intros fs cluster Hc. injection Hc as <-. reflexivity.
Defined.

End FinalizerFirst.

Section ClusterWatch.
Import metav1 infrav1 capvcontext VMController VMWatches.

(** *** C7 *)

(** An update event whose old and new cluster are the same unpaused
    cluster enqueues the VSphereVM that carries its cluster-name label. *)
Lemma clusterWatch_update_unpaused_to_unpaused :
  let c := Fixtures.cluster1 in
  let w := Fixtures.worldOf (Fixtures.vmWith [VMFinalizer] "" [Fixtures.dhcpDevice]) in
  annotations.IsPaused c (clusterv1.ClusterMeta c) = false
  ∧ clusterWatch (Fixtures.readyBackend "h-1") w (event.UpdateEvent c c) = [Fixtures.keyA].
Proof. split; vm_compute; reflexivity. Qed.

(** C7, as the code has it.  For a cluster update event the watch looks
    at the new object only: it enqueues the mapped keys exactly when the
    new cluster is not paused (and passes the watch-filter label), whether
    the old cluster was paused or not. *)
Theorem clusterWatch_update r w old new :
  clusterWatch r w (event.UpdateEvent old new)
  = if negb (annotations.IsPaused new (clusterv1.ClusterMeta new))
       && predicates.ResourceHasFilterLabel (WatchFilterValue r) (clusterv1.ClusterMeta new)
    then remove_dups (clusterToVSphereVMs r w (clusterv1.ClusterMeta old)
                        ++ clusterToVSphereVMs r w (clusterv1.ClusterMeta new))
    else [].
Proof.
  unfold clusterWatch, predicates.ResourceNotPausedAndHasFilterLabel, clusterPredicates,
    clusterUpdateFunc, predicates.ResourceNotPaused, annotations.IsPaused. simpl.
  destruct (clusterv1.Paused new), (annotations.HasPaused _),
    (predicates.ResourceHasFilterLabel _ _); reflexivity.
Qed.

End ClusterWatch.

Section Claims.
Import metav1 infrav1 capvcontext VMController Invariants.

(** *** C8 *)

Lemma getClaim_Ok r w k c : getClaim r w k = Ok c → claims w !! k = Some c.
Proof. unfold getClaim. by repeat case_match; intros; simplify_eq. Qed.

Lemma AddFinalizer_finalizers m f :
  Finalizers (ctrlutil.AddFinalizer m f) = Finalizers m
  ∨ Finalizers (ctrlutil.AddFinalizer m f) = Finalizers m ++ [f].
Proof. unfold ctrlutil.AddFinalizer. case_match; auto. Qed.

Lemma AddFinalizer_present m f : f ∈ Finalizers (ctrlutil.AddFinalizer m f).
Proof.
  unfold ctrlutil.AddFinalizer, ctrlutil.ContainsFinalizer.
  case_bool_decide; [done|]. simpl. set_solver.
Qed.

(** What the mutation changes, and what it keeps. *)
Lemma mutateFn_frame vm poolRef c :
  let c' := mutateFn vm poolRef c in
  let m := ipamv1.ObjectMeta c in
  let m' := ipamv1.ObjectMeta c' in
  ipamv1.AddressRefName c' = ipamv1.AddressRefName c
  ∧ ipamv1.Conditions c' = ipamv1.Conditions c
  ∧ Name m' = Name m ∧ Namespace m' = Namespace m ∧ UID m' = UID m
  ∧ Annotations m' = Annotations m
  ∧ CreationTimestamp m' = CreationTimestamp m
  ∧ DeletionTimestamp m' = DeletionTimestamp m
  ∧ (∀ l, l ≠ clusterv1.ClusterNameLabel → Labels m' !! l = Labels m !! l)
  ∧ (Finalizers m' = Finalizers m ∨ Finalizers m' = Finalizers m ++ [IPAddressClaimFinalizer])
  ∧ IPAddressClaimFinalizer ∈ Finalizers m'
  ∧ ipamv1.PoolRef c' = poolRef.
Proof.
  simpl. unfold mutateFn.
  set (m1 := setOwnerReferences _ (ipamv1.ObjectMeta c)).
  pose proof (AddFinalizer_finalizers m1 IPAddressClaimFinalizer) as Hf.
  pose proof (AddFinalizer_present m1 IPAddressClaimFinalizer) as Hp.
  assert (Hm : ∀ f, ctrlutil.AddFinalizer m1 f = m1
                    ∨ ctrlutil.AddFinalizer m1 f = setFinalizers (Finalizers m1 ++ [f]) m1).
  { intros f. unfold ctrlutil.AddFinalizer. case_match; auto. }
  destruct (Hm IPAddressClaimFinalizer) as [Heq|Heq]; rewrite Heq in *; clear Heq;
    simpl; repeat split; try done; intros l Hl; by rewrite lookup_insert_ne.
Qed.

(** C8.  When the client returns an existing claim, the create-or-patch
    keeps the resolved address reference and the conditions of the claim,
    and every other field but the owner references, the finalizers (to
    which only the claim finalizer may be added), the cluster-name label
    and the pool reference; the returned claim is the stored one, no claim
    is created, and the other claims and the VSphereVMs in the store are
    untouched. *)
Theorem createOrPatchIPAddressClaim_keeps_allocator_fields
    r vmCtx w name poolRef existing claim created w' :
  let k := (Namespace (VSphereVM.ObjectMeta (VSphereVM vmCtx)), name) in
  getClaim r w k = Ok existing →
  key (ipamv1.ObjectMeta existing) = k →
  createOrPatchIPAddressClaim r vmCtx w name poolRef = (Ok (claim, created), w') →
  let m := ipamv1.ObjectMeta existing in
  let m' := ipamv1.ObjectMeta claim in
  ipamv1.AddressRefName claim = ipamv1.AddressRefName existing
  ∧ ipamv1.Conditions claim = ipamv1.Conditions existing
  ∧ Name m' = Name m ∧ Namespace m' = Namespace m ∧ UID m' = UID m
  ∧ Annotations m' = Annotations m
  ∧ CreationTimestamp m' = CreationTimestamp m
  ∧ DeletionTimestamp m' = DeletionTimestamp m
  ∧ (∀ l, l ≠ clusterv1.ClusterNameLabel → Labels m' !! l = Labels m !! l)
  ∧ (Finalizers m' = Finalizers m ∨ Finalizers m' = Finalizers m ++ [IPAddressClaimFinalizer])
  ∧ created = false
  ∧ claims w' !! k = Some claim
  ∧ (∀ k', k' ≠ k → claims w' !! k' = claims w !! k')
  ∧ vms w' = vms w.
Proof.
  intros k Hget Hkey Hcp m m'.
  pose proof (mutateFn_frame (VSphereVM vmCtx) poolRef existing) as Hframe.
  cbv zeta in Hframe.
  destruct Hframe as (Ha & Hc & Hn & Hns & Hu & Han & Hct & Hdt & Hl & Hf & Hp & _).
  assert (Hk' : key (ipamv1.ObjectMeta (mutateFn (VSphereVM vmCtx) poolRef existing)) = k).
  { rewrite <- Hkey. unfold key. by rewrite Hn, Hns. }
  assert (Hstore : ∀ cs,
    store ipamv1.ObjectMeta (mutateFn (VSphereVM vmCtx) poolRef existing) cs
    = <[k := mutateFn (VSphereVM vmCtx) poolRef existing]> cs).
  { intros cs. unfold store. rewrite Hk'.
    rewrite (bool_decide_eq_false_2 (Finalizers _ = [])), andb_false_r; [done|].
    intros Hnil. rewrite Hnil in Hp. by apply not_elem_of_nil in Hp. }
  unfold createOrPatchIPAddressClaim, CreateOrPatch in Hcp.
  change (key (ipamv1.ObjectMeta (newClaim name _))) with k in Hcp.
  rewrite Hget in Hcp. apply getClaim_Ok in Hget.
  case_bool_decide as Hsame.
  - simplify_eq/=. rewrite Hsame. repeat split; done.
  - destruct (patchClaimError r k); simplify_eq/=.
    repeat split; try done.
    + rewrite Hstore. by rewrite lookup_insert_eq.
    + intros k' Hne. rewrite Hstore. by rewrite lookup_insert_ne.
Qed.


(** *** The counters of the claim loop *)

Lemma createdCalls_snoc cs c :
  createdCalls (cs ++ [c]) = createdCalls cs + (if isCreateClaim c then 1 else 0).
Proof.
  unfold createdCalls. rewrite filter_app, length_app. f_equal.
  rewrite filter_cons. by destruct (isCreateClaim c).
Qed.

(** A create-or-patch that reports a creation has issued one create call;
    any other outcome has issued none. *)
Lemma createOrPatchIPAddressClaim_calls r vmCtx w name poolRef :
  let out := createOrPatchIPAddressClaim r vmCtx w name poolRef in
  createdCalls (calls out.2)
  = createdCalls (calls w)
    + match out.1 with Ok (_, true) => 1 | _ => 0 end.
Proof.
  simpl. unfold createOrPatchIPAddressClaim, CreateOrPatch.
  repeat case_match; simplify_eq/=; rewrite ?createdCalls_snoc; simpl; lia.
Qed.

(** The loop counts every pair it visits, counts as fulfilled at most the
    pairs it visits, and counts as created exactly the claims for which it
    issued a create call. *)
Lemma claimLoop_counts r vmCtx pairs acc w t w' :
  claimLoop r vmCtx pairs acc w = (None, t, w') →
  totalClaims t = totalClaims acc + length pairs
  ∧ (claimsFulfilled t ≤ claimsFulfilled acc + length pairs)%nat
  ∧ createdCalls (calls w') + claimsCreated acc
    = createdCalls (calls w) + claimsCreated t.
Proof.
  revert acc w. induction pairs as [|[[d p] ref] rest IH]; intros acc w Hrun.
  { simpl in Hrun. simplify_eq. simpl. lia. }
  simpl in Hrun.
  pose proof (createOrPatchIPAddressClaim_calls r vmCtx w
    (util.IPAddressClaimName (Name (VSphereVM.ObjectMeta (VSphereVM vmCtx))) d p) ref)
    as Hcalls.
  cbv zeta in Hcalls.
  repeat case_match; simplify_eq/=;
    apply IH in Hrun; simpl in Hrun; lia.
Qed.

Lemma markTrue_lookup t vm :
  VSphereVM.GetConditions (markTrue t vm) !! t = Some (conditions.TrueCondition t).
Proof. apply lookup_insert_eq. Qed.

Lemma markFalse_lookup t reason sev msg vm :
  VSphereVM.GetConditions (markFalse t reason sev msg vm) !! t
  = Some (conditions.FalseCondition t reason sev msg).
Proof. apply lookup_insert_eq. Qed.

(** *** C9 *)

Lemma releaseLoop_cons r vm d p ref rest w :
  releaseLoop r vm ((d, p, ref) :: rest) w
  = let k := (Namespace (VSphereVM.ObjectMeta vm),
              util.IPAddressClaimName (Name (VSphereVM.ObjectMeta vm)) d p) in
    match getClaim r w k with
    | Err e =>
        if apierrors.IsNotFound e then releaseLoop r vm rest w
        else (Some (Wrapf e "failed to find IPAddressClaim to remove the finalizer"), w)
    | Ok c =>
        match ctrlutil.RemoveFinalizer (ipamv1.ObjectMeta c) IPAddressClaimFinalizer with
        | (m, true) =>
            match updateClaimError r k with
            | Some e => (Some (Wrapf e "failed to update IPAddressClaim"), w)
            | None =>
                releaseLoop r vm rest
                  (record (CallUpdateClaim k)
                     (setClaims
                        (store ipamv1.ObjectMeta (ipamv1.setObjectMeta m c) (claims w)) w))
            end
        | (_, false) => releaseLoop r vm rest w
        end
    end.
Proof. reflexivity. Qed.

Lemma store_release_wellKeyed cs k c :
  wellKeyed cs → cs !! k = Some c →
  let c' := ipamv1.setObjectMeta
              (ctrlutil.RemoveFinalizer (ipamv1.ObjectMeta c) IPAddressClaimFinalizer).1 c in
  wellKeyed (store ipamv1.ObjectMeta c' cs)
  ∧ (∀ k', k' ≠ k → store ipamv1.ObjectMeta c' cs !! k' = cs !! k')
  ∧ match store ipamv1.ObjectMeta c' cs !! k with
    | Some c'' => IPAddressClaimFinalizer ∉ Finalizers (ipamv1.ObjectMeta c'')
    | None => True
    end.
Proof.
  intros Hwk Hc c'.
  assert (Hk : key (ipamv1.ObjectMeta c') = k).
  { rewrite <- (Hwk k c Hc). reflexivity. }
  unfold store. rewrite Hk. case_match.
  - split; [|split].
    + intros k1 c1 [_ ?]%lookup_delete_Some. eauto.
    + intros k' Hne. by rewrite lookup_delete_ne.
    + by rewrite lookup_delete_eq.
  - split; [|split].
    + intros k1 c1 [[<- <-]|[_ ?]]%lookup_insert_Some; eauto.
    + intros k' Hne. by rewrite lookup_insert_ne.
    + rewrite lookup_insert_eq. apply RemoveFinalizer_absent.
Qed.

(** The write of one release step: the store stays well keyed, the key
    written is released, and so is every key that was. *)
Lemma release_step r w k0 c :
  wellKeyed (claims w) →
  getClaim r w k0 = Ok c →
  let w1 :=
    record (CallUpdateClaim k0)
      (setClaims
         (store ipamv1.ObjectMeta
            (ipamv1.setObjectMeta
               (ctrlutil.RemoveFinalizer (ipamv1.ObjectMeta c) IPAddressClaimFinalizer).1 c)
            (claims w)) w) in
  wellKeyed (claims w1)
  ∧ released r w1 k0
  ∧ ∀ k, released r w k → released r w1 k.
Proof.
  intros Hwk Hget w1.
  pose proof (getClaim_Ok _ _ _ _ Hget) as Hc.
  destruct (store_release_wellKeyed _ _ _ Hwk Hc) as (Hwk' & Hother & Hsame).
  assert (Hself : released r w1 k0).
  { unfold released, getClaim in *. simpl.
    destruct (getClaimError r k0); [done|].
    destruct (store _ _ _ !! k0); [done|reflexivity]. }
  split; [done|]. split; [done|].
  intros k Hrel. destruct (decide (k = k0)) as [Heq|Hne]; [by rewrite Heq|].
  unfold released, getClaim in *. simpl. by rewrite Hother.
Qed.

(** One run of the release loop keeps the store well keyed and keeps
    released every key that was. *)
Lemma releaseLoop_preserves r vm pairs w k :
  wellKeyed (claims w) →
  let w' := (releaseLoop r vm pairs w).2 in
  wellKeyed (claims w') ∧ (released r w k → released r w' k).
Proof.
  revert w. induction pairs as [|[[d p] ref] rest IH]; intros w Hwk; [done|].
  rewrite releaseLoop_cons. cbv zeta.
  destruct (getClaim r w _) as [c|e] eqn:Hget.
  - destruct (ctrlutil.RemoveFinalizer _ _) as [m b] eqn:Hrm. destruct b.
    + destruct (updateClaimError r _) eqn:Hupd; [done|].
      assert (m = (ctrlutil.RemoveFinalizer (ipamv1.ObjectMeta c) IPAddressClaimFinalizer).1)
        as -> by (by rewrite Hrm).
      destruct (release_step r w _ c Hwk Hget) as (Hwk' & _ & Hkeep).
      destruct (IH _ Hwk') as [IH1 IH2]. split; [done|].
      intros Hrel. by apply IH2, Hkeep.
    + by apply IH.
  - destruct (apierrors.IsNotFound e); [by apply IH|done].
Qed.

(** After a run without error every visited key is released. *)
Lemma releaseLoop_releases r vm pairs w w' :
  wellKeyed (claims w) →
  releaseLoop r vm pairs w = (None, w') →
  Forall (λ '(d, p, _),
            released r w' (Namespace (VSphereVM.ObjectMeta vm),
                           util.IPAddressClaimName (Name (VSphereVM.ObjectMeta vm)) d p))
         pairs.
Proof.
  revert w. induction pairs as [|[[d p] ref] rest IH]; intros w Hwk Hrun; [done|].
  rewrite releaseLoop_cons in Hrun. cbv zeta in Hrun.
  destruct (getClaim r w _) as [c|e] eqn:Hget.
  - destruct (ctrlutil.RemoveFinalizer _ _) as [m b] eqn:Hrm. destruct b.
    + destruct (updateClaimError r _) eqn:Hupd; [done|].
      assert (m = (ctrlutil.RemoveFinalizer (ipamv1.ObjectMeta c) IPAddressClaimFinalizer).1)
        as -> by (by rewrite Hrm).
      destruct (release_step r w _ c Hwk Hget) as (Hwk' & Hself & _).
      constructor; [|by eapply IH].
      pose proof (releaseLoop_preserves r vm rest _
        (Namespace (VSphereVM.ObjectMeta vm),
         util.IPAddressClaimName (Name (VSphereVM.ObjectMeta vm)) d p) Hwk') as [_ Hp].
      rewrite Hrun in Hp. by apply Hp.
    + constructor; [|by eapply IH].
      pose proof (releaseLoop_preserves r vm rest w
        (Namespace (VSphereVM.ObjectMeta vm),
         util.IPAddressClaimName (Name (VSphereVM.ObjectMeta vm)) d p) Hwk) as [_ Hp].
      rewrite Hrun in Hp. apply Hp. unfold released. rewrite Hget.
      apply RemoveFinalizer_flag. by rewrite Hrm.
  - destruct (apierrors.IsNotFound e) eqn:Hnf; [|done].
    constructor; [|by eapply IH].
    pose proof (releaseLoop_preserves r vm rest w
      (Namespace (VSphereVM.ObjectMeta vm),
       util.IPAddressClaimName (Name (VSphereVM.ObjectMeta vm)) d p) Hwk) as [_ Hp].
    rewrite Hrun in Hp. apply Hp. unfold released. by rewrite Hget.
Qed.

(** On released keys the loop writes nothing and succeeds. *)
Lemma releaseLoop_idle r vm pairs w :
  Forall (λ '(d, p, _),
            released r w (Namespace (VSphereVM.ObjectMeta vm),
                          util.IPAddressClaimName (Name (VSphereVM.ObjectMeta vm)) d p))
         pairs →
  releaseLoop r vm pairs w = (None, w).
Proof.
  induction 1 as [|[[d p] ref] rest Hrel _ IH]; [done|].
  rewrite releaseLoop_cons. cbv zeta. unfold released in Hrel.
  destruct (getClaim r w _) as [c|e].
  - apply RemoveFinalizer_flag in Hrel.
    destruct (ctrlutil.RemoveFinalizer _ _) as [m b]. simpl in Hrel. by subst b.
  - by rewrite Hrel.
Qed.

(** C9.  Releasing the claims is repeat-safe: on a well-keyed claim store,
    after a run of [deleteIPAddressClaims] that returned no error, a
    second run returns no error either and leaves the store and the trace
    of outgoing calls exactly as the first run left them. *)
Theorem deleteIPAddressClaims_repeat_safe r vmCtx w w' :
  wellKeyed (claims w) →
  deleteIPAddressClaims r vmCtx w = (None, w') →
  deleteIPAddressClaims r vmCtx w' = (None, w').
Proof.
  unfold deleteIPAddressClaims. intros Hwk Hrun.
  apply releaseLoop_idle. by eapply releaseLoop_releases.
Qed.

End Claims.

(** ** The deployment-zone controller *)

Section ZoneProperties.
Import metav1 infrav1 ZoneController.

(** *** Owner references *)

Lemma RemoveOwnerRef_cons r rest ref :
  clusterutilv1.RemoveOwnerRef (r :: rest) ref
  = if clusterutilv1.referSameObject r ref then rest
    else r :: clusterutilv1.RemoveOwnerRef rest ref.
Proof.
  unfold clusterutilv1.RemoveOwnerRef. simpl.
  destruct (clusterutilv1.referSameObject r ref); [reflexivity|].
  by destruct (clusterutilv1.indexOwnerRef rest ref).
Qed.

(** [RemoveOwnerRef] drops one reference to the object, the first, and
    keeps the references to other objects in their order. *)
Lemma RemoveOwnerRef_spec refs ref :
  let same := λ r, clusterutilv1.referSameObject r ref = true in
  let refs' := clusterutilv1.RemoveOwnerRef refs ref in
  length (filter same refs') = pred (length (filter same refs))
  ∧ filter (λ r, ¬ same r) refs' = filter (λ r, ¬ same r) refs.
Proof.
  simpl. induction refs as [|r rest [IH1 IH2]]; [done|].
  rewrite RemoveOwnerRef_cons, !(filter_cons _ r rest).
  destruct (clusterutilv1.referSameObject r ref) eqn:Hr.
  - rewrite decide_True by done. rewrite decide_False by (by intros Hn; apply Hn).
    done.
  - rewrite !filter_cons, Hr. simpl. split; [done|]. by rewrite IH2.
Qed.

(** *** The machine collection *)

Lemma FromMachineList_snoc items m :
  collections.FromMachineList (items ++ [m])
  = collections.Insert (collections.FromMachineList items) m.
Proof. unfold collections.FromMachineList. by rewrite foldl_app. Qed.

(** The collection holds, under a name, the last listed machine of that
    name. *)
Lemma FromMachineList_lookup items n m :
  collections.FromMachineList items !! n = Some m
  ↔ ∃ pre post,
      items = pre ++ m :: post
      ∧ Name (clusterv1.MachineMeta m) = n
      ∧ ∀ m', m' ∈ post → Name (clusterv1.MachineMeta m') ≠ n.
Proof.
  induction items as [|x l IH] using rev_ind.
  { change (collections.FromMachineList []) with (∅ : collections.Machines).
    split; [by rewrite lookup_empty|]. intros (pre & post & Heq & _).
    by destruct pre. }
  rewrite FromMachineList_snoc. unfold collections.Insert.
  destruct (decide (Name (clusterv1.MachineMeta x) = n)) as [Hx|Hx].
  - rewrite Hx, lookup_insert_eq. split.
    + intros [= Heq]. exists l, []. rewrite <- Heq.
      split_and!; [done..|]. by intros m' ?%elem_of_nil.
    + intros (pre & post & Heq & Hn & Hlast).
      destruct post as [|y post _] using rev_ind.
      * apply app_inj_tail in Heq as [_ ->]. done.
      * rewrite app_comm_cons, app_assoc in Heq. apply app_inj_tail in Heq as [_ ->].
        exfalso. apply (Hlast y); [|done]. apply elem_of_app. right. constructor.
  - rewrite lookup_insert_ne by done. rewrite IH. split.
    + intros (pre & post & -> & Hn & Hlast). exists pre, (post ++ [x]).
      split_and!; [by rewrite <- app_assoc|done|].
      intros m' [?| ->%list_elem_of_singleton]%elem_of_app; [by apply Hlast|done].
    + intros (pre & post & Heq & Hn & Hlast).
      destruct post as [|y post _] using rev_ind.
      * apply app_inj_tail in Heq as [_ ->]. done.
      * rewrite app_comm_cons, app_assoc in Heq. apply app_inj_tail in Heq as [-> ->].
        exists pre, post. split_and!; [done..|].
        intros m' Hm'. apply Hlast. apply elem_of_app. by left.
Qed.

Lemma machinesUsingDeploymentZone_lookup zone machines n m :
  machinesUsingDeploymentZone zone machines !! n = Some m
  ↔ collections.FromMachineList machines !! n = Some m
    ∧ DeletionTimestamp (clusterv1.MachineMeta m) = None
    ∧ clusterv1.FailureDomain m = Some (Name (VSphereDeploymentZone.ObjectMeta zone)).
Proof.
  unfold machinesUsingDeploymentZone, collections.Filter, collections.ActiveMachines,
    notDeleting.
  rewrite map_lookup_filter_Some. simpl.
  destruct (DeletionTimestamp _), (clusterv1.FailureDomain m) as [fd|]; simpl;
    try case_bool_decide; split; intros; destruct_and?; simplify_eq; try done.
Qed.


(** *** C6 *)

(** What the delete path of a zone does with the machine list
    [machines].  A listed machine is held by the collection when no
    machine of the same name is listed after it, and it blocks the zone
    when it is held, active, and names the zone as its failure domain.
    (1) When some machine blocks the zone the delete path returns the
    in-use error, which names every blocking machine, and leaves the zone
    (finalizer included) and the store as they were.  (2) When no machine
    blocks the zone, the failure domain is found and the client reports
    no failure, it succeeds: the zone finalizer is removed, one owner
    reference to the zone is taken off the failure domain while the
    references to other owners stay, and the failure domain is deleted
    exactly when no owner reference is left, and is stored with the
    remaining references otherwise. *)
Lemma reconcileDelete_zone_guard r zone w machines :
  listMachines r = Ok machines →
  let name := Name (VSphereDeploymentZone.ObjectMeta zone) in
  let blocks := λ m : clusterv1.Machine,
    (∃ pre post,
       machines = pre ++ m :: post
       ∧ ∀ m', m' ∈ post →
               Name (clusterv1.MachineMeta m') ≠ Name (clusterv1.MachineMeta m))
    ∧ DeletionTimestamp (clusterv1.MachineMeta m) = None
    ∧ clusterv1.FailureDomain m = Some name in
  let out := reconcileDelete r zone w in
  (∀ blocker,
     blocks blocker →
     ∃ names,
       out = (Some (InUseError name names), zone, w)
       ∧ ∀ m, blocks m →
              (Namespace (clusterv1.MachineMeta m) +:+ "/"
                 +:+ Name (clusterv1.MachineMeta m)) ∈ names)
  ∧ (∀ fd,
       (∀ m, ¬ blocks m) →
       getFailureDomain r w (VSphereDeploymentZone.FailureDomain zone) = Ok fd →
       (∀ o, newHelperError r o = None) →
       (∀ o, patchError r o = None) →
       (∀ n, deleteError r n = None) →
       let same := λ ref, clusterutilv1.referSameObject ref (zoneOwnerRef zone) = true in
       let refs := OwnerReferences (FailureDomainMeta fd) in
       let refs' := clusterutilv1.RemoveOwnerRef refs (zoneOwnerRef zone) in
       let fdName := Name (FailureDomainMeta fd) in
       out.1.1 = None
       ∧ out.1.2 = removeZoneFinalizer zone
       ∧ (DeploymentZoneFinalizer
            ∉ Finalizers (VSphereDeploymentZone.ObjectMeta out.1.2))
       ∧ length (filter same refs') = pred (length (filter same refs))
       ∧ filter (λ ref, ¬ same ref) refs' = filter (λ ref, ¬ same ref) refs
       ∧ (refs' = [] → failureDomains out.2 = delete fdName (failureDomains w))
       ∧ (refs' ≠ [] →
          failureDomains out.2
          = <[fdName := setFailureDomainOwnerReferences refs' fd]> (failureDomains w))).
Proof.
  intros Hlist name blocks out.
  assert (Hblocks : ∀ m, blocks m
            ↔ machinesUsingDeploymentZone zone machines !! Name (clusterv1.MachineMeta m)
              = Some m).
  { intros m. rewrite machinesUsingDeploymentZone_lookup, FromMachineList_lookup.
    unfold blocks. split.
    - intros ((pre & post & Heq & Hlast) & Ha & Hf). split; [|done].
      by exists pre, post.
    - intros ((pre & post & Heq & _ & Hlast) & Ha & Hf). split; [|done].
      by exists pre, post. }
  split.
  - intros blocker Hb. apply Hblocks in Hb.
    exists (MachinesAsString
              (collections.SortedByCreationTimestamp
                 (machinesUsingDeploymentZone zone machines))).
    split.
    + unfold out, reconcileDelete. rewrite Hlist. cbv zeta.
      assert (Hsize : size (machinesUsingDeploymentZone zone machines) ≠ 0)
        by (by eapply map_size_ne_0_lookup_2).
      apply Nat.eqb_neq in Hsize. by rewrite Hsize.
    + intros m Hm. apply Hblocks in Hm. unfold MachinesAsString.
      apply (list_elem_of_fmap_2
               (λ m, Namespace (clusterv1.MachineMeta m) +:+ "/"
                       +:+ Name (clusterv1.MachineMeta m))).
      unfold collections.SortedByCreationTimestamp. rewrite merge_sort_Permutation.
      apply list_elem_of_fmap. exists (Name (clusterv1.MachineMeta m), m).
      split; [done|]. by apply elem_of_map_to_list.
  - intros fd Hfree Hget Hnew Hpatch Hdel same refs refs' fdName.
    assert (Hnone : machinesUsingDeploymentZone zone machines = ∅).
    { apply map_empty. intros n.
      destruct (machinesUsingDeploymentZone zone machines !! n) as [m|] eqn:Hm; [|done].
      exfalso. apply (Hfree m). apply Hblocks.
      pose proof Hm as Hn. apply machinesUsingDeploymentZone_lookup in Hn as [Hn _].
      apply FromMachineList_lookup in Hn as (_ & _ & _ & -> & _). exact Hm. }
    pose proof (RemoveOwnerRef_spec refs (zoneOwnerRef zone)) as [Hcount Hothers].
    unfold out, reconcileDelete. rewrite Hlist, Hnone, Hget. simpl.
    unfold updateOwnerReferences. rewrite Hnew, Hpatch. simpl.
    rewrite Hdel. fold refs refs' fdName.
    fold refs' same in Hcount, Hothers.
    clearbody refs'. destruct refs' as [|ref0 rest]; simpl.
    + split_and!; try done.
      * exact (RemoveFinalizer_absent _ _).
      * intros _. by rewrite delete_insert_eq.
    + split_and!; try done. exact (RemoveFinalizer_absent _ _).
Qed.

(** C6.  The delete path misses a blocking machine that shares its name
    with a machine of another namespace listed after it.  With the
    machines "ns1/m", active and placed in zone "zone-a", and "ns2/m",
    placed in zone "zone-b", listed in this order, the collection keyed by
    name holds "ns2/m" alone; the delete of zone "zone-a" finds no machine
    in the way, returns no error and removes the finalizer of the zone,
    though the active machine "ns1/m" names the zone as its failure
    domain. *)
Theorem reconcileDelete_zone_guard_misses_namesake :
  let blocker := Samples3.machineAt "ns1" "m" "zone-a" in
  let machines := [blocker; Samples3.machineAt "ns2" "m" "zone-b"] in
  let r := Fixtures.zoneReconcilerWith machines in
  let out := reconcileDelete r Fixtures.zone1 Fixtures.zoneWorld1 in
  listMachines r = Ok machines
  ∧ blocker ∈ machines
  ∧ DeletionTimestamp (clusterv1.MachineMeta blocker) = None
  ∧ clusterv1.FailureDomain blocker
    = Some (Name (VSphereDeploymentZone.ObjectMeta Fixtures.zone1))
  ∧ DeploymentZoneFinalizer ∈ Finalizers (VSphereDeploymentZone.ObjectMeta Fixtures.zone1)
  ∧ out.1.1 = None
  ∧ DeploymentZoneFinalizer ∉ Finalizers (VSphereDeploymentZone.ObjectMeta out.1.2).
Proof.
  cbv zeta. split_and!; try reflexivity.
  - constructor.
  - constructor.
  - vm_compute. apply not_elem_of_nil.
Qed.

(** *** C10 *)

(** C10.  On the delete path of a zone that no active machine uses, when
    the failure domain the zone names is reported as not found, the
    reconcile returns no error, removes the finalizer of the zone, and
    writes nothing. *)
Theorem reconcileDelete_failure_domain_not_found r zone w machines e :
  listMachines r = Ok machines →
  machinesUsingDeploymentZone zone machines = ∅ →
  getFailureDomain r w (VSphereDeploymentZone.FailureDomain zone) = Err e →
  apierrors.IsNotFound e = true →
  reconcileDelete r zone w = (None, removeZoneFinalizer zone, w)
  ∧ DeploymentZoneFinalizer
      ∉ Finalizers (VSphereDeploymentZone.ObjectMeta (removeZoneFinalizer zone)).
Proof.
  intros Hlist Hnone Hget Hnf. split.
  - unfold reconcileDelete. by rewrite Hlist, Hnone, Hget, Hnf.
  - apply RemoveFinalizer_absent.
Qed.

End ZoneProperties.

(** ** The properties on the sample objects *)

Section Samples.
Import metav1 infrav1 capvcontext VMController Invariants.

Lemma createOrPatchIPAddressClaim_keeps_allocator_fields_witness :
  let vmCtx := Fixtures.contextOf (Fixtures.vmWith [VMFinalizer] "" [Fixtures.poolDevice]) in
  let w := mkWorld ∅ {[("default", "vm-a-0-0") := Fixtures.resolvedClaim]} [] in
  let out :=
    createOrPatchIPAddressClaim (Fixtures.readyBackend "h-1") vmCtx w "vm-a-0-0"
      Fixtures.poolRefA in
  ∃ claim created,
    out.1 = Ok (claim, created)
    ∧ ipamv1.AddressRefName claim = ipamv1.AddressRefName Fixtures.resolvedClaim
    ∧ ipamv1.Conditions claim = ipamv1.Conditions Fixtures.resolvedClaim.
Proof.
  eexists _, _. split; [vm_compute; reflexivity|].
  pose proof (createOrPatchIPAddressClaim_keeps_allocator_fields
                (Fixtures.readyBackend "h-1")
                (Fixtures.contextOf (Fixtures.vmWith [VMFinalizer] "" [Fixtures.poolDevice]))
                (mkWorld ∅ {[("default", "vm-a-0-0") := Fixtures.resolvedClaim]} [])
                "vm-a-0-0" Fixtures.poolRefA Fixtures.resolvedClaim) as Hkeep.
  cbv zeta in Hkeep.
  refine (let H := Hkeep _ _ _ _ _ _ in conj (proj1 H) (proj1 (proj2 H))).
  - vm_compute; reflexivity.
  - reflexivity.
  - vm_compute; reflexivity.
Defined.

Lemma deleteIPAddressClaims_repeat_safe_witness :
  let r := Fixtures.readyBackend "h-1" in
  let vmCtx := Fixtures.contextOf (Fixtures.vmWith [VMFinalizer] "" [Fixtures.poolDevice]) in
  let w := mkWorld ∅ {[("default", "vm-a-0-0") := Fixtures.resolvedClaim]} [] in
  calls (deleteIPAddressClaims r vmCtx w).2 = [CallUpdateClaim ("default", "vm-a-0-0")]
  ∧ deleteIPAddressClaims r vmCtx (deleteIPAddressClaims r vmCtx w).2
    = (None, (deleteIPAddressClaims r vmCtx w).2).
Proof.
  split; [vm_compute; reflexivity|].
  apply (deleteIPAddressClaims_repeat_safe (Fixtures.readyBackend "h-1")
           (Fixtures.contextOf (Fixtures.vmWith [VMFinalizer] "" [Fixtures.poolDevice]))
           (mkWorld ∅ {[("default", "vm-a-0-0") := Fixtures.resolvedClaim]} [])).
  - intros k c Hk. simpl in Hk. apply lookup_singleton_Some in Hk as [<- <-].
    reflexivity.
  - vm_compute; reflexivity.
Defined.

(** The zone guard on sample machine lists: the machine "default/m-1"
    placed in zone "zone-a" blocks the delete of that zone, and placed in
    zone "zone-b" it does not, so the failure domain is deleted. *)
Lemma reconcileDelete_zone_guard_sample :
  let blocked := Fixtures.zoneReconcilerWith [Fixtures.machineIn "m-1" "zone-a"] in
  let free := Fixtures.zoneReconcilerWith [Fixtures.machineIn "m-1" "zone-b"] in
  (∃ names,
     ZoneController.reconcileDelete blocked Fixtures.zone1 Fixtures.zoneWorld1
     = (Some (InUseError "zone-a" names), Fixtures.zone1, Fixtures.zoneWorld1)
     ∧ "default/m-1" ∈ names)
  ∧ (ZoneController.reconcileDelete free Fixtures.zone1 Fixtures.zoneWorld1).1.1 = None
  ∧ ZoneController.failureDomains
      (ZoneController.reconcileDelete free Fixtures.zone1 Fixtures.zoneWorld1).2
    = delete "fd-a" (ZoneController.failureDomains Fixtures.zoneWorld1).
Proof.
  assert (Hblocks :
    (∃ pre post,
       [Fixtures.machineIn "m-1" "zone-a"]
       = pre ++ Fixtures.machineIn "m-1" "zone-a" :: post
       ∧ ∀ m', m' ∈ post →
               metav1.Name (clusterv1.MachineMeta m')
               ≠ metav1.Name (clusterv1.MachineMeta (Fixtures.machineIn "m-1" "zone-a")))
    ∧ metav1.DeletionTimestamp (clusterv1.MachineMeta (Fixtures.machineIn "m-1" "zone-a"))
      = None
    ∧ clusterv1.FailureDomain (Fixtures.machineIn "m-1" "zone-a")
      = Some (metav1.Name (infrav1.VSphereDeploymentZone.ObjectMeta Fixtures.zone1))).
  { split; [|by split]. exists [], []. split; [done|].
    intros m' Hm'. by apply elem_of_nil in Hm'. }
  split.
  - destruct (proj1 (reconcileDelete_zone_guard
                       (Fixtures.zoneReconcilerWith [Fixtures.machineIn "m-1" "zone-a"])
                       Fixtures.zone1 Fixtures.zoneWorld1
                       [Fixtures.machineIn "m-1" "zone-a"] eq_refl)
                    (Fixtures.machineIn "m-1" "zone-a") Hblocks)
      as (names & Hout & Hall).
    exists names. split; [exact Hout|].
    exact (Hall (Fixtures.machineIn "m-1" "zone-a") Hblocks).
  - pose proof (proj2 (reconcileDelete_zone_guard
                         (Fixtures.zoneReconcilerWith [Fixtures.machineIn "m-1" "zone-b"])
                         Fixtures.zone1 Fixtures.zoneWorld1
                         [Fixtures.machineIn "m-1" "zone-b"] eq_refl)
                      Fixtures.failureDomain1) as Hfree.
    cbv zeta in Hfree.
    destruct Hfree as (Herr & _ & _ & _ & _ & Hdel & _).
    + intros m ((pre & post & Heq & _) & _ & Hfd).
      assert (Hin : m ∈ [Fixtures.machineIn "m-1" "zone-b"]).
      { rewrite Heq. apply elem_of_app. right. constructor. }
      apply list_elem_of_singleton in Hin. subst m. discriminate Hfd.
    + reflexivity.
    + reflexivity.
    + reflexivity.
    + reflexivity.
    + split; [exact Herr|]. apply Hdel. vm_compute; reflexivity.
Qed.

Lemma reconcileDelete_failure_domain_not_found_witness :
  let r := Fixtures.zoneReconcilerWith [] in
  let w := ZoneController.mkZoneWorld ∅ [] in
  ZoneController.reconcileDelete r Fixtures.zone1 w
  = (None, ZoneController.removeZoneFinalizer Fixtures.zone1, w).
Proof.
  refine (proj1 (reconcileDelete_failure_domain_not_found (Fixtures.zoneReconcilerWith [])
                   Fixtures.zone1 (ZoneController.mkZoneWorld ∅ []) []
                   (StatusNotFound "fd-a") _ _ _ _)); reflexivity.
Defined.

End Samples.

(** ** What a reconcile of a VSphereVM preserves *)

Section ReconcileInvariants.
Import metav1 infrav1 capvcontext VMController Frames.

(** *** What a reconcile leaves in the store *)

(** The resource found under the request key after [Reconcile] is the one
    stored before, or the in-memory resource [reconcileBody] ended with,
    up to its conditions. *)
Lemma Reconcile_stored r w req vm vm' :
  vms w !! req = Some vm →
  vms (Reconcile r w req).2 !! req = Some vm' →
  vm' = vm
  ∨ ∃ fd s input cs,
      vm' = VSphereVM.SetConditions cs
              (VSphereVM (reconcileBody r
                            (mkVMContext (markTrue VCenterAvailableCondition vm) fd s None)
                            w input).1.2).
Proof.
  intros Hvm Hafter.
  destruct (Reconcile_shape r w req) as [Hw|(vm0 & fd & s & input & Hget & Hrec)].
  { rewrite Hw in Hafter. left. congruence. }
  apply getVM_Ok in Hget. assert (vm0 = vm) as -> by congruence.
  rewrite Hrec in Hafter. apply patchOnExit_lookup in Hafter as [Hold|[cs ->]].
  { rewrite reconcileBody_vms in Hold. left. congruence. }
  right. eauto.
Qed.

(** The status fields and the spec that [reconcileNormal] may touch. *)
Lemma reconcileNormal_effect r vmCtx w :
  let vm := VSphereVM vmCtx in
  let vm' := VSphereVM (reconcileNormal r vmCtx w).1.2 in
  sameButLifecycle vm vm'
  ∧ VSphereVM.ObjectMeta vm' = VSphereVM.ObjectMeta vm
  ∧ (VSphereVMStatus.VMRef (VSphereVM.Status vm') = VSphereVMStatus.VMRef (VSphereVM.Status vm)
     ∨ VSphereVMStatus.VMRef (VSphereVM.Status vm) = "")
  ∧ (VSphereVMStatus.Ready (VSphereVM.Status vm') = VSphereVMStatus.Ready (VSphereVM.Status vm)
     ∨ VSphereVMStatus.Ready (VSphereVM.Status vm') = true).
Proof.
  simpl. destruct (reconcileIPAddressClaims_frame r vmCtx w) as (cs & Hctx & _).
  unfold reconcileNormal.
  destruct (reconcileIPAddressClaims r vmCtx w) as [[e c1] w1]. simpl in Hctx. subst c1.
  unfold sameButLifecycle.
  repeat case_match; simplify_eq/=;
    repeat match goal with
    | H : _ && _ = true |- _ => apply andb_true_iff in H as [? ?]
    | H : bool_decide _ = true |- _ => apply bool_decide_eq_true in H
    end;
    split_and!; auto.
Qed.

Lemma reconcileDelete_effect r vmCtx w :
  let vm := VSphereVM vmCtx in
  let vm' := VSphereVM (reconcileDelete r vmCtx w).1.2 in
  sameButLifecycle vm vm'
  ∧ VSphereVM.Spec vm' = VSphereVM.Spec vm
  ∧ VSphereVMStatus.VMRef (VSphereVM.Status vm') = VSphereVMStatus.VMRef (VSphereVM.Status vm)
  ∧ VSphereVMStatus.Ready (VSphereVM.Status vm') = VSphereVMStatus.Ready (VSphereVM.Status vm)
  ∧ (Finalizers (VSphereVM.ObjectMeta vm') = Finalizers (VSphereVM.ObjectMeta vm)
     ∨ Finalizers (VSphereVM.ObjectMeta vm')
       = filter (λ g, g ≠ VMFinalizer) (Finalizers (VSphereVM.ObjectMeta vm))).
Proof.
  simpl. unfold reconcileDelete, sameButLifecycle.
  repeat case_match; simplify_eq/=; split_and!; auto.
Qed.

Lemma sameButLifecycle_refl a : sameButLifecycle a a.
Proof. by repeat split. Qed.

(** What [reconcileBody] may do to the resource: it keeps everything but
    the lifecycle fields; it sets the VM reference only when there was
    none; it never resets the readiness flag; it adds the finalizer only
    to a resource that is not being deleted and drops finalizers only
    from one that is. *)
Lemma reconcileBody_effect r vmCtx w input :
  let vm := VSphereVM vmCtx in
  let vm' := VSphereVM (reconcileBody r vmCtx w input).1.2 in
  sameButLifecycle vm vm'
  ∧ (VSphereVMStatus.VMRef (VSphereVM.Status vm') = VSphereVMStatus.VMRef (VSphereVM.Status vm)
     ∨ VSphereVMStatus.VMRef (VSphereVM.Status vm) = "")
  ∧ (VSphereVMStatus.Ready (VSphereVM.Status vm') = VSphereVMStatus.Ready (VSphereVM.Status vm)
     ∨ VSphereVMStatus.Ready (VSphereVM.Status vm') = true)
  ∧ (Finalizers (VSphereVM.ObjectMeta vm') = Finalizers (VSphereVM.ObjectMeta vm)
     ∨ notDeleting (VSphereVM.ObjectMeta vm) = true
       ∧ Finalizers (VSphereVM.ObjectMeta vm')
         = Finalizers (VSphereVM.ObjectMeta vm) ++ [VMFinalizer]
     ∨ notDeleting (VSphereVM.ObjectMeta vm) = false
       ∧ Finalizers (VSphereVM.ObjectMeta vm')
         = filter (λ g, g ≠ VMFinalizer) (Finalizers (VSphereVM.ObjectMeta vm))).
Proof.
  simpl. unfold reconcileBody.
  destruct (match GetClusterFromMetadata r _ with Ok _ => _ | Err _ => _ end).
  { simpl. split_and!; auto using sameButLifecycle_refl. }
  destruct (notDeleting _ && negb _) eqn:Hgate.
  { apply andb_true_iff in Hgate as [Hnd Hnf]. apply negb_true_iff in Hnf.
    simpl. unfold ctrlutil.AddFinalizer. rewrite Hnf. simpl.
    split_and!; auto. by repeat split. }
  unfold reconcile_.
  assert (Hnormal : ∀ c, VSphereVM c = VSphereVM vmCtx →
            notDeleting (VSphereVM.ObjectMeta (VSphereVM vmCtx)) = true →
            let vm' := VSphereVM (reconcileNormal r c w).1.2 in
            sameButLifecycle (VSphereVM vmCtx) vm'
            ∧ (VSphereVMStatus.VMRef (VSphereVM.Status vm')
               = VSphereVMStatus.VMRef (VSphereVM.Status (VSphereVM vmCtx))
               ∨ VSphereVMStatus.VMRef (VSphereVM.Status (VSphereVM vmCtx)) = "")
            ∧ (VSphereVMStatus.Ready (VSphereVM.Status vm')
               = VSphereVMStatus.Ready (VSphereVM.Status (VSphereVM vmCtx))
               ∨ VSphereVMStatus.Ready (VSphereVM.Status vm') = true)
            ∧ Finalizers (VSphereVM.ObjectMeta vm')
              = Finalizers (VSphereVM.ObjectMeta (VSphereVM vmCtx))).
  { intros c Hc _. pose proof (reconcileNormal_effect r c w) as Hn. cbv zeta in Hn.
    rewrite Hc in Hn. destruct Hn as (? & Hm & ? & ?). cbv zeta. rewrite Hm.
    split_and!; auto. }
  assert (Hdelete : ∀ c, VSphereVM c = VSphereVM vmCtx →
            let vm' := VSphereVM (reconcileDelete r c w).1.2 in
            sameButLifecycle (VSphereVM vmCtx) vm'
            ∧ VSphereVMStatus.VMRef (VSphereVM.Status vm')
              = VSphereVMStatus.VMRef (VSphereVM.Status (VSphereVM vmCtx))
            ∧ VSphereVMStatus.Ready (VSphereVM.Status vm')
              = VSphereVMStatus.Ready (VSphereVM.Status (VSphereVM vmCtx))
            ∧ (Finalizers (VSphereVM.ObjectMeta vm')
               = Finalizers (VSphereVM.ObjectMeta (VSphereVM vmCtx))
               ∨ Finalizers (VSphereVM.ObjectMeta vm')
                 = filter (λ g, g ≠ VMFinalizer)
                     (Finalizers (VSphereVM.ObjectMeta (VSphereVM vmCtx))))).
  { intros c Hc. pose proof (reconcileDelete_effect r c w) as Hd. cbv zeta in Hd.
    rewrite Hc in Hd. destruct Hd as (? & _ & ? & ? & ?). cbv zeta. split_and!; auto. }
  destruct (notDeleting (VSphereVM.ObjectMeta (VSphereVM vmCtx))) eqn:Hnd; simpl.
  - repeat case_match; simplify_eq/=;
      first [ split_and!; by auto using sameButLifecycle_refl
            | match goal with
              | |- context [reconcileNormal r ?c w] =>
                  destruct (Hnormal c eq_refl eq_refl) as (? & ? & ? & ->);
                  split_and!; auto
              end ].
  - repeat case_match; simplify_eq/=;
      match goal with
      | |- context [reconcileDelete r ?c w] =>
          destruct (Hdelete c eq_refl) as (? & -> & -> & [->| ->]);
          split_and!; auto
      end.
Qed.

(** The effect of [reconcileBody] on the resource that [Reconcile] hands
    it, stated against the stored resource. *)
Lemma Reconcile_effect r w req vm vm' :
  vms w !! req = Some vm →
  vms (Reconcile r w req).2 !! req = Some vm' →
  sameButLifecycle vm vm'
  ∧ (VSphereVMStatus.VMRef (VSphereVM.Status vm') = VSphereVMStatus.VMRef (VSphereVM.Status vm)
     ∨ VSphereVMStatus.VMRef (VSphereVM.Status vm) = "")
  ∧ (VSphereVMStatus.Ready (VSphereVM.Status vm') = VSphereVMStatus.Ready (VSphereVM.Status vm)
     ∨ VSphereVMStatus.Ready (VSphereVM.Status vm') = true)
  ∧ (Finalizers (VSphereVM.ObjectMeta vm') = Finalizers (VSphereVM.ObjectMeta vm)
     ∨ notDeleting (VSphereVM.ObjectMeta vm) = true
       ∧ Finalizers (VSphereVM.ObjectMeta vm')
         = Finalizers (VSphereVM.ObjectMeta vm) ++ [VMFinalizer]
     ∨ notDeleting (VSphereVM.ObjectMeta vm) = false
       ∧ Finalizers (VSphereVM.ObjectMeta vm')
         = filter (λ g, g ≠ VMFinalizer) (Finalizers (VSphereVM.ObjectMeta vm))).
Proof.
  intros Hvm Hafter.
  destruct (Reconcile_stored r w req vm vm' Hvm Hafter) as [->|(fd & s & input & cs & ->)].
  { split_and!; auto using sameButLifecycle_refl. }
  pose proof (reconcileBody_effect r
    (mkVMContext (markTrue VCenterAvailableCondition vm) fd s None) w input) as Hb.
  cbv zeta in Hb. simpl in Hb. simpl.
  destruct Hb as (Hs & Hr & Hy & Hf). split_and!; auto.
Qed.

(** X1.  What a reconcile has established it does not undo: whatever
    the collaborators answer, a VM reference that is already set in the
    stored resource is not changed, and a stored resource that is ready
    is still ready afterwards.  (The VM service is a parameter that
    answers with the observed VM; what its implementation may write to
    the resource is outside the statement.) *)
Theorem Reconcile_keeps_placement r w req vm vm' :
  vms w !! req = Some vm →
  vms (Reconcile r w req).2 !! req = Some vm' →
  (VSphereVMStatus.VMRef (VSphereVM.Status vm) ≠ "" →
   VSphereVMStatus.VMRef (VSphereVM.Status vm') = VSphereVMStatus.VMRef (VSphereVM.Status vm))
  ∧ (VSphereVMStatus.Ready (VSphereVM.Status vm) = true →
     VSphereVMStatus.Ready (VSphereVM.Status vm') = true).
Proof.
  intros Hvm Hafter.
  destruct (Reconcile_effect r w req vm vm' Hvm Hafter) as (_ & Href & Hready & _).
  split.
  - intros Hset. by destruct Href.
  - intros Hset. destruct Hready; congruence.
Qed.

(** X2.  The controller changes the stored resource at most in its
    lifecycle fields: through a reconcile the type meta, the object meta
    other than the finalizers, the spec other than the hardware id, and
    the failure reason, failure message and task reference of the status
    are those stored before.  (The VM service is a parameter that answers
    with the observed VM; what its implementation may write to the
    resource is outside the statement.) *)
Theorem Reconcile_frame r w req vm vm' :
  vms w !! req = Some vm →
  vms (Reconcile r w req).2 !! req = Some vm' →
  sameButLifecycle vm vm'.
Proof.
  intros Hvm Hafter. by destruct (Reconcile_effect r w req vm vm' Hvm Hafter).
Qed.

(** The deferred patch never removes from the store a resource that is
    not marked for deletion. *)
Lemma patchOnExit_live r out req vm :
  vms out.2 !! req = Some vm →
  notDeleting (VSphereVM.ObjectMeta (VSphereVM out.1.2)) = true →
  is_Some (vms (patchOnExit r out).2 !! req).
Proof.
  destruct out as [[[res reterr] vmCtx] w]. unfold patchOnExit. simpl.
  intros Hvm Hnd. case_match; simpl; [eauto|].
  unfold store. simpl. rewrite Hnd. simpl.
  rewrite lookup_insert. case_decide; eauto.
Qed.

(** X3.  A resource that is not marked for deletion stays in the store
    through any reconcile, stays unmarked, and keeps the controller's
    finalizer once it has it. *)
Theorem Reconcile_keeps_live_vm r w req vm :
  vms w !! req = Some vm →
  notDeleting (VSphereVM.ObjectMeta vm) = true →
  ∃ vm',
    vms (Reconcile r w req).2 !! req = Some vm'
    ∧ notDeleting (VSphereVM.ObjectMeta vm') = true
    ∧ (VMFinalizer ∈ Finalizers (VSphereVM.ObjectMeta vm) →
       VMFinalizer ∈ Finalizers (VSphereVM.ObjectMeta vm')).
Proof.
  intros Hvm Hnd.
  assert (Hsome : is_Some (vms (Reconcile r w req).2 !! req)).
  { destruct (Reconcile_shape r w req) as [Hw|(vm0 & fd & s & input & Hget & Hrec)].
    { rewrite Hw. eauto. }
    apply getVM_Ok in Hget. assert (vm0 = vm) as -> by congruence.
    rewrite Hrec. apply (patchOnExit_live r _ req vm).
    - by rewrite reconcileBody_vms.
    - pose proof (reconcileBody_effect r
        (mkVMContext (markTrue VCenterAvailableCondition vm) fd s None) w input) as Hb.
      cbv zeta in Hb. destruct Hb as ((_ & _ & _ & Hm & _) & _).
      apply (f_equal DeletionTimestamp) in Hm. simpl in Hm.
      unfold notDeleting in *. by rewrite Hm. }
  destruct Hsome as [vm' Hafter]. exists vm'. split; [done|].
  destruct (Reconcile_effect r w req vm vm' Hvm Hafter) as ((_ & _ & _ & Hm & _) & _ & _ & Hf).
  split.
  - apply (f_equal DeletionTimestamp) in Hm. simpl in Hm.
    unfold notDeleting in *. by rewrite Hm.
  - intros Hin. destruct Hf as [->|[[_ ->]|[Hd _]]]; [done|set_solver|congruence].
Qed.

End ReconcileInvariants.

(** ** The calls a reconcile lets out *)

Section CallTraces.
Import metav1 infrav1 capvcontext VMController Traces Invariants.

(** *** The calls each function issues *)

Lemma createOrPatchIPAddressClaim_trace r vmCtx w name poolRef :
  ∃ l, calls (createOrPatchIPAddressClaim r vmCtx w name poolRef).2 = calls w ++ l
       ∧ Forall (λ c, isClaimEnsure c = true) l.
Proof.
  unfold createOrPatchIPAddressClaim, CreateOrPatch.
  repeat case_match; simplify_eq/=;
    first [ by exists []; rewrite app_nil_r
          | eexists [_]; split; [reflexivity|by repeat constructor] ].
Qed.

Lemma claimLoop_trace r vmCtx pairs acc w :
  ∃ l, calls (claimLoop r vmCtx pairs acc w).2 = calls w ++ l
       ∧ Forall (λ c, isClaimEnsure c = true) l.
Proof.
  revert acc w. induction pairs as [|[[d p] ref] rest IH]; intros acc w.
  { exists []. by rewrite app_nil_r. }
  simpl. case_match; [exists []; by rewrite app_nil_r|].
  destruct (createOrPatchIPAddressClaim_trace r vmCtx w
    (util.IPAddressClaimName (Name (VSphereVM.ObjectMeta (VSphereVM vmCtx))) d p) ref)
    as (l1 & Hl1 & Hf1).
  destruct (createOrPatchIPAddressClaim r vmCtx w _ ref) as [[[c created]|e] w1];
    simpl in Hl1;
    match goal with
    | |- context [claimLoop r vmCtx rest ?a w1] =>
        destruct (IH a w1) as (l2 & Hl2 & Hf2)
    end;
    exists (l1 ++ l2); rewrite Hl2, Hl1, app_assoc; (split; [done|by apply Forall_app]).
Qed.

Lemma reconcileIPAddressClaims_trace r vmCtx w :
  ∃ l, calls (reconcileIPAddressClaims r vmCtx w).2 = calls w ++ l
       ∧ Forall (λ c, isClaimEnsure c = true) l.
Proof.
  unfold reconcileIPAddressClaims.
  destruct (claimLoop_trace r vmCtx (claimPairs (VSphereVM vmCtx)) emptyTally w)
    as (l & Hl & Hf).
  exists l. split; [|done]. by repeat case_match; simplify_eq/=.
Qed.

Lemma releaseLoop_trace r vm pairs w :
  ∃ l, calls (releaseLoop r vm pairs w).2 = calls w ++ l
       ∧ Forall (λ c, isClaimRelease c = true) l.
Proof.
  revert w. induction pairs as [|[[d p] ref] rest IH]; intros w.
  { exists []. by rewrite app_nil_r. }
  simpl. repeat case_match; simplify_eq/=;
    try (exists []; by rewrite app_nil_r); try apply IH.
  match goal with
  | |- context [releaseLoop r vm rest ?w1] => destruct (IH w1) as (l2 & Hl2 & Hf2)
  end.
  eexists (_ :: l2). rewrite Hl2. simpl. rewrite <- app_assoc. split; [reflexivity|].
  by constructor.
Qed.

(** The calls of the normal path: writes of claims, then at most one
    [ReconcileVM]. *)
Lemma reconcileNormal_trace r vmCtx w :
  ∃ l, calls (reconcileNormal r vmCtx w).2 = calls w ++ l
       ∧ (Forall (λ c, isClaimEnsure c = true) l
          ∨ ∃ l0, l = l0 ++ [CallReconcileVM] ∧ Forall (λ c, isClaimEnsure c = true) l0).
Proof.
  unfold reconcileNormal.
  destruct (reconcileIPAddressClaims_trace r vmCtx w) as (l & Hl & Hf).
  destruct (reconcileIPAddressClaims r vmCtx w) as [[e c1] w1]. simpl in Hl.
  repeat case_match; simplify_eq/=;
    first [ by exists []; rewrite app_nil_r; split; [|left]
          | by exists l; split; [|left]
          | exists (l ++ [CallReconcileVM]); rewrite Hl, app_assoc;
            split; [done|right; eauto] ].
Qed.

(** The calls of the delete path: one [DestroyVM], then at most one node
    deletion, then writes of claims. *)
Lemma reconcileDelete_trace r vmCtx w :
  ∃ l, calls (reconcileDelete r vmCtx w).2 = calls w ++ CallDestroyVM :: l
       ∧ Forall (λ c, isBackendCall c = false ∧ isClaimEnsure c = false) l.
Proof.
  unfold reconcileDelete, deleteNode, deleteIPAddressClaims.
  repeat case_match; simplify_eq/=;
    try (exists []; split; [done|constructor]).
  all: match goal with
       | H : releaseLoop ?r0 ?vm ?ps ?w0 = (_, ?w1) |- _ =>
           destruct (releaseLoop_trace r0 vm ps w0) as (l & Hl & Hf);
           rewrite H in Hl; simpl in Hl
       end.
  all: first
    [ exists l; rewrite Hl; simpl; rewrite <- !app_assoc; split; [reflexivity|]
    | eexists (_ :: l); rewrite Hl; simpl; rewrite <- !app_assoc; split; [reflexivity|];
      constructor; [done|] ].
  all: eapply Forall_impl; [exact Hf|]; intros [] ?; done.
Qed.

(** The world [Reconcile] ends with: the one it started from, or the one
    [reconcileBody] ended with, to which the deferred patch adds at most
    the patch of the VSphereVM. *)
Lemma Reconcile_world r w req :
  (Reconcile r w req).2 = w
  ∨ ∃ vm fd s input,
      getVM r w req = Ok vm
      ∧ let out := reconcileBody r
                     (mkVMContext (markTrue VCenterAvailableCondition vm) fd s None)
                     w input in
        claims (Reconcile r w req).2 = claims out.2
        ∧ (calls (Reconcile r w req).2 = calls out.2
           ∨ ∃ k, calls (Reconcile r w req).2 = calls out.2 ++ [CallPatchVM k]).
Proof.
  destruct (Reconcile_shape r w req) as [Hw|(vm & fd & s & input & Hget & Hrec)];
    [by left|right].
  exists vm, fd, s, input. split; [done|]. cbv zeta. rewrite Hrec.
  destruct (reconcileBody r _ w input) as [[[res reterr] c] w1].
  unfold patchOnExit. simpl. case_match; simpl; eauto.
Qed.

(** [reconcileBody] leaves the world as it is when the resource is not
    being deleted and lacks the finalizer, carries a terminal failure, or
    has a device that waits for a static address. *)
Lemma reconcileBody_quiet r vmCtx w input :
  notDeleting (VSphereVM.ObjectMeta (VSphereVM vmCtx)) = true →
  VMFinalizer ∉ Finalizers (VSphereVM.ObjectMeta (VSphereVM vmCtx))
  ∨ VSphereVMStatus.FailureReason (VSphereVM.Status (VSphereVM vmCtx)) ≠ None
  ∨ VSphereVMStatus.FailureMessage (VSphereVM.Status (VSphereVM vmCtx)) ≠ None
  ∨ isWaitingForStaticIPAllocation vmCtx = true →
  (reconcileBody r vmCtx w input).2 = w.
Proof.
  intros Hnd Hcase. unfold reconcileBody.
  case_match; [done|]. rewrite Hnd. simpl.
  destruct (ctrlutil.ContainsFinalizer _ _) eqn:Hcf; simpl; [|done].
  destruct Hcase as [Hnf|Hstop].
  { apply bool_decide_eq_true in Hcf. done. }
  unfold reconcile_. rewrite Hnd. simpl.
  assert (Hn : ∀ c, VSphereVM c = VSphereVM vmCtx → (reconcileNormal r c w).2 = w).
  { intros c Hc. unfold reconcileNormal, isWaitingForStaticIPAllocation in *.
    rewrite Hc. case_bool_decide as Hfail; [done|].
    destruct Hstop as [?|[?|Hwait]]; [by destruct Hfail; auto..|].
    by rewrite Hwait. }
  repeat case_match; simplify_eq/=; try done; by apply Hn.
Qed.

(** The calls of [reconcileBody]: those of the normal path for a resource
    that is not being deleted, those of the delete path for one that
    is. *)
Lemma reconcileBody_trace r vmCtx w input :
  ∃ l, calls (reconcileBody r vmCtx w input).2 = calls w ++ l
       ∧ (l = []
          ∨ notDeleting (VSphereVM.ObjectMeta (VSphereVM vmCtx)) = true
            ∧ (Forall (λ c, isClaimEnsure c = true) l
               ∨ ∃ l0, l = l0 ++ [CallReconcileVM]
                       ∧ Forall (λ c, isClaimEnsure c = true) l0)
          ∨ notDeleting (VSphereVM.ObjectMeta (VSphereVM vmCtx)) = false
            ∧ ∃ l1, l = CallDestroyVM :: l1
                    ∧ Forall (λ c, isBackendCall c = false ∧ isClaimEnsure c = false) l1).
Proof.
  unfold reconcileBody, reconcile_.
  destruct (notDeleting (VSphereVM.ObjectMeta (VSphereVM vmCtx))) eqn:Hnd; simpl.
  - repeat case_match; simplify_eq/=;
      try (exists []; rewrite app_nil_r; by auto).
    all: match goal with
         | |- context [reconcileNormal ?r0 ?c ?w0] =>
             destruct (reconcileNormal_trace r0 c w0) as (l & Hl & Hcases)
         end; exists l; split; [done|]; right; left; auto.
  - repeat case_match; simplify_eq/=;
      try (exists []; rewrite app_nil_r; by auto).
    all: match goal with
         | |- context [reconcileDelete ?r0 ?c ?w0] =>
             destruct (reconcileDelete_trace r0 c w0) as (l & Hl & Hf)
         end; eexists; split; [exact Hl|]; right; right; eauto.
Qed.

Lemma Reconcile_quiet r w req vm :
  vms w !! req = Some vm →
  notDeleting (VSphereVM.ObjectMeta vm) = true →
  VMFinalizer ∉ Finalizers (VSphereVM.ObjectMeta vm)
  ∨ VSphereVMStatus.FailureReason (VSphereVM.Status vm) ≠ None
  ∨ VSphereVMStatus.FailureMessage (VSphereVM.Status vm) ≠ None
  ∨ existsb (λ dev,
               negb (NetworkDeviceSpec.DHCP4 dev) && negb (NetworkDeviceSpec.DHCP6 dev)
               && Nat.eqb (length (NetworkDeviceSpec.IPAddrs dev)) 0
               && Nat.eqb (length (NetworkDeviceSpec.AddressesFromPools dev)) 0)
            (VSphereVMSpec.Devices (VSphereVM.Spec vm)) = true →
  claims (Reconcile r w req).2 = claims w
  ∧ (calls (Reconcile r w req).2 = calls w
     ∨ ∃ k, calls (Reconcile r w req).2 = calls w ++ [CallPatchVM k]).
Proof.
  intros Hvm Hnd Hcase.
  destruct (Reconcile_world r w req) as [->|(vm0 & fd & s & input & Hget & Hout)]; [auto|].
  apply getVM_Ok in Hget. assert (vm0 = vm) as -> by congruence.
  cbv zeta in Hout.
  rewrite (reconcileBody_quiet r _ w input) in Hout; [done|done|exact Hcase].
Qed.

(** X4.  When there is nothing to drive, nothing leaves the controller
    but the patch of the resource.  For a stored resource that is not
    marked for deletion and either lacks the finalizer, or carries a
    terminal failure, or has a device with neither DHCP nor a static
    address nor a pool, a reconcile, whatever the collaborators answer,
    calls neither the backend nor the remote cluster, writes no claim,
    and at most patches the VSphereVM. *)
Theorem Reconcile_idle_cases r w req vm :
  vms w !! req = Some vm →
  notDeleting (VSphereVM.ObjectMeta vm) = true →
  VMFinalizer ∉ Finalizers (VSphereVM.ObjectMeta vm)
  ∨ VSphereVMStatus.FailureReason (VSphereVM.Status vm) ≠ None
  ∨ VSphereVMStatus.FailureMessage (VSphereVM.Status vm) ≠ None
  ∨ (∃ dev, dev ∈ VSphereVMSpec.Devices (VSphereVM.Spec vm)
            ∧ NetworkDeviceSpec.DHCP4 dev = false
            ∧ NetworkDeviceSpec.DHCP6 dev = false
            ∧ NetworkDeviceSpec.IPAddrs dev = []
            ∧ NetworkDeviceSpec.AddressesFromPools dev = []) →
  claims (Reconcile r w req).2 = claims w
  ∧ (calls (Reconcile r w req).2 = calls w
     ∨ ∃ k, calls (Reconcile r w req).2 = calls w ++ [CallPatchVM k]).
Proof.
  intros Hvm Hnd Hcase. apply (Reconcile_quiet r w req vm); [done..|].
  destruct Hcase as [?|[?|[?|(dev & Hin & H4 & H6 & Hip & Hpool)]]]; auto.
  right. right. right. apply existsb_exists. exists dev.
  split; [by apply list_elem_of_In|]. by rewrite H4, H6, Hip, Hpool.
Qed.

(** X5.  The backend is called in step with the deletion mark.  The
    calls a reconcile adds to the trace contain at most one backend call;
    for a resource that is not marked for deletion they contain no
    [DestroyVM], no node deletion and no release of a claim; for a
    resource marked for deletion they contain no [ReconcileVM] and no
    create or patch of a claim. *)
Theorem Reconcile_backend_discipline r w req vm :
  vms w !! req = Some vm →
  ∃ l,
    calls (Reconcile r w req).2 = calls w ++ l
    ∧ (length (filter (λ c, isBackendCall c = true) l) ≤ 1)%nat
    ∧ (notDeleting (VSphereVM.ObjectMeta vm) = true →
       (CallDestroyVM ∉ l)
       ∧ (∀ name, CallDeleteNode name ∉ l)
       ∧ Forall (λ c, isClaimRelease c = false) l)
    ∧ (notDeleting (VSphereVM.ObjectMeta vm) = false →
       (CallReconcileVM ∉ l)
       ∧ Forall (λ c, isClaimEnsure c = false) l).
Proof.
  intros Hvm.
  assert (Hnb : ∀ l, Forall (λ c, isClaimEnsure c = true) l →
            filter (λ c, isBackendCall c = true) l = []
            ∧ (CallDestroyVM ∉ l) ∧ (CallReconcileVM ∉ l)
            ∧ (∀ name, CallDeleteNode name ∉ l)
            ∧ Forall (λ c, isClaimRelease c = false) l).
  { intros l Hl. induction Hl as [|c l Hc _ (IH1 & IH2 & IH3 & IH4 & IH5)].
    { split_and!; try done; [apply not_elem_of_nil..|]. intros n. apply not_elem_of_nil. }
    destruct c; try done; rewrite filter_cons; simpl;
      (split_and!; [done|by apply not_elem_of_cons..| |by constructor]);
      intros n; by apply not_elem_of_cons. }
  assert (Hnd : ∀ l, Forall (λ c, isBackendCall c = false ∧ isClaimEnsure c = false) l →
            filter (λ c, isBackendCall c = true) l = []
            ∧ (CallReconcileVM ∉ l)
            ∧ Forall (λ c, isClaimEnsure c = false) l).
  { intros l Hl. induction Hl as [|c l [Hc1 Hc2] _ (IH1 & IH2 & IH3)].
    { split_and!; try done. apply not_elem_of_nil. }
    rewrite filter_cons. rewrite decide_False by (by rewrite Hc1).
    split_and!; [done| |by constructor].
    apply not_elem_of_cons. split; [|done]. by intros <-. }
  destruct (Reconcile_world r w req) as [->|(vm0 & fd & s & input & Hget & Hout)].
  { exists []. rewrite app_nil_r. split_and!; try done; simpl; try lia.
    - intros _. split_and!; [apply not_elem_of_nil| |done].
      intros n. apply not_elem_of_nil.
    - intros _. split; [apply not_elem_of_nil|done]. }
  apply getVM_Ok in Hget. assert (vm0 = vm) as -> by congruence.
  cbv zeta in Hout. destruct Hout as [_ Hcalls].
  destruct (reconcileBody_trace r
    (mkVMContext (markTrue VCenterAvailableCondition vm) fd s None) w input)
    as (l & Hl & Hshape).
  simpl in Hshape.
  assert (Hbody :
    (length (filter (λ c, isBackendCall c = true) l) ≤ 1)%nat
    ∧ (notDeleting (VSphereVM.ObjectMeta vm) = true →
       (CallDestroyVM ∉ l) ∧ (∀ name, CallDeleteNode name ∉ l)
       ∧ Forall (λ c, isClaimRelease c = false) l)
    ∧ (notDeleting (VSphereVM.ObjectMeta vm) = false →
       (CallReconcileVM ∉ l) ∧ Forall (λ c, isClaimEnsure c = false) l)).
  { destruct Hshape as [->|[[Hlive Hn]|[Hdead (l1 & -> & Hf)]]].
    - simpl. split_and!; [lia| |].
      + intros _. split_and!; [apply not_elem_of_nil| |done].
        intros n. apply not_elem_of_nil.
      + intros _. split; [apply not_elem_of_nil|done].
    - split_and!; [| |intros ?; congruence].
      + destruct Hn as [Hn|(l0 & -> & Hn)].
        * destruct (Hnb l Hn) as (-> & _). simpl. lia.
        * destruct (Hnb l0 Hn) as (Hz & _).
          rewrite filter_app, Hz. simpl. lia.
      + intros _. destruct Hn as [Hn|(l0 & -> & Hn)].
        * destruct (Hnb l Hn) as (_ & ? & _ & ? & ?). done.
        * destruct (Hnb l0 Hn) as (_ & ? & _ & Hdn & ?). split_and!.
          -- rewrite elem_of_app, list_elem_of_singleton. by intros [?|?].
          -- intros n. rewrite elem_of_app, list_elem_of_singleton.
             intros [?|?]; [by eapply Hdn|done].
          -- apply Forall_app. split; [done|]. by repeat constructor.
    - destruct (Hnd l1 Hf) as (Hz & Hr & He).
      split_and!; [|intros ?; congruence|].
      + rewrite filter_cons. simpl. rewrite Hz. simpl. lia.
      + intros _. split.
        * apply not_elem_of_cons. done.
        * by constructor. }
  destruct Hbody as (Hone & Hlive & Hdead).
  destruct Hcalls as [Hc|[k Hc]].
  { exists l. rewrite Hc, Hl. done. }
  exists (l ++ [CallPatchVM k]). rewrite Hc, Hl, app_assoc. split_and!; [done| | |].
  - rewrite filter_app. simpl. rewrite app_nil_r. done.
  - intros Hd. destruct (Hlive Hd) as (? & Hdn & ?). split_and!.
    + rewrite elem_of_app, list_elem_of_singleton. by intros [?|?].
    + intros n. rewrite elem_of_app, list_elem_of_singleton.
      intros [?|?]; [by eapply Hdn|done].
    + apply Forall_app. split; [done|]. by repeat constructor.
  - intros Hd. destruct (Hdead Hd) as (? & ?). split.
    + rewrite elem_of_app, list_elem_of_singleton. by intros [?|?].
    + apply Forall_app. split; [done|]. by repeat constructor.
Qed.

End CallTraces.

(** ** The paths of the VM controller *)

Section Paths.
Import metav1 infrav1 capvcontext VMController Traces Invariants.

(** *** The delete path *)

(** When the client reports no failure on claims, the release loop ends
    without error. *)
Lemma releaseLoop_healthy r vm pairs w :
  (∀ k, getClaimError r k = None) →
  (∀ k, updateClaimError r k = None) →
  (releaseLoop r vm pairs w).1 = None.
Proof.
  intros Hget Hupd. revert w.
  induction pairs as [|[[d p] ref] rest IH]; intros w; [done|].
  simpl. unfold getClaim. rewrite Hget, Hupd.
  repeat case_match; simplify_eq/=; apply IH.
Qed.

(** X6.  The node deletion is best effort.  When [DestroyVM] reports the
    VM as not found without a requeue, the tracker is not locked and the
    client reports no failure on claims, the delete path removes the
    finalizer and returns success, whether or not the cluster lookup, the
    remote client or the deletion of the node failed. *)
Theorem reconcileDelete_node_deletion_best_effort r vmCtx w result observed :
  let deleting :=
    setVSphereVM
      (markFalse VMProvisionedCondition clusterv1.DeletingReason
         clusterv1.ConditionSeverityInfo "" (VSphereVM vmCtx)) vmCtx in
  DestroyVM r deleting = (result, observed, None) →
  reconcile.IsZero result = true →
  VirtualMachine.State observed = VirtualMachineStateNotFound →
  (∀ k e, trackerGetClient r k = Some e → isClusterLocked e = false) →
  (∀ k, getClaimError r k = None) →
  (∀ k, updateClaimError r k = None) →
  let out := reconcileDelete r vmCtx w in
  out.1.1 = (reconcile.zero, None)
  ∧ VMFinalizer ∉ Finalizers (VSphereVM.ObjectMeta (VSphereVM out.1.2)).
Proof.
  intros deleting Hd Hz Hs Hlock Hget Hupd. cbv zeta.
  unfold reconcileDelete. fold deleting. rewrite Hd, Hz, Hs. simpl.
  assert (Hnode : ∀ w0, reconcile.IsZero (deleteNode r deleting w0
                                           (VirtualMachine.Name observed)).1.1 = true).
  { intros w0. unfold deleteNode. repeat case_match; simplify_eq/=; try done.
    match goal with H : trackerGetClient _ _ = Some _ |- _ => apply Hlock in H end.
    congruence. }
  specialize (Hnode (record CallDestroyVM w)).
  destruct (deleteNode r deleting _ _) as [[res err] w1]. simpl in Hnode.
  rewrite Hnode. simpl. unfold deleteIPAddressClaims.
  pose proof (releaseLoop_healthy r (VSphereVM deleting) (claimPairs (VSphereVM deleting))
                w1 Hget Hupd) as Hrel.
  destruct (releaseLoop r _ _ w1) as [e w2]. simpl in Hrel. subst e. simpl.
  split; [done|]. apply RemoveFinalizer_absent.
Qed.

(** X7.  While the tracker of the workload cluster is locked the delete
    path waits: it returns a requeue without error, deletes no node,
    writes no claim and keeps the finalizer. *)
Theorem reconcileDelete_requeues_when_cluster_locked r vmCtx w result observed cluster e :
  let deleting :=
    setVSphereVM
      (markFalse VMProvisionedCondition clusterv1.DeletingReason
         clusterv1.ConditionSeverityInfo "" (VSphereVM vmCtx)) vmCtx in
  DestroyVM r deleting = (result, observed, None) →
  reconcile.IsZero result = true →
  VirtualMachine.State observed = VirtualMachineStateNotFound →
  GetClusterFromMetadata r (VSphereVM.ObjectMeta (VSphereVM vmCtx)) = Ok cluster →
  trackerGetClient r (key (clusterv1.ClusterMeta cluster)) = Some e →
  isClusterLocked e = true →
  let out := reconcileDelete r vmCtx w in
  out.1.1 = (reconcile.mkResult true 0, None)
  ∧ Finalizers (VSphereVM.ObjectMeta (VSphereVM out.1.2))
    = Finalizers (VSphereVM.ObjectMeta (VSphereVM vmCtx))
  ∧ claims out.2 = claims w
  ∧ calls out.2 = calls w ++ [CallDestroyVM].
Proof.
  intros deleting Hd Hz Hs Hc Ht Hl. cbv zeta.
  unfold reconcileDelete. fold deleting. rewrite Hd, Hz, Hs. simpl.
  unfold deleteNode. simpl. rewrite Hc, Ht, Hl. done.
Qed.

(** X8.  While the backend has not reported the VM as gone (it answers
    with a requeue, or with a state other than not found), the delete
    path does nothing but the [DestroyVM] call: no node deletion, no
    write of a claim, the finalizer untouched, and no error. *)
Theorem reconcileDelete_waits_for_backend r vmCtx w result observed :
  let deleting :=
    setVSphereVM
      (markFalse VMProvisionedCondition clusterv1.DeletingReason
         clusterv1.ConditionSeverityInfo "" (VSphereVM vmCtx)) vmCtx in
  DestroyVM r deleting = (result, observed, None) →
  reconcile.IsZero result = false
  ∨ VirtualMachine.State observed ≠ VirtualMachineStateNotFound →
  let out := reconcileDelete r vmCtx w in
  out.1.1.2 = None
  ∧ out.1.1.1 = (if reconcile.IsZero result then reconcile.zero else result)
  ∧ Finalizers (VSphereVM.ObjectMeta (VSphereVM out.1.2))
    = Finalizers (VSphereVM.ObjectMeta (VSphereVM vmCtx))
  ∧ claims out.2 = claims w
  ∧ calls out.2 = calls w ++ [CallDestroyVM].
Proof.
  intros deleting Hd Hcase. cbv zeta.
  unfold reconcileDelete. fold deleting. rewrite Hd.
  destruct (reconcile.IsZero result); simpl; [|done].
  destruct Hcase as [?|Hne]; [done|].
  by rewrite bool_decide_eq_true_2.
Qed.

(** *** The normal path *)

(** X9.  Once the backend reports a Ready VM with a hardware id and at
    least one address, the normal path stores the id in the spec, copies
    the network status, sets the address list to the addresses of the
    devices in order, marks the resource ready and the provisioned
    condition true, and returns success without a requeue. *)
Theorem reconcileNormal_ready r vmCtx w observed :
  VSphereVMStatus.FailureReason (VSphereVM.Status (VSphereVM vmCtx)) = None →
  VSphereVMStatus.FailureMessage (VSphereVM.Status (VSphereVM vmCtx)) = None →
  isWaitingForStaticIPAllocation vmCtx = false →
  (reconcileIPAddressClaims r vmCtx w).1.1 = None →
  ReconcileVM r (reconcileIPAddressClaims r vmCtx w).1.2 = Ok observed →
  VirtualMachine.State observed = VirtualMachineStateReady →
  VirtualMachine.BiosUUID observed ≠ "" →
  mjoin (IPAddrs <$> VirtualMachine.Network observed) ≠ [] →
  let out := reconcileNormal r vmCtx w in
  let vm' := VSphereVM out.1.2 in
  out.1.1 = (reconcile.zero, None)
  ∧ VSphereVMSpec.BiosUUID (VSphereVM.Spec vm') = VirtualMachine.BiosUUID observed
  ∧ VSphereVMStatus.Network (VSphereVM.Status vm') = VirtualMachine.Network observed
  ∧ VSphereVMStatus.Addresses (VSphereVM.Status vm')
    = mjoin (IPAddrs <$> VirtualMachine.Network observed)
  ∧ VSphereVMStatus.Ready (VSphereVM.Status vm') = true
  ∧ VSphereVM.GetConditions vm' !! VMProvisionedCondition
    = Some (conditions.TrueCondition VMProvisionedCondition).
Proof.
  intros Hr Hm Hwait Hclaims Hvm Hstate Hbios Haddr. cbv zeta.
  unfold reconcileNormal. rewrite Hr, Hm, Hwait.
  rewrite bool_decide_eq_false_2 by (intros [?|?]; congruence).
  destruct (reconcileIPAddressClaims r vmCtx w) as [[e c1] w1]. simpl in *.
  subst e. rewrite Hvm, Hstate.
  rewrite bool_decide_eq_false_2 by congruence.
  rewrite bool_decide_eq_true_2 by done.
  destruct (mjoin (IPAddrs <$> VirtualMachine.Network observed)) as [|a rest] eqn:Hj;
    [done|].
  destruct (bool_decide (VirtualMachine.VMRef observed ≠ "") && _);
    simpl; rewrite Hj; simpl; split_and!; try done; apply lookup_insert_eq.
Qed.

(** X10.  When the backend reports a Ready VM with a hardware id but no
    address yet, the normal path asks to be called again after ten
    seconds, marks the provisioned condition false with the reason
    waiting-for-IP-allocation, and does not mark the resource ready. *)
Theorem reconcileNormal_waits_for_addresses r vmCtx w observed :
  VSphereVMStatus.FailureReason (VSphereVM.Status (VSphereVM vmCtx)) = None →
  VSphereVMStatus.FailureMessage (VSphereVM.Status (VSphereVM vmCtx)) = None →
  isWaitingForStaticIPAllocation vmCtx = false →
  (reconcileIPAddressClaims r vmCtx w).1.1 = None →
  ReconcileVM r (reconcileIPAddressClaims r vmCtx w).1.2 = Ok observed →
  VirtualMachine.State observed = VirtualMachineStateReady →
  VirtualMachine.BiosUUID observed ≠ "" →
  mjoin (IPAddrs <$> VirtualMachine.Network observed) = [] →
  let out := reconcileNormal r vmCtx w in
  let vm' := VSphereVM out.1.2 in
  out.1.1 = (reconcile.mkResult false 10, None)
  ∧ VSphereVMStatus.Ready (VSphereVM.Status vm')
    = VSphereVMStatus.Ready (VSphereVM.Status (VSphereVM vmCtx))
  ∧ VSphereVMStatus.Addresses (VSphereVM.Status vm') = []
  ∧ VSphereVM.GetConditions vm' !! VMProvisionedCondition
    = Some (conditions.FalseCondition VMProvisionedCondition WaitingForIPAllocationReason
              clusterv1.ConditionSeverityInfo "").
Proof.
  intros Hr Hm Hwait Hclaims Hvm Hstate Hbios Haddr. cbv zeta.
  destruct (reconcileIPAddressClaims_frame r vmCtx w) as (cs & Hctx & Hcs).
  unfold reconcileNormal. rewrite Hr, Hm, Hwait.
  rewrite bool_decide_eq_false_2 by (intros [?|?]; congruence).
  destruct (reconcileIPAddressClaims r vmCtx w) as [[e c1] w1]. simpl in *.
  subst e c1. rewrite Hvm, Hstate.
  rewrite bool_decide_eq_false_2 by congruence.
  rewrite bool_decide_eq_true_2 by done.
  destruct (bool_decide (VirtualMachine.VMRef observed ≠ "") && _);
    simpl; rewrite Haddr; simpl; split_and!; try done; apply lookup_insert_eq.
Qed.

End Paths.

(** ** Writes of claims *)

Section ClaimWrites.
Import metav1 infrav1 capvcontext VMController Traces Invariants VMMappers.

Lemma referSameObject_refl ref : clusterutilv1.referSameObject ref ref = true.
Proof. unfold clusterutilv1.referSameObject. by rewrite bool_decide_eq_true_2. Qed.

Lemma indexOwnerRef_Some refs ref i :
  clusterutilv1.indexOwnerRef refs ref = Some i →
  (i < length refs)%nat ∧ clusterutilv1.indexOwnerRef (<[i := ref]> refs) ref = Some i.
Proof.
  revert i. induction refs as [|a refs IH]; intros i; simpl; [done|].
  destruct (clusterutilv1.referSameObject a ref) eqn:Hsame.
  - intros [= <-]. simpl. rewrite referSameObject_refl. split; [lia|done].
  - destruct (clusterutilv1.indexOwnerRef refs ref) as [j|] eqn:Hj; [|done].
    intros [= <-]. destruct (IH j eq_refl) as [Hlt Hidx]. simpl.
    rewrite Hsame, Hidx. split; [lia|done].
Qed.

Lemma indexOwnerRef_None refs ref :
  clusterutilv1.indexOwnerRef refs ref = None →
  clusterutilv1.indexOwnerRef (refs ++ [ref]) ref = Some (length refs).
Proof.
  induction refs as [|a refs IH]; simpl.
  - by rewrite referSameObject_refl.
  - destruct (clusterutilv1.referSameObject a ref); [done|].
    destruct (clusterutilv1.indexOwnerRef refs ref) eqn:Hj; [done|].
    intros _. by rewrite IH.
Qed.

(** Ensuring an owner reference twice is the same as ensuring it once. *)
Lemma EnsureOwnerRef_idemp refs ref :
  clusterutilv1.EnsureOwnerRef (clusterutilv1.EnsureOwnerRef refs ref) ref
  = clusterutilv1.EnsureOwnerRef refs ref.
Proof.
  unfold clusterutilv1.EnsureOwnerRef at 2 3.
  destruct (clusterutilv1.indexOwnerRef refs ref) as [i|] eqn:Hi.
  - destruct (indexOwnerRef_Some _ _ _ Hi) as [_ Hidx].
    unfold clusterutilv1.EnsureOwnerRef. rewrite Hidx. apply list_insert_insert_eq.
  - unfold clusterutilv1.EnsureOwnerRef. rewrite (indexOwnerRef_None _ _ Hi).
    replace (length refs) with (length refs + 0)%nat by lia.
    by rewrite insert_app_r.
Qed.

Lemma AddFinalizer_in m f : f ∈ Finalizers m → ctrlutil.AddFinalizer m f = m.
Proof.
  intros Hin. unfold ctrlutil.AddFinalizer, ctrlutil.ContainsFinalizer.
  by rewrite bool_decide_eq_true_2.
Qed.

Lemma AddFinalizer_out m f :
  f ∉ Finalizers m → ctrlutil.AddFinalizer m f = setFinalizers (Finalizers m ++ [f]) m.
Proof.
  intros Hout. unfold ctrlutil.AddFinalizer, ctrlutil.ContainsFinalizer.
  by rewrite bool_decide_eq_false_2.
Qed.

(** The mutation of the create-or-patch is idempotent. *)
Lemma mutateFn_idemp vm poolRef c :
  mutateFn vm poolRef (mutateFn vm poolRef c) = mutateFn vm poolRef c.
Proof.
  destruct c as [m p a cs]. unfold mutateFn. cbv zeta.
  set (ref := mkOwnerReference _ _ _ _ _).
  set (lbl := default "" _).
  cbn [ipamv1.ObjectMeta ipamv1.setObjectMeta ipamv1.setPoolRef
       ipamv1.PoolRef ipamv1.AddressRefName ipamv1.Conditions].
  destruct (decide (IPAddressClaimFinalizer ∈ Finalizers m)) as [Hin|Hout].
  - rewrite (AddFinalizer_in (setOwnerReferences _ m) _ Hin).
    rewrite (AddFinalizer_in
               (setOwnerReferences _ (setLabels _ (setOwnerReferences _ m))) _ Hin).
    destruct m.
    cbv [ipamv1.setObjectMeta ipamv1.setPoolRef ipamv1.ObjectMeta
         ipamv1.PoolRef ipamv1.AddressRefName ipamv1.Conditions
         setOwnerReferences setLabels setFinalizers Name Namespace UID Labels Annotations
         CreationTimestamp DeletionTimestamp Finalizers OwnerReferences].
    by rewrite EnsureOwnerRef_idemp, insert_insert_eq.
  - rewrite (AddFinalizer_out (setOwnerReferences _ m) _ Hout).
    assert (Hin : IPAddressClaimFinalizer ∈ Finalizers m ++ [IPAddressClaimFinalizer])
      by (apply elem_of_app; right; constructor).
    rewrite (AddFinalizer_in
               (setOwnerReferences _ (setLabels _ (setFinalizers _ (setOwnerReferences _ m))))
               _ Hin).
    destruct m.
    cbv [ipamv1.setObjectMeta ipamv1.setPoolRef ipamv1.ObjectMeta
         ipamv1.PoolRef ipamv1.AddressRefName ipamv1.Conditions
         setOwnerReferences setLabels setFinalizers Name Namespace UID Labels Annotations
         CreationTimestamp DeletionTimestamp Finalizers OwnerReferences].
    by rewrite EnsureOwnerRef_idemp, insert_insert_eq.
Qed.

Lemma mutateFn_key vm poolRef c :
  key (ipamv1.ObjectMeta (mutateFn vm poolRef c)) = key (ipamv1.ObjectMeta c).
Proof.
  destruct (mutateFn_frame vm poolRef c) as (_ & _ & Hn & Hns & _).
  unfold key. by rewrite Hn, Hns.
Qed.

(** A claim the mutation produced is never purged by the store: it
    carries the claim finalizer. *)
Lemma store_mutated vm poolRef c cs :
  store ipamv1.ObjectMeta (mutateFn vm poolRef c) cs
  = <[key (ipamv1.ObjectMeta c) := mutateFn vm poolRef c]> cs.
Proof.
  unfold store. rewrite mutateFn_key.
  destruct (mutateFn_frame vm poolRef c) as (_&_&_&_&_&_&_&_&_&_&Hfin&_).
  rewrite (bool_decide_eq_false_2 (Finalizers _ = [])).
  - by rewrite andb_false_r.
  - intros Hnil. rewrite Hnil in Hfin. by apply elem_of_nil in Hfin.
Qed.

(** What one create-or-patch does to the claim store. *)
Lemma createOrPatchIPAddressClaim_store r vmCtx w name poolRef :
  let k : ObjectKey := (Namespace (VSphereVM.ObjectMeta (VSphereVM vmCtx)), name) in
  let out := createOrPatchIPAddressClaim r vmCtx w name poolRef in
  wellKeyed (claims w) →
  wellKeyed (claims out.2)
  ∧ (∀ k', k' ≠ k → claims out.2 !! k' = claims w !! k')
  ∧ (∀ k', is_Some (claims w !! k') → is_Some (claims out.2 !! k'))
  ∧ (∀ x, out.1 = Ok x → is_Some (claims out.2 !! k)).
Proof.
  intros k out Hwk. subst out.
  unfold createOrPatchIPAddressClaim, CreateOrPatch.
  change (key (ipamv1.ObjectMeta (newClaim name _))) with k.
  destruct (getClaim r w k) as [before|e] eqn:Hget.
  - pose proof (getClaim_Ok _ _ _ _ Hget) as Hlook.
    pose proof (Hwk _ _ Hlook) as Hkey.
    case_bool_decide as Hsame.
    { simpl. split_and!; try done; intros _ _; by exists before. }
    destruct (patchClaimError r k); simpl; [split_and!; done|].
    rewrite store_mutated, Hkey. split_and!.
    + intros k' c'. destruct (decide (k' = k)) as [->|Hne].
      * rewrite lookup_insert_eq. intros [= <-]. by rewrite mutateFn_key.
      * rewrite lookup_insert_ne by done. apply Hwk.
    + intros k' Hne. by rewrite lookup_insert_ne.
    + intros k' Hsome. destruct (decide (k' = k)) as [->|Hne].
      * rewrite lookup_insert_eq. by eexists.
      * by rewrite lookup_insert_ne.
    + intros _ _. rewrite lookup_insert_eq. by eexists.
  - destruct (apierrors.IsNotFound e); [|simpl; split_and!; done].
    destruct (createClaimError r k); simpl; [split_and!; done|].
    rewrite store_mutated.
    change (key (ipamv1.ObjectMeta (newClaim name _))) with k. split_and!.
    + intros k' c'. destruct (decide (k' = k)) as [->|Hne].
      * rewrite lookup_insert_eq. intros [= <-]. by rewrite mutateFn_key.
      * rewrite lookup_insert_ne by done. apply Hwk.
    + intros k' Hne. by rewrite lookup_insert_ne.
    + intros k' Hsome. destruct (decide (k' = k)) as [->|Hne].
      * rewrite lookup_insert_eq. by eexists.
      * by rewrite lookup_insert_ne.
    + intros _ _. rewrite lookup_insert_eq. by eexists.
Qed.

(** X11.  On a missing claim the create-or-patch creates one named as
    asked in the namespace of the VSphereVM, owned by the VSphereVM alone,
    carrying the claim finalizer alone, the cluster-name label of the
    VSphereVM and the pool reference, with an empty status; it is stored
    under its key with one create call.  For a VSphereVM of the
    infrastructure group the claim watch maps the new claim back to that
    VSphereVM and to nothing else. *)
Theorem createOrPatchIPAddressClaim_creates r vmCtx w name poolRef :
  let vm := VSphereVM vmCtx in
  let k : ObjectKey := (Namespace (VSphereVM.ObjectMeta vm), name) in
  getClaimError r k = None →
  claims w !! k = None →
  createClaimError r k = None →
  ∃ claim,
    createOrPatchIPAddressClaim r vmCtx w name poolRef
    = (Ok (claim, true),
       mkWorld (vms w) (<[k := claim]> (claims w)) (calls w ++ [CallCreateClaim k]))
    ∧ key (ipamv1.ObjectMeta claim) = k
    ∧ OwnerReferences (ipamv1.ObjectMeta claim)
      = [mkOwnerReference (VSphereVM.Group vm) (VSphereVM.Version vm) (VSphereVM.Kind vm)
           (Name (VSphereVM.ObjectMeta vm)) (UID (VSphereVM.ObjectMeta vm))]
    ∧ Finalizers (ipamv1.ObjectMeta claim) = [IPAddressClaimFinalizer]
    ∧ Labels (ipamv1.ObjectMeta claim)
      = {[clusterv1.ClusterNameLabel :=
            default "" (Labels (VSphereVM.ObjectMeta vm) !! clusterv1.ClusterNameLabel)]}
    ∧ ipamv1.PoolRef claim = poolRef
    ∧ ipamv1.AddressRefName claim = ""
    ∧ ipamv1.Conditions claim = ∅
    ∧ (VSphereVM.Group vm = GroupVersionGroup → VSphereVM.Kind vm = "VSphereVM" →
       ipAddressClaimToVSphereVM claim = [key (VSphereVM.ObjectMeta vm)]).
Proof.
  intros vm k Hget Hmiss Hcreate.
  eexists. split.
  - unfold createOrPatchIPAddressClaim, CreateOrPatch, getClaim.
    change (key (ipamv1.ObjectMeta (newClaim name _))) with k.
    rewrite Hget, Hmiss. simpl. rewrite Hcreate. rewrite store_mutated.
    reflexivity.
  - fold vm. split_and!; try reflexivity.
    intros Hg Hk. unfold ipAddressClaimToVSphereVM, HasOwner. simpl.
    fold vm. rewrite Hg, Hk. reflexivity.
Qed.

(** X12.  The create-or-patch is idempotent: run again on the store its
    own success left, with the claim readable, it returns the same claim,
    reports no creation and writes nothing. *)
Theorem createOrPatchIPAddressClaim_idempotent r vmCtx w name poolRef claim created w' :
  wellKeyed (claims w) →
  getClaimError r (Namespace (VSphereVM.ObjectMeta (VSphereVM vmCtx)), name) = None →
  createOrPatchIPAddressClaim r vmCtx w name poolRef = (Ok (claim, created), w') →
  createOrPatchIPAddressClaim r vmCtx w' name poolRef = (Ok (claim, false), w').
Proof.
  intros Hwk Hget.
  set (k := (Namespace (VSphereVM.ObjectMeta (VSphereVM vmCtx)), name) : ObjectKey) in *.
  assert (Hagain : ∀ c w1, claims w1 !! k = Some (mutateFn (VSphereVM vmCtx) poolRef c) →
            createOrPatchIPAddressClaim r vmCtx w1 name poolRef
            = (Ok (mutateFn (VSphereVM vmCtx) poolRef c, false), w1)).
  { intros c w1 Hlook. unfold createOrPatchIPAddressClaim, CreateOrPatch, getClaim.
    change (key (ipamv1.ObjectMeta (newClaim name _))) with k.
    rewrite Hget, Hlook. rewrite mutateFn_idemp.
    by rewrite bool_decide_eq_true_2. }
  unfold createOrPatchIPAddressClaim at 1. unfold CreateOrPatch, getClaim.
  change (key (ipamv1.ObjectMeta (newClaim name _))) with k.
  rewrite Hget. destruct (claims w !! k) as [before|] eqn:Hlook.
  - pose proof (Hwk _ _ Hlook) as Hkey.
    case_bool_decide as Hsame.
    + intros [= <- <- <-]. apply Hagain. by rewrite Hsame.
    + destruct (patchClaimError r k); intros [= <- <- <-].
      apply Hagain. simpl. rewrite store_mutated, Hkey. apply lookup_insert_eq.
  - simpl. destruct (createClaimError r k); intros [= <- <- <-].
    apply Hagain. simpl. rewrite store_mutated. apply lookup_insert_eq.
Qed.

End ClaimWrites.

(** ** The claim store across the loops *)

Section ClaimStore.
Import metav1 infrav1 capvcontext VMController Traces Invariants Frames.

(** The claim loop keeps the store well keyed, writes under the keys of
    the pairs it visits only, and never removes a claim. *)
Lemma claimLoop_store r vmCtx pairs acc w :
  wellKeyed (claims w) →
  let out := claimLoop r vmCtx pairs acc w in
  wellKeyed (claims out.2)
  ∧ (∀ k, k ∉ (λ '(devIdx, poolRefIdx, _),
                 (Namespace (VSphereVM.ObjectMeta (VSphereVM vmCtx)),
                  util.IPAddressClaimName (Name (VSphereVM.ObjectMeta (VSphereVM vmCtx)))
                    devIdx poolRefIdx) : ObjectKey) <$> pairs →
          claims out.2 !! k = claims w !! k)
  ∧ (∀ k, is_Some (claims w !! k) → is_Some (claims out.2 !! k)).
Proof.
  revert acc w. induction pairs as [|[[d p] ref] rest IH]; intros acc w Hwk; [done|].
  cbv zeta. cbn [claimLoop]. cbv zeta.
  destruct (match getClaim r w _ with Ok _ => None | Err e => _ end); [done|].
  pose proof (createOrPatchIPAddressClaim_store r vmCtx w
                (util.IPAddressClaimName (Name (VSphereVM.ObjectMeta (VSphereVM vmCtx))) d p)
                ref Hwk) as (Hwk1 & Hframe1 & Hkeep1 & _).
  cbv zeta in Hwk1, Hframe1, Hkeep1.
  destruct (createOrPatchIPAddressClaim r vmCtx w _ ref) as [[[c created]|e] w1];
    cbn [fst snd] in *.
  all: match goal with
       | |- context [claimLoop _ _ _ ?a _] =>
           destruct (IH a w1 Hwk1) as (Hwk2 & Hframe2 & Hkeep2)
       end.
  all: split_and!; [done| |by auto].
  all: intros k Hk; rewrite fmap_cons in Hk; apply not_elem_of_cons in Hk as [Hne Hk];
       rewrite Hframe2 by done; by apply Hframe1.
Qed.

Lemma reconcileIPAddressClaims_store r vmCtx w :
  wellKeyed (claims w) →
  let out := reconcileIPAddressClaims r vmCtx w in
  wellKeyed (claims out.2)
  ∧ (∀ k, k ∉ claimKeys (VSphereVM vmCtx) → claims out.2 !! k = claims w !! k)
  ∧ (∀ k, is_Some (claims w !! k) → is_Some (claims out.2 !! k)).
Proof.
  intros Hwk. cbv zeta. unfold reconcileIPAddressClaims.
  pose proof (claimLoop_store r vmCtx (claimPairs (VSphereVM vmCtx)) emptyTally w Hwk)
    as Hloop. cbv zeta in Hloop.
  destruct (claimLoop r vmCtx _ emptyTally w) as [[[e|] t] w1]; [exact Hloop|].
  repeat case_match; exact Hloop.
Qed.

Lemma filter_filter_same {A} (P : A → Prop) `{∀ x, Decision (P x)} (l : list A) :
  filter P (filter P l) = filter P l.
Proof.
  induction l as [|x l IH]; [done|]. rewrite filter_cons.
  destruct (decide (P x)) as [HP|HP]; [|done].
  by rewrite filter_cons, decide_True, IH.
Qed.

(** The release loop writes under the keys of the pairs it visits only,
    creates no claim, and changes a claim by dropping the claim finalizer
    and nothing else. *)
Lemma releaseLoop_store r vm pairs w :
  wellKeyed (claims w) →
  let w' := (releaseLoop r vm pairs w).2 in
  (∀ k, k ∉ (λ '(devIdx, poolRefIdx, _),
                 (Namespace (VSphereVM.ObjectMeta vm),
                  util.IPAddressClaimName (Name (VSphereVM.ObjectMeta vm))
                    devIdx poolRefIdx) : ObjectKey) <$> pairs →
          claims w' !! k = claims w !! k)
  ∧ (∀ k c', claims w' !! k = Some c' →
       ∃ c, claims w !! k = Some c
            ∧ (c' = c
               ∨ c' = ipamv1.setObjectMeta
                        (setFinalizers
                           (filter (λ g, g ≠ IPAddressClaimFinalizer)
                              (Finalizers (ipamv1.ObjectMeta c)))
                           (ipamv1.ObjectMeta c)) c)).
Proof.
  revert w. induction pairs as [|[[d p] ref] rest IH]; intros w Hwk.
  { cbv zeta. simpl. split; [done|]. intros k c' Hc. eauto. }
  cbv zeta. rewrite releaseLoop_cons. cbv zeta.
  set (k0 := (Namespace (VSphereVM.ObjectMeta vm),
              util.IPAddressClaimName (Name (VSphereVM.ObjectMeta vm)) d p) : ObjectKey).
  assert (Hskip : let w' := (releaseLoop r vm rest w).2 in
            (∀ k, k ∉ (λ '(devIdx, poolRefIdx, _),
                 (Namespace (VSphereVM.ObjectMeta vm),
                  util.IPAddressClaimName (Name (VSphereVM.ObjectMeta vm))
                    devIdx poolRefIdx) : ObjectKey) <$> ((d, p, ref) :: rest) →
                  claims w' !! k = claims w !! k)
            ∧ (∀ k c', claims w' !! k = Some c' →
                 ∃ c, claims w !! k = Some c
                      ∧ (c' = c
                         ∨ c' = ipamv1.setObjectMeta
                                  (setFinalizers
                                     (filter (λ g, g ≠ IPAddressClaimFinalizer)
                                        (Finalizers (ipamv1.ObjectMeta c)))
                                     (ipamv1.ObjectMeta c)) c))).
  { destruct (IH w Hwk) as [Hf He]. split; [|exact He].
    intros k Hk. rewrite fmap_cons in Hk. apply not_elem_of_cons in Hk as [_ Hk].
    by apply Hf. }
  destruct (getClaim r w k0) as [c|e] eqn:Hget.
  2: { destruct (apierrors.IsNotFound e); [exact Hskip|]. simpl.
       split; [done|]. intros k c' Hc. eauto. }
  destruct (ctrlutil.RemoveFinalizer (ipamv1.ObjectMeta c) IPAddressClaimFinalizer)
    as [m flag] eqn:Hrm.
  destruct flag; [|exact Hskip].
  destruct (updateClaimError r k0).
  { simpl. split; [done|]. intros k c' Hc. eauto. }
  apply getClaim_Ok in Hget.
  pose proof (store_release_wellKeyed (claims w) k0 c Hwk Hget) as (Hwk1 & Hframe1 & _).
  cbv zeta in Hwk1, Hframe1. rewrite Hrm in Hwk1, Hframe1. cbn [fst] in Hwk1, Hframe1.
  set (w1 := record (CallUpdateClaim k0) _).
  destruct (IH w1 Hwk1) as [Hf He]. split.
  - intros k Hk. rewrite fmap_cons in Hk. apply not_elem_of_cons in Hk as [Hne Hk].
    rewrite Hf by done. subst w1. simpl. by apply Hframe1.
  - intros k c' Hc. destruct (He k c' Hc) as (c1 & Hc1 & Hrel). subst w1. simpl in Hc1.
    assert (Hm : m = setFinalizers
                       (filter (λ g, g ≠ IPAddressClaimFinalizer)
                          (Finalizers (ipamv1.ObjectMeta c))) (ipamv1.ObjectMeta c)).
    { unfold ctrlutil.RemoveFinalizer in Hrm. by injection Hrm as <- _. }
    destruct (decide (k = k0)) as [->|Hne].
    + exists c. split; [done|]. right.
      assert (c1 = ipamv1.setObjectMeta m c) as ->.
      { unfold store in Hc1. pose proof (Hwk _ _ Hget) as Hkey.
        assert (key (ipamv1.ObjectMeta (ipamv1.setObjectMeta m c)) = k0) as Hk'
          by (rewrite Hm; exact Hkey).
        rewrite Hk' in Hc1. case_match.
        - by rewrite lookup_delete_eq in Hc1.
        - rewrite lookup_insert_eq in Hc1. congruence. }
      destruct Hrel as [->| ->]; [by rewrite Hm|].
      rewrite Hm. destruct c as [mc ? ? ?]. simpl. unfold ipamv1.setObjectMeta. simpl.
      f_equal. unfold setFinalizers. simpl. f_equal. apply filter_filter_same.
    + rewrite Hframe1 in Hc1 by done. eauto.
Qed.

(** With the claims readable, a create-or-patch whose writes do not fail
    succeeds. *)
Lemma createOrPatchIPAddressClaim_succeeds r vmCtx w name poolRef :
  let k : ObjectKey := (Namespace (VSphereVM.ObjectMeta (VSphereVM vmCtx)), name) in
  getClaimError r k = None →
  createClaimError r k = None →
  patchClaimError r k = None →
  ∃ x, (createOrPatchIPAddressClaim r vmCtx w name poolRef).1 = Ok x.
Proof.
  intros k Hg Hc Hp. unfold createOrPatchIPAddressClaim, CreateOrPatch, getClaim.
  change (key (ipamv1.ObjectMeta (newClaim name _))) with k.
  rewrite Hg, Hc, Hp. destruct (claims w !! k); simpl; [case_bool_decide|]; eauto.
Qed.

(** With the claims readable, a create-or-patch on a missing claim whose
    creation fails returns that failure and writes nothing. *)
Lemma createOrPatchIPAddressClaim_fails r vmCtx w name poolRef e :
  let k : ObjectKey := (Namespace (VSphereVM.ObjectMeta (VSphereVM vmCtx)), name) in
  getClaimError r k = None →
  claims w !! k = None →
  createClaimError r k = Some e →
  createOrPatchIPAddressClaim r vmCtx w name poolRef = (Err e, w).
Proof.
  intros k Hg Hm Hc. unfold createOrPatchIPAddressClaim, CreateOrPatch, getClaim.
  change (key (ipamv1.ObjectMeta (newClaim name _))) with k.
  by rewrite Hg, Hm; simpl; rewrite Hc.
Qed.

Lemma claimLoop_collects r vmCtx pairs acc w k0 e0 :
  wellKeyed (claims w) →
  (∀ k, getClaimError r k = None) →
  let keys := (λ '(devIdx, poolRefIdx, _),
                 (Namespace (VSphereVM.ObjectMeta (VSphereVM vmCtx)),
                  util.IPAddressClaimName (Name (VSphereVM.ObjectMeta (VSphereVM vmCtx)))
                    devIdx poolRefIdx) : ObjectKey) <$> pairs in
  let out := claimLoop r vmCtx pairs acc w in
  out.1.1 = None
  ∧ (∃ l, errList out.1.2 = errList acc ++ l
          ∧ (k0 ∈ keys → claims w !! k0 = None → createClaimError r k0 = Some e0 →
             e0 ∈ l))
  ∧ (∀ k, k ∈ keys → createClaimError r k = None → patchClaimError r k = None →
          is_Some (claims out.2 !! k)).
Proof.
  intros Hwk Hget. revert acc w Hwk.
  induction pairs as [|[[d p] ref] rest IH]; intros acc w Hwk.
  { cbv zeta. simpl. split_and!; [done| |by intros k ?%elem_of_nil].
    exists []. rewrite app_nil_r. split; [done|]. by intros ?%elem_of_nil. }
  cbv zeta. rewrite fmap_cons. cbn [claimLoop]. cbv zeta.
  set (name := util.IPAddressClaimName (Name (VSphereVM.ObjectMeta (VSphereVM vmCtx))) d p).
  set (k1 := (Namespace (VSphereVM.ObjectMeta (VSphereVM vmCtx)), name) : ObjectKey).
  assert (Hfetch : match getClaim r w k1 with
                   | Ok _ => None
                   | Err e => if apierrors.IsNotFound e then None else Some e
                   end = None).
  { unfold getClaim. rewrite Hget. by destruct (claims w !! k1). }
  rewrite Hfetch.
  pose proof (createOrPatchIPAddressClaim_store r vmCtx w name ref Hwk)
    as (Hwk1 & Hframe1 & Hkeep1 & Hdone1).
  cbv zeta in Hwk1, Hframe1, Hkeep1, Hdone1. fold k1 in Hframe1, Hdone1.
  pose proof (createOrPatchIPAddressClaim_succeeds r vmCtx w name ref (Hget k1)) as Hsucc.
  pose proof (λ e, createOrPatchIPAddressClaim_fails r vmCtx w name ref e (Hget k1)) as Hfail.
  cbv zeta in Hsucc, Hfail. fold k1 in Hsucc, Hfail.
  destruct (createOrPatchIPAddressClaim r vmCtx w name ref) as [[[c created]|e] w1] eqn:Hcop;
    cbn [fst snd] in *.
  all: match goal with
       | |- context [claimLoop _ _ _ ?a _] =>
           pose proof (claimLoop_store r vmCtx rest a w1 Hwk1) as (_ & _ & Hkeep2);
           destruct (IH a w1 Hwk1) as (Hnone & (l & Hl & Hin) & Hall)
       end.
  all: cbv zeta in Hkeep2.
  all: split_and!; [exact Hnone| |].
  - exists l. split; [exact Hl|]. intros Hk0 Hmiss Hcreate.
    apply elem_of_cons in Hk0 as [->|Hk0].
    { specialize (Hfail e0 Hmiss Hcreate). congruence. }
    apply Hin; [done| |done]. destruct (decide (k0 = k1)) as [->|Hne].
    + specialize (Hfail e0 Hmiss Hcreate). congruence.
    + by rewrite Hframe1.
  - intros k Hk Hc Hp. destruct (decide (k ∈
      (λ '(devIdx, poolRefIdx, _),
         (Namespace (VSphereVM.ObjectMeta (VSphereVM vmCtx)),
          util.IPAddressClaimName (Name (VSphereVM.ObjectMeta (VSphereVM vmCtx)))
            devIdx poolRefIdx) : ObjectKey) <$> rest)) as [Hrest|Hrest]; [by apply Hall|].
    apply elem_of_cons in Hk as [->|Hk]; [|done].
    apply Hkeep2. eapply Hdone1. reflexivity.
  - exists (e :: l). split.
    { rewrite Hl. simpl. by rewrite <- app_assoc. }
    intros Hk0 Hmiss Hcreate. apply elem_of_cons in Hk0 as [->|Hk0].
    { specialize (Hfail e0 Hmiss Hcreate). injection Hfail as -> _. constructor. }
    destruct (decide (k0 = k1)) as [->|Hne].
    + specialize (Hfail e0 Hmiss Hcreate). injection Hfail as -> _. constructor.
    + apply elem_of_cons. right. apply Hin; [done| |done]. by rewrite Hframe1.
  - intros k Hk Hc Hp. destruct (decide (k ∈
      (λ '(devIdx, poolRefIdx, _),
         (Namespace (VSphereVM.ObjectMeta (VSphereVM vmCtx)),
          util.IPAddressClaimName (Name (VSphereVM.ObjectMeta (VSphereVM vmCtx)))
            devIdx poolRefIdx) : ObjectKey) <$> rest)) as [Hrest|Hrest]; [by apply Hall|].
    apply elem_of_cons in Hk as [->|Hk]; [|done].
    destruct (Hsucc Hc Hp) as [x Hx]. done.
Qed.

Lemma omap_id_Some {A} (l : list A) : omap id (Some <$> l) = l.
Proof. induction l as [|x l IH]; [done|]. rewrite fmap_cons. cbn. by f_equal. Qed.

(** X13.  A failed creation does not stop the claim loop.  With the
    claims readable, when the creation of one missing claim of the
    VSphereVM fails, [reconcileIPAddressClaims] returns the aggregate of
    the collected failures, which holds that failure, marks the
    address-claimed condition false with the reason claim-not-found and
    severity error, and has still ensured every claim of the VSphereVM
    whose writes do not fail. *)
Theorem reconcileIPAddressClaims_collects_errors r vmCtx w k0 e0 :
  wellKeyed (claims w) →
  (∀ k, getClaimError r k = None) →
  k0 ∈ claimKeys (VSphereVM vmCtx) →
  claims w !! k0 = None →
  createClaimError r k0 = Some e0 →
  let out := reconcileIPAddressClaims r vmCtx w in
  (∃ es, e0 ∈ es
         ∧ out.1.1 = Some (Aggregate es)
         ∧ VSphereVM.GetConditions (VSphereVM out.1.2) !! IPAddressClaimedCondition
           = Some (conditions.FalseCondition IPAddressClaimedCondition
                     IPAddressClaimNotFoundReason clusterv1.ConditionSeverityError
                     (errorText r (Aggregate es))))
  ∧ (∀ k, k ∈ claimKeys (VSphereVM vmCtx) →
          createClaimError r k = None → patchClaimError r k = None →
          is_Some (claims out.2 !! k)).
Proof.
  intros Hwk Hget Hk0 Hmiss Hcreate. cbv zeta. unfold reconcileIPAddressClaims.
  pose proof (claimLoop_collects r vmCtx (claimPairs (VSphereVM vmCtx)) emptyTally w k0 e0
                Hwk Hget) as (Hnone & (l & Hl & Hin) & Hall).
  cbv zeta in Hnone, Hin, Hall.
  destruct (claimLoop r vmCtx _ emptyTally w) as [[e t] w1]. simpl in Hnone, Hl, Hall.
  subst e. specialize (Hin Hk0 Hmiss Hcreate).
  unfold kerrors.NewAggregate. rewrite Hl. cbn [errList emptyTally app]. rewrite omap_id_Some.
  destruct l as [|e1 l]; [by apply elem_of_nil in Hin|].
  simpl. split; [|exact Hall].
  exists (e1 :: l). split_and!; [done..|]. apply markFalse_lookup.
Qed.

(** X14.  Releasing the claims of a VSphereVM writes under the claim keys
    of that VSphereVM only, creates no claim, and changes a claim by
    dropping the claim finalizer and nothing else; the stored VSphereVMs
    are untouched. *)
Theorem deleteIPAddressClaims_only_drops_finalizer r vmCtx w :
  wellKeyed (claims w) →
  let w' := (deleteIPAddressClaims r vmCtx w).2 in
  vms w' = vms w
  ∧ (∀ k, k ∉ claimKeys (VSphereVM vmCtx) → claims w' !! k = claims w !! k)
  ∧ (∀ k c', claims w' !! k = Some c' →
       ∃ c, claims w !! k = Some c
            ∧ (c' = c
               ∨ c' = ipamv1.setObjectMeta
                        (setFinalizers
                           (filter (λ g, g ≠ IPAddressClaimFinalizer)
                              (Finalizers (ipamv1.ObjectMeta c)))
                           (ipamv1.ObjectMeta c)) c)).
Proof.
  intros Hwk. cbv zeta. unfold deleteIPAddressClaims.
  destruct (releaseLoop_store r (VSphereVM vmCtx) (claimPairs (VSphereVM vmCtx)) w Hwk)
    as [Hf He].
  split_and!; [apply releaseLoop_vms|exact Hf|exact He].
Qed.

(** *** Isolation of a reconcile *)

Lemma deleteNode_claims r vmCtx w name : claims (deleteNode r vmCtx w name).2 = claims w.
Proof. unfold deleteNode. by repeat case_match. Qed.

Lemma reconcileNormal_claims r vmCtx w :
  claims (reconcileNormal r vmCtx w).2 = claims w
  ∨ claims (reconcileNormal r vmCtx w).2 = claims (reconcileIPAddressClaims r vmCtx w).2.
Proof.
  unfold reconcileNormal. repeat case_match; simplify_eq/=; auto.
Qed.

Lemma reconcileDelete_claims r vmCtx w :
  claims (reconcileDelete r vmCtx w).2 = claims w
  ∨ ∃ w1, claims w1 = claims w
          ∧ claims (reconcileDelete r vmCtx w).2
            = claims (releaseLoop r
                        (markFalse VMProvisionedCondition clusterv1.DeletingReason
                           clusterv1.ConditionSeverityInfo "" (VSphereVM vmCtx))
                        (claimPairs (VSphereVM vmCtx)) w1).2.
Proof.
  unfold reconcileDelete, deleteIPAddressClaims.
  destruct (DestroyVM r _) as [[result vm] [err|]]; [by left|].
  destruct (negb (reconcile.IsZero result)); [by left|].
  case_bool_decide; [by left|].
  pose proof (deleteNode_claims r
                (setVSphereVM
                   (markFalse VMProvisionedCondition clusterv1.DeletingReason
                      clusterv1.ConditionSeverityInfo "" (VSphereVM vmCtx)) vmCtx)
                (record CallDestroyVM w) (VirtualMachine.Name vm)) as Hn.
  destruct (deleteNode r _ _ _) as [[res e] w1]. simpl in Hn.
  destruct (negb (reconcile.IsZero res)); [by left|].
  right. exists w1. split; [done|].
  simpl. by destruct (releaseLoop r _ _ w1) as [[?|] ?].
Qed.

Lemma reconcileBody_claims r vmCtx w input :
  wellKeyed (claims w) →
  ∀ k, k ∉ claimKeys (VSphereVM vmCtx) →
       claims (reconcileBody r vmCtx w input).2 !! k = claims w !! k.
Proof.
  intros Hwk k Hk.
  assert (Hnormal : ∀ c, VSphereVM c = VSphereVM vmCtx →
            claims (reconcileNormal r c w).2 !! k = claims w !! k).
  { intros c Hc. destruct (reconcileNormal_claims r c w) as [->| ->]; [done|].
    apply reconcileIPAddressClaims_store; [done|]. by rewrite Hc. }
  assert (Hdelete : ∀ c, VSphereVM c = VSphereVM vmCtx →
            claims (reconcileDelete r c w).2 !! k = claims w !! k).
  { intros c Hc. destruct (reconcileDelete_claims r c w) as [->|(w1 & Hw1 & ->)]; [done|].
    rewrite <- Hw1. apply releaseLoop_store; [by rewrite Hw1|]. by rewrite Hc. }
  unfold reconcileBody, reconcile_.
  repeat case_match; simplify_eq/=; try done.
  all: first [apply Hnormal; done | apply Hdelete; done].
Qed.

Lemma patchOnExit_vms r out k :
  k ≠ key (VSphereVM.ObjectMeta (VSphereVM out.1.2)) →
  vms (patchOnExit r out).2 !! k = vms out.2 !! k.
Proof.
  destruct out as [[[res reterr] vmCtx] w]. unfold patchOnExit. simpl. intros Hne.
  case_match; simpl; [done|]. unfold store. simpl.
  case_match; [by rewrite lookup_delete_ne|by rewrite lookup_insert_ne].
Qed.

(** X15.  A reconcile is local to its VSphereVM: it leaves every other
    stored VSphereVM as it is, and touches no claim outside the claim
    keys of the VSphereVM. *)
Theorem Reconcile_touches_only_own_objects r w req vm :
  vms w !! req = Some vm →
  wellKeyed (claims w) →
  let w' := (Reconcile r w req).2 in
  (∀ k, k ≠ key (VSphereVM.ObjectMeta vm) → vms w' !! k = vms w !! k)
  ∧ (∀ k, k ∉ claimKeys vm → claims w' !! k = claims w !! k).
Proof.
  intros Hvm Hwk. cbv zeta.
  destruct (Reconcile_shape r w req) as [Hw|(vm0 & fd & s & input & Hget & Hrec)].
  { by rewrite Hw. }
  apply getVM_Ok in Hget. assert (vm0 = vm) as -> by congruence.
  set (c := mkVMContext (markTrue VCenterAvailableCondition vm) fd s None) in *.
  split.
  - intros k Hne. rewrite Hrec, patchOnExit_vms, reconcileBody_vms; [done|].
    destruct (reconcileBody_effect r c w input) as [(_ & _ & _ & Hmeta & _) _].
    unfold key. apply (f_equal Name) in Hmeta as Hn. apply (f_equal Namespace) in Hmeta as Hs.
    simpl in Hn, Hs. by rewrite Hn, Hs.
  - intros k Hk.
    destruct (Reconcile_world r w req) as [->|(vm1 & fd1 & s1 & input1 & Hget1 & Hc & _)];
      [done|].
    apply getVM_Ok in Hget1. assert (vm1 = vm) as -> by congruence.
    rewrite Hc. by apply reconcileBody_claims.
Qed.

End ClaimStore.

(** ** The tally of the claim loop *)

Section ClaimTally.
Import metav1 infrav1 capvcontext VMController Traces Invariants Frames.

(** One create-or-patch leaves what the client reads of the status of
    every claim as it was, and the claim it returns has the status the
    client read under its key before the call. *)
Lemma createOrPatchIPAddressClaim_status r vmCtx w name poolRef :
  let k : ObjectKey := (Namespace (VSphereVM.ObjectMeta (VSphereVM vmCtx)), name) in
  let out := createOrPatchIPAddressClaim r vmCtx w name poolRef in
  wellKeyed (claims w) →
  (∀ k', ClaimStatus.fulfilled r out.2 k' = ClaimStatus.fulfilled r w k'
         ∧ ClaimStatus.exposesReady r out.2 k' = ClaimStatus.exposesReady r w k')
  ∧ (∀ c created, out.1 = Ok (c, created) →
       bool_decide (ipamv1.AddressRefName c ≠ "") = ClaimStatus.fulfilled r w k
       ∧ conditions.Has (ipamv1.Conditions c) clusterv1.ReadyCondition
         = ClaimStatus.exposesReady r w k).
Proof.
  intros k out Hwk. subst out.
  assert (Hins : ∀ c0 (w0 : World) k',
    ipamv1.AddressRefName c0
    = match getClaim r w k with Ok c => ipamv1.AddressRefName c | Err _ => "" end →
    ipamv1.Conditions c0
    = match getClaim r w k with Ok c => ipamv1.Conditions c | Err _ => ∅ end →
    claims w0 = <[k := c0]> (claims w) →
    ClaimStatus.fulfilled r w0 k' = ClaimStatus.fulfilled r w k'
    ∧ ClaimStatus.exposesReady r w0 k' = ClaimStatus.exposesReady r w k').
  { intros c0 w0 k' Ha Hc Hst.
    unfold ClaimStatus.fulfilled, ClaimStatus.exposesReady, getClaim in *.
    rewrite Hst. destruct (decide (k' = k)) as [->|Hne].
    - rewrite lookup_insert_eq.
      destruct (getClaimError r k); [done|].
      destruct (claims w !! k) as [before|]; rewrite Ha, Hc; done.
    - by rewrite lookup_insert_ne. }
  unfold createOrPatchIPAddressClaim, CreateOrPatch.
  change (key (ipamv1.ObjectMeta (newClaim name _))) with k.
  destruct (getClaim r w k) as [before|e] eqn:Hget.
  - pose proof (getClaim_Ok _ _ _ _ Hget) as Hlook.
    pose proof (Hwk _ _ Hlook) as Hkey.
    destruct (mutateFn_frame (VSphereVM vmCtx) poolRef before) as (Ha & Hc & _).
    assert (Hret : bool_decide (ipamv1.AddressRefName
                                  (mutateFn (VSphereVM vmCtx) poolRef before) ≠ "")
                   = ClaimStatus.fulfilled r w k
                   ∧ conditions.Has (ipamv1.Conditions
                                       (mutateFn (VSphereVM vmCtx) poolRef before))
                       clusterv1.ReadyCondition
                     = ClaimStatus.exposesReady r w k).
    { unfold ClaimStatus.fulfilled, ClaimStatus.exposesReady.
      by rewrite Hget, Ha, Hc. }
    destruct (bool_decide (mutateFn (VSphereVM vmCtx) poolRef before = before)).
    { simpl. split; [by intros k'; split|]. by intros c created [= <- <-]. }
    destruct (patchClaimError r k); simpl; [by split; [intros k'; split|intros c created [=]]|].
    split; [|by intros c created [= <- <-]].
    intros k'. apply (Hins (mutateFn (VSphereVM vmCtx) poolRef before)); try done.
    simpl. by rewrite store_mutated, Hkey.
  - destruct (apierrors.IsNotFound e); [|by split; [intros k'; split|intros c created [=]]].
    destruct (createClaimError r k); simpl; [by split; [intros k'; split|intros c created [=]]|].
    split.
    + intros k'.
      apply (Hins (mutateFn (VSphereVM vmCtx) poolRef
                     (newClaim name (Namespace (VSphereVM.ObjectMeta (VSphereVM vmCtx))))));
        try done; simpl; by rewrite store_mutated.
    + intros c created [= <- <-].
      unfold ClaimStatus.fulfilled, ClaimStatus.exposesReady. by rewrite Hget.
Qed.

(** The loop only adds to the list of collected errors. *)
Lemma claimLoop_errList r vmCtx pairs acc w :
  (length (errList acc) ≤ length (errList (claimLoop r vmCtx pairs acc w).1.2))%nat.
Proof.
  revert acc w. induction pairs as [|[[d p] ref] rest IH]; intros acc w; [done|].
  cbn [claimLoop]. cbv zeta.
  destruct (match getClaim r w _ with Ok _ => None | Err e => _ end); [done|].
  destruct (createOrPatchIPAddressClaim r vmCtx w _ ref) as [[[c created]|e] w1].
  - etrans; [|apply IH]. done.
  - etrans; [|apply IH]. simpl. rewrite length_app. lia.
Qed.

(** A run of the loop that ends without error and collects none counts
    as fulfilled the visited keys under which the client read a resolved
    claim before the run, and gathers one condition set per visited key
    under which the client read a claim with a Ready condition; what the
    client reads of the status of any claim is the same after the run. *)
Lemma claimLoop_tally r vmCtx pairs acc w t w' :
  wellKeyed (claims w) →
  claimLoop r vmCtx pairs acc w = (None, t, w') →
  length (errList t) = length (errList acc) →
  let keys :=
    (λ '(devIdx, poolRefIdx, _),
       (Namespace (VSphereVM.ObjectMeta (VSphereVM vmCtx)),
        util.IPAddressClaimName (Name (VSphereVM.ObjectMeta (VSphereVM vmCtx)))
          devIdx poolRefIdx) : ObjectKey) <$> pairs in
  claimsFulfilled t
  = claimsFulfilled acc + length (filter (λ k, ClaimStatus.fulfilled r w k = true) keys)
  ∧ length (claimConditions t)
    = length (claimConditions acc)
      + length (filter (λ k, ClaimStatus.exposesReady r w k = true) keys)
  ∧ (∀ k, ClaimStatus.fulfilled r w' k = ClaimStatus.fulfilled r w k
          ∧ ClaimStatus.exposesReady r w' k = ClaimStatus.exposesReady r w k).
Proof.
  revert acc w. induction pairs as [|[[d p] ref] rest IH]; intros acc w Hwk Hrun Herr.
  { simpl in Hrun. simplify_eq. simpl. split_and!; [lia|lia|done]. }
  cbn [claimLoop] in Hrun. cbv zeta in Hrun.
  destruct (match getClaim r w _ with Ok _ => None | Err e => _ end); [done|].
  pose proof (createOrPatchIPAddressClaim_status r vmCtx w
                (util.IPAddressClaimName (Name (VSphereVM.ObjectMeta (VSphereVM vmCtx))) d p)
                ref) as Hstatus.
  pose proof (createOrPatchIPAddressClaim_store r vmCtx w
                (util.IPAddressClaimName (Name (VSphereVM.ObjectMeta (VSphereVM vmCtx))) d p)
                ref) as Hstore.
  cbv zeta in Hstatus, Hstore.
  destruct (Hstatus Hwk) as [Hsame Hret]. destruct (Hstore Hwk) as [Hwk1 _].
  clear Hstatus Hstore.
  destruct (createOrPatchIPAddressClaim r vmCtx w _ ref) as [[[c created]|e] w1].
  - destruct (Hret c created eq_refl) as [Hf Hr]. simpl in Hsame, Hwk1.
    apply IH in Hrun as (HF & HR & Hinv); [|done|done].
    simpl in HF, HR. cbv zeta. rewrite fmap_cons, !filter_cons.
    rewrite (list_filter_iff _ (λ k, ClaimStatus.fulfilled r w k = true)) in HF
      by (intros k; by rewrite (proj1 (Hsame k))).
    rewrite (list_filter_iff _ (λ k, ClaimStatus.exposesReady r w k = true)) in HR
      by (intros k; by rewrite (proj2 (Hsame k))).
    rewrite HF, HR. rewrite <- Hf, <- Hr.
    split_and!.
    + case_bool_decide; destruct (decide _) as [Hd|Hd]; simpl; try lia; try done; by destruct Hd.
    + destruct (conditions.Has _ _); destruct (decide _) as [Hd|Hd]; simpl;
        rewrite ?length_app; simpl; try lia; try done; by destruct Hd.
    + intros k. destruct (Hinv k) as [-> ->]. apply Hsame.
  - exfalso.
    match type of Hrun with
    | claimLoop _ _ _ ?a _ = _ => pose proof (claimLoop_errList r vmCtx rest a w1) as Hle
    end.
    rewrite Hrun in Hle. simpl in Hle. rewrite length_app in Hle. simpl in Hle. lia.
Qed.

(** *** C4 *)

(** C4.  A reconcile of the address claims of a VSphereVM over a store
    whose claims sit under their own keys, with N device/pool pairs, F of
    them with a claim the client reads as resolved, and C claims created
    in the cycle.  When the reconcile returns no error and not every pair
    has a claim exposing a Ready condition, F is at most N and is the same
    after the cycle, and the address-claimed condition is true when F = N;
    it is false with the claims-being-created reason and the message
    "C/N claims being created" when F < N and C > 0; it is false with the
    waiting reason and the message "(N-F)/N claims being processed" when
    F < N and C = 0. *)
Theorem reconcileIPAddressClaims_fallback r vmCtx w :
  let keys := claimKeys (VSphereVM vmCtx) in
  let N := length (claimPairs (VSphereVM vmCtx)) in
  let F := length (filter (λ k, ClaimStatus.fulfilled r w k = true) keys) in
  let R := length (filter (λ k, ClaimStatus.exposesReady r w k = true) keys) in
  let out := reconcileIPAddressClaims r vmCtx w in
  let C := createdCalls (calls out.2) - createdCalls (calls w) in
  let claimed :=
    VSphereVM.GetConditions (VSphereVM out.1.2) !! IPAddressClaimedCondition in
  wellKeyed (claims w) →
  out.1.1 = None →
  R ≠ N →
  (F ≤ N)%nat
  ∧ F = length (filter (λ k, ClaimStatus.fulfilled r out.2 k = true) keys)
  ∧ (F = N → claimed = Some (conditions.TrueCondition IPAddressClaimedCondition))
  ∧ (F < N → 0 < C →
     claimed = Some (conditions.FalseCondition IPAddressClaimedCondition
                       IPAddressClaimsBeingCreatedReason clusterv1.ConditionSeverityInfo
                       (pretty C +:+ "/" +:+ pretty N +:+ " claims being created")))
  ∧ (F < N → C = 0 →
     claimed = Some (conditions.FalseCondition IPAddressClaimedCondition
                       WaitingForIPAddressReason clusterv1.ConditionSeverityInfo
                       (pretty (N - F) +:+ "/" +:+ pretty N
                          +:+ " claims being processed"))).
Proof.
  intros keys N F R out C claimed Hwk Hnoerr Hready.
  subst claimed C out. unfold reconcileIPAddressClaims in *.
  destruct (claimLoop r vmCtx (claimPairs (VSphereVM vmCtx)) emptyTally w)
    as [[[e|] t] w'] eqn:Hloop; [done|].
  assert (Herr : errList t = []).
  { destruct (kerrors.NewAggregate (Some <$> errList t)) eqn:Hagg; [done|].
    unfold kerrors.NewAggregate in Hagg. rewrite omap_id_Some in Hagg.
    by destruct (errList t). }
  rewrite Herr in *.
  change (kerrors.NewAggregate (Some <$> [])) with (@None error) in *. cbv iota beta.
  destruct (claimLoop_counts _ _ _ _ _ _ _ Hloop) as (HN & _ & HC).
  destruct (claimLoop_tally _ _ _ _ _ _ _ Hwk Hloop) as (HF & HR & Hinv);
    [by rewrite Herr|].
  simpl in HN, HC, HF, HR.
  change (claimsFulfilled t = F) in HF. change (length (claimConditions t) = R) in HR.
  change (totalClaims t = N) in HN.
  assert (HFN : (F ≤ N)%nat).
  { unfold F, N, keys, claimKeys. etrans; [apply length_filter|].
    by rewrite length_fmap. }
  rewrite bool_decide_eq_false_2 by (rewrite HR, HN; exact Hready).
  cbn [fst snd VSphereVM setVSphereVM].
  replace (createdCalls (calls w') - createdCalls (calls w)) with (claimsCreated t)
    by lia.
  split; [done|]. split.
  { unfold F. apply f_equal, list_filter_iff. intros k.
    by rewrite (proj1 (Hinv k)). }
  unfold fallbackCondition. rewrite HN, HF.
  split; [|split].
  - intros Heq. rewrite bool_decide_eq_true_2 by done.
    exact (markTrue_lookup _ _).
  - intros Hlt Hc. rewrite bool_decide_eq_false_2 by lia.
    rewrite bool_decide_eq_true_2 by done.
    exact (markFalse_lookup _ _ _ _ _).
  - intros Hlt Hc. rewrite bool_decide_eq_false_2 by lia.
    rewrite bool_decide_eq_false_2 by lia.
    rewrite bool_decide_eq_true_2 by done.
    exact (markFalse_lookup _ _ _ _ _).
Qed.

End ClaimTally.

(** ** Mappers, the cluster-module gate and the session *)

Section Mappers.
Import metav1 infrav1 capvcontext VMController VMMappers.

(** The keys of the stored VSphereVMs that carry a given cluster name. *)
Lemma labelled_keys (w : World) (clusterName : string) (k : ObjectKey) :
  (∀ k vm, vms w !! k = Some vm → key (VSphereVM.ObjectMeta vm) = k) →
  let l := (λ vm, (Namespace (VSphereVM.ObjectMeta vm), Name (VSphereVM.ObjectMeta vm))
                  : ObjectKey)
             <$> filter (λ vm, Labels (VSphereVM.ObjectMeta vm) !! clusterv1.ClusterNameLabel
                               = Some clusterName)
                   (map_to_list (vms w)).*2 in
  (k ∈ l ↔ ∃ vm, vms w !! k = Some vm
               ∧ Labels (VSphereVM.ObjectMeta vm) !! clusterv1.ClusterNameLabel
                 = Some clusterName)
  ∧ NoDup l.
Proof.
  intros Hwk l. subst l. split.
  - rewrite list_elem_of_fmap. split.
    + intros (vm & -> & [Hl Hin]%list_elem_of_filter).
      apply list_elem_of_fmap in Hin as ([k' vm'] & -> & Hin).
      apply elem_of_map_to_list in Hin. simpl. exists vm'. split; [|done].
      pose proof (Hwk _ _ Hin) as Hk. unfold key in Hk. by rewrite Hk.
    + intros (vm & Hvm & Hl). exists vm. split.
      * pose proof (Hwk _ _ Hvm) as Hk. unfold key in Hk. by rewrite Hk.
      * apply list_elem_of_filter. split; [done|].
        apply list_elem_of_fmap. exists (k, vm). split; [done|].
        by apply elem_of_map_to_list.
  - apply NoDup_fmap_2_strong.
    + intros vm1 vm2 [_ H1]%list_elem_of_filter [_ H2]%list_elem_of_filter Heq.
      apply list_elem_of_fmap in H1 as ([k1 v1] & -> & H1).
      apply list_elem_of_fmap in H2 as ([k2 v2] & -> & H2).
      apply elem_of_map_to_list in H1, H2. simpl in *.
      pose proof (Hwk _ _ H1) as Hk1. pose proof (Hwk _ _ H2) as Hk2.
      unfold key in Hk1, Hk2. rewrite Heq, Hk2 in Hk1. subst k2. congruence.
    + apply NoDup_filter. apply NoDup_fmap_2_strong; [|apply NoDup_map_to_list].
      intros [k1 v1] [k2 v2] H1%elem_of_map_to_list H2%elem_of_map_to_list Heq.
      simpl in Heq. subst v2.
      pose proof (Hwk _ _ H1). pose proof (Hwk _ _ H2). congruence.
Qed.

(** X16.  Over a store in which every VSphereVM sits under its own
    namespace and name, the Cluster mapper yields exactly the keys of the
    stored VSphereVMs whose cluster-name label is the name of the
    object, each once; it yields nothing when the list call fails. *)
Theorem clusterToVSphereVMs_labelled r w a :
  (∀ k vm, vms w !! k = Some vm → key (VSphereVM.ObjectMeta vm) = k) →
  (∀ k, k ∈ clusterToVSphereVMs r w a
        ↔ listVMsError r = None
          ∧ ∃ vm, vms w !! k = Some vm
                  ∧ Labels (VSphereVM.ObjectMeta vm) !! clusterv1.ClusterNameLabel
                    = Some (Name a))
  ∧ NoDup (clusterToVSphereVMs r w a).
Proof.
  intros Hwk. unfold clusterToVSphereVMs. destruct (listVMsError r).
  - split; [|constructor]. intros k. split; [by intros ?%elem_of_nil|by intros [? _]].
  - split.
    + intros k. destruct (labelled_keys w (Name a) k Hwk) as [Hiff _].
      cbv zeta in Hiff. rewrite Hiff. split; [by intros ?; split|by intros [_ ?]].
    + by destruct (labelled_keys w (Name a) ("", "") Hwk) as [_ Hnd].
Qed.

(** X17.  The VSphereCluster watch enqueues only on an update that
    changes the cluster modules: every key it yields comes from such an
    update, through the mapper applied to the old or the new object. *)
Theorem vsphereClusterWatch_only_on_module_change Compare r w e k :
  k ∈ vsphereClusterWatch Compare r w e →
  ∃ oldCluster newCluster,
    e = event.UpdateEvent oldCluster newCluster
    ∧ Compare (ClusterModules oldCluster) (ClusterModules newCluster) = false
    ∧ annotations.HasPaused (VSphereClusterMeta newCluster) = false
    ∧ (k ∈ vsphereClusterToVSphereVMs r w oldCluster
       ∨ k ∈ vsphereClusterToVSphereVMs r w newCluster).
Proof.
  unfold vsphereClusterWatch.
  destruct (predicates.ResourceNotPausedAndHasFilterLabel _ _ e) eqn:Hf;
    [|by intros ?%elem_of_nil].
  destruct e as [o|o n|o|o]; simpl; try by intros ?%elem_of_nil.
  destruct (Compare _ _) eqn:Hc; simpl; [by intros ?%elem_of_nil|].
  intros Hk%elem_of_remove_dups%elem_of_app. exists o, n. split_and!; try done.
  unfold predicates.ResourceNotPausedAndHasFilterLabel, predicates.ResourceNotPaused in Hf.
  apply andb_true_iff in Hf as [Hf _]. by apply negb_true_iff in Hf.
Qed.

(** X18.  The claim mapper yields at most one request, in the namespace
    of the claim and named after the first owner reference of kind
    VSphereVM, whatever its group; it yields one exactly when some owner
    reference has the infrastructure group and the kind VSphereVM. *)
Theorem ipAddressClaimToVSphereVM_requests ipAddressClaim :
  let refs := OwnerReferences (ipamv1.ObjectMeta ipAddressClaim) in
  let requests := ipAddressClaimToVSphereVM ipAddressClaim in
  (length requests ≤ 1)%nat
  ∧ (∀ k, k ∈ requests →
          k.1 = Namespace (ipamv1.ObjectMeta ipAddressClaim)
          ∧ ∃ i ref, refs !! i = Some ref ∧ Kind ref = "VSphereVM" ∧ RefName ref = k.2
                     ∧ ∀ j other, refs !! j = Some other → (j < i)%nat →
                                  Kind other ≠ "VSphereVM")
  ∧ (requests ≠ [] ↔ ∃ ref, ref ∈ refs ∧ Group ref = GroupVersionGroup
                             ∧ Kind ref = "VSphereVM").
Proof.
  cbv zeta. unfold ipAddressClaimToVSphereVM.
  set (refs := OwnerReferences (ipamv1.ObjectMeta ipAddressClaim)).
  assert (Howner : HasOwner refs GroupVersionGroup ["VSphereVM"] = true
                   ↔ ∃ ref, ref ∈ refs ∧ Group ref = GroupVersionGroup
                            ∧ Kind ref = "VSphereVM").
  { unfold HasOwner. rewrite existsb_exists. split.
    - intros (ref & Hin%list_elem_of_In & [Hg Hk]%andb_true_iff).
      apply bool_decide_eq_true_1 in Hg, Hk. apply list_elem_of_singleton in Hk. eauto.
    - intros (ref & Hin & Hg & Hk). exists ref. split; [by apply list_elem_of_In|].
      rewrite !bool_decide_eq_true_2; [done| |done].
      by apply list_elem_of_singleton. }
  destruct (HasOwner refs GroupVersionGroup ["VSphereVM"]) eqn:Hhas.
  - destruct (list_find (λ ref, Kind ref = "VSphereVM") refs) as [[i ref]|] eqn:Hfind.
    + apply list_find_Some in Hfind as (Hi & Hkind & Hfirst). simpl.
      split_and!; [lia| |].
      * intros k ->%list_elem_of_singleton. simpl. split; [done|].
        exists i, ref. split_and!; try done.
      * split; [intros _; by apply Howner|done].
    + exfalso. apply list_find_None in Hfind.
      destruct (proj1 Howner eq_refl) as (ref & Hin & _ & Hk).
      rewrite Forall_forall in Hfind. by apply (Hfind ref).
  - simpl. split_and!; [lia|by intros k ?%elem_of_nil|].
    split; [done|]. intros Hex%Howner. done.
Qed.

(** *** The cluster-module gate of [reconcile] *)

(** X19.  The lookup of the cluster module never reports a not-found
    error, and a module id it returns is that of the first cluster
    module of the VSphereCluster whose target is the owner found for the
    machine. *)
Theorem fetchClusterModuleInfo_result r clusterModInput :
  let machine := InputMachine clusterModInput in
  let owner :=
    if IsControlPlaneMachine r machine then FetchControlPlaneOwnerObject r machine
    else FetchMachineDeploymentOwnerObject r machine in
  let mods := ClusterModules (InputVSphereCluster clusterModInput) in
  (∀ e, fetchClusterModuleInfo r clusterModInput = Err e → apierrors.IsNotFound e = false)
  ∧ (∀ u, fetchClusterModuleInfo r clusterModInput = Ok (Some u) →
          ∃ i mod_ ownerName,
            owner = Ok ownerName
            ∧ mods !! i = Some mod_
            ∧ TargetObjectName mod_ = ownerName
            ∧ ModuleUUID mod_ = u
            ∧ ∀ j other, mods !! j = Some other → (j < i)%nat →
                         TargetObjectName other ≠ ownerName).
Proof.
  cbv zeta. unfold fetchClusterModuleInfo.
  destruct (if IsControlPlaneMachine r _ then _ else _) as [ownerName|e0].
  - destruct (list_find _ _) as [[i mod_]|] eqn:Hfind; split; try done.
    intros u [= <-]. apply list_find_Some in Hfind as (Hi & Ht & Hfirst).
    exists i, mod_, ownerName. split_and!; try done;
      intros j other Hj Hlt; by eapply Hfirst.
  - destruct (apierrors.IsNotFound e0) eqn:Hnf; split; try done;
      by intros e [= <-].
Qed.

(** X20.  A failed lookup of the cluster module stops the reconcile of a
    VSphereVM that is not being deleted, before any call leaves the
    controller; it never stops a deletion, which runs without module
    information. *)
Theorem reconcile_module_lookup_failure r vmCtx w input e :
  NodeAntiAffinity r = true →
  fetchClusterModuleInfo r input = Err e →
  if notDeleting (VSphereVM.ObjectMeta (VSphereVM vmCtx))
  then reconcile_ r vmCtx w input = ((reconcile.zero, Some e), vmCtx, w)
  else reconcile_ r vmCtx w input = reconcileDelete r (setClusterModuleInfo None vmCtx) w.
Proof.
  intros Hgate Hfetch. unfold reconcile_. rewrite Hgate, Hfetch.
  by destruct (notDeleting _).
Qed.

(** *** The vCenter session *)

(** X21.  The session of a VSphereVM is always asked for the server, the
    datacenter and the thumbprint of its spec.  It is opened with the
    credentials of the identity of the VSphereCluster when the cluster,
    its infrastructure reference and a VSphereCluster with an identity
    are all found, and with the credentials of the controller otherwise;
    the credentials of the controller are never used in place of an
    identity that failed to resolve. *)
Theorem retrieveVcenterSession_credentials r vsphereVM s :
  retrieveVcenterSession r vsphereVM = Ok s →
  let spec := VSphereVM.Spec vsphereVM in
  ∃ u p,
    GetOrCreate r (session.mkParams (VSphereVMSpec.Server spec)
                     (VSphereVMSpec.Datacenter spec) u p (VSphereVMSpec.Thumbprint spec))
    = Ok s
    ∧ ((∃ cluster ref vsphereCluster,
          GetClusterFromMetadata r (VSphereVM.ObjectMeta vsphereVM) = Ok cluster
          ∧ clusterv1.InfrastructureRef cluster = Some ref
          ∧ getVSphereCluster r (Namespace (clusterv1.ClusterMeta cluster),
                                 clusterv1.InfraRefName ref) = Ok vsphereCluster
          ∧ IdentityRef vsphereCluster ≠ None
          ∧ GetCredentials r vsphereCluster = Ok (u, p))
       ∨ (u = Username r ∧ p = Password r
          ∧ ∀ cluster ref vsphereCluster,
              GetClusterFromMetadata r (VSphereVM.ObjectMeta vsphereVM) = Ok cluster →
              clusterv1.InfrastructureRef cluster = Some ref →
              getVSphereCluster r (Namespace (clusterv1.ClusterMeta cluster),
                                   clusterv1.InfraRefName ref) = Ok vsphereCluster →
              IdentityRef vsphereCluster = None)).
Proof.
  unfold retrieveVcenterSession. cbv zeta.
  destruct (GetClusterFromMetadata r _) as [cluster|e] eqn:Hc.
  2: { intros Hs. exists (Username r), (Password r). split; [done|]. right.
       split_and!; try done. }
  destruct (clusterv1.InfrastructureRef cluster) as [ref|] eqn:Href; [|done].
  destruct (getVSphereCluster r _) as [vc|e] eqn:Hvc.
  2: { intros Hs. exists (Username r), (Password r). split; [done|]. right.
       split_and!; try done. intros c' ref' vc' [= <-]. rewrite Href. intros [= <-].
       by rewrite Hvc. }
  destruct (IdentityRef vc) as [idref|] eqn:Hid.
  - destruct (GetCredentials r vc) as [[u p]|e] eqn:Hcred; [|done].
    intros Hs. exists u, p. split; [done|]. left.
    exists cluster, ref, vc. split_and!; try done. by rewrite Hid.
  - intros Hs. exists (Username r), (Password r). split; [done|]. right.
    split_and!; try done. intros c' ref' vc' [= <-]. rewrite Href. intros [= <-].
    rewrite Hvc. by intros [= <-].
Qed.

End Mappers.

(** ** Pause, the create event and the delete path of a zone *)

Section PauseAndZone.
Import metav1 infrav1 capvcontext VMController VMWatches.

(** X22.  When the lookup of the Cluster of the VSphereVM succeeds and
    the cluster or the VSphereVM is paused, a reconcile calls neither
    the backend nor the claims: the claim store is as it was, the only
    call that may leave is the deferred patch of the VSphereVM, and the
    stored VSphereVM differs from the one before in its conditions at
    most.  (The pause check sits under the success of that lookup.) *)
Theorem Reconcile_paused_is_idle r w req vm cluster :
  vms w !! req = Some vm →
  GetClusterFromMetadata r (VSphereVM.ObjectMeta vm) = Ok cluster →
  annotations.IsPaused cluster (VSphereVM.ObjectMeta vm) = true →
  let w' := (Reconcile r w req).2 in
  claims w' = claims w
  ∧ (calls w' = calls w ∨ ∃ k, calls w' = calls w ++ [CallPatchVM k])
  ∧ ∀ vm', vms w' !! req = Some vm' →
           VSphereVM.SetConditions (VSphereVM.GetConditions vm) vm' = vm.
Proof.
  intros Hvm Hcluster Hpaused. cbv zeta.
  destruct (Reconcile_shape r w req) as [Hw|(vm0 & fd & s & input & Hget & Hrec)].
  { rewrite Hw. split_and!; auto. intros vm'. rewrite Hvm. intros [= <-].
    by destruct vm as [? ? ? ? ? []]. }
  apply getVM_Ok in Hget. assert (vm0 = vm) as -> by congruence.
  assert (Hbody : reconcileBody r
                    (mkVMContext (markTrue VCenterAvailableCondition vm) fd s None) w input
                  = ((reconcile.zero, None),
                     mkVMContext (markTrue VCenterAvailableCondition vm) fd s None, w)).
  { unfold reconcileBody. simpl. by rewrite Hcluster, Hpaused. }
  rewrite Hrec, Hbody. split_and!.
  - unfold patchOnExit. by case_match.
  - unfold patchOnExit. case_match; simpl; eauto.
  - intros vm' Hafter. apply patchOnExit_lookup in Hafter as [Hold|[cs ->]].
    + simpl in Hold. assert (vm' = vm) as -> by congruence.
      by destruct vm as [? ? ? ? ? []].
    + simpl. by destruct vm as [? ? ? ? ? []].
Qed.

(** X23.  A create event of a Cluster enqueues a key only for a cluster
    that is paused through its spec and carries no paused annotation:
    the predicate of the watch wants the cluster paused, and the event
    filter of the controller rejects the annotation. *)
Theorem clusterWatch_create r w cluster k :
  k ∈ clusterWatch r w (event.CreateEvent cluster)
  ↔ clusterv1.Paused cluster = true
    ∧ annotations.HasPaused (clusterv1.ClusterMeta cluster) = false
    ∧ predicates.ResourceHasFilterLabel (WatchFilterValue r) (clusterv1.ClusterMeta cluster)
      = true
    ∧ k ∈ clusterToVSphereVMs r w (clusterv1.ClusterMeta cluster).
Proof.
  unfold clusterWatch, predicates.ResourceNotPausedAndHasFilterLabel, clusterPredicates,
    clusterCreateFunc, predicates.ResourceNotPaused, annotations.IsPaused. simpl.
  destruct (clusterv1.Paused cluster), (annotations.HasPaused _),
    (predicates.ResourceHasFilterLabel _ _); simpl;
    rewrite ?elem_of_remove_dups; split; try (by intros ?%elem_of_nil);
    try (by intros (? & ? & ? & ?)); by auto.
Qed.

End PauseAndZone.

Section ZoneDelete.
Import metav1 infrav1 ZoneController.

(** X24.  The delete path of a zone returns the zone untouched, finalizer
    included, whenever it returns an error, and the zone without its
    finalizer whenever it succeeds; the only failure domain it may write
    or delete is the one it fetched for the zone. *)
Theorem zone_reconcileDelete_finalizer_iff_success r zone w :
  let out := reconcileDelete r zone w in
  (out.1.1 ≠ None → out.1.2 = zone)
  ∧ (out.1.1 = None →
     out.1.2 = removeZoneFinalizer zone
     ∧ DeploymentZoneFinalizer ∉ Finalizers (VSphereDeploymentZone.ObjectMeta out.1.2))
  ∧ (∀ n, (∀ fd, getFailureDomain r w (VSphereDeploymentZone.FailureDomain zone) = Ok fd →
                 n ≠ Name (FailureDomainMeta fd)) →
          failureDomains out.2 !! n = failureDomains w !! n).
Proof.
  cbv zeta. unfold reconcileDelete.
  destruct (listMachines r) as [machines|e]; [|by split_and!].
  destruct (negb _); [by split_and!|].
  destruct (getFailureDomain r w _) as [fd|e] eqn:Hget.
  2: { destruct (apierrors.IsNotFound e); simpl; split_and!; try done.
       intros _. split; [done|]. apply RemoveFinalizer_absent. }
  unfold updateOwnerReferences.
  destruct (newHelperError r fd); [by split_and!|].
  destruct (patchError r _); [by split_and!|]. simpl.
  destruct (Nat.eqb _ 0); simpl.
  - destruct (deleteError r _) as [e|]; [destruct (apierrors.IsNotFound e)|]; simpl.
    all: split_and!; try done.
    all: try (intros _; split; [done|apply RemoveFinalizer_absent]).
    all: intros n Hn; specialize (Hn fd eq_refl).
    + by rewrite lookup_insert_ne.
    + by rewrite lookup_insert_ne.
    + by rewrite lookup_delete_ne, lookup_insert_ne.
  - split_and!; try done.
    + intros _. split; [done|apply RemoveFinalizer_absent].
    + intros n Hn. specialize (Hn fd eq_refl). by rewrite lookup_insert_ne.
Qed.

End ZoneDelete.

(** ** The normal path of a zone *)

Section ZoneNormalProperties.
Import metav1 infrav1 ZoneNormal.

(** The session loop asks for a session with the server and the
    datacenter of the parameters it was given, and either the
    credentials of the first cluster on the server with an identity that
    resolves, together with its thumbprint, or the credentials it was
    given and the thumbprint of the last cluster on the server with an
    identity. *)
Lemma sessionLoop_params r server items params :
  let usable := λ c : VSphereCluster,
    VSphereClusterServer c = server ∧ IdentityRef c ≠ None in
  ∃ u p t,
    sessionLoop r server items params
    = GetOrCreate r (session.mkParams (session.server params) (session.datacenter params)
                       u p t)
    ∧ ((∃ pre c post,
          items = pre ++ c :: post
          ∧ usable c
          ∧ GetCredentials r c = Ok (u, p)
          ∧ t = VSphereClusterThumbprint c
          ∧ ∀ c', c' ∈ pre → usable c' → ∃ e, GetCredentials r c' = Err e)
       ∨ (u = session.username params
          ∧ p = session.password params
          ∧ t = default (session.thumbprint params)
                  (last (VSphereClusterThumbprint <$> filter usable items))
          ∧ ∀ c', c' ∈ items → usable c' → ∃ e, GetCredentials r c' = Err e)).
Proof.
  intros usable. revert params. induction items as [|c rest IH]; intros params.
  { exists (session.username params), (session.password params), (session.thumbprint params).
    split; [by destruct params|]. right. split_and!; try done.
    by intros c' ?%elem_of_nil. }
  cbn [sessionLoop].
  destruct (bool_decide (server ≠ VSphereClusterServer c)
            || bool_decide (IdentityRef c = None)) eqn:Hskip.
  - assert (Hnot : ¬ usable c).
    { intros [Hs Hi]. apply orb_true_iff in Hskip as [H|H];
        apply bool_decide_eq_true_1 in H; congruence. }
    destruct (IH params) as (u & p & t & Heq & Hcase). exists u, p, t.
    split; [exact Heq|].
    destruct Hcase as [(pre & c0 & post & -> & Hu & Hc & Ht & Hpre)|(-> & -> & Ht & Hall)].
    + left. exists (c :: pre), c0, post. split_and!; try done.
      intros c' [->|Hin]%elem_of_cons Hc'; [done|by apply Hpre].
    + right. split_and!; try done.
      * by rewrite filter_cons_False.
      * intros c' [->|Hin]%elem_of_cons Hc'; [done|by apply Hall].
  - assert (Hyes : usable c).
    { apply orb_false_iff in Hskip as [H1 H2].
      apply bool_decide_eq_false_1 in H1, H2. split; [|done].
      destruct (decide (VSphereClusterServer c = server)); [done|].
      exfalso. apply H1. congruence. }
    cbv zeta. destruct (GetCredentials r c) as [[u p]|e] eqn:Hcred.
    + exists u, p, (VSphereClusterThumbprint c). split; [done|].
      left. exists [], c, rest. split_and!; try done. by intros c' ?%elem_of_nil.
    + destruct (IH (WithThumbprint (VSphereClusterThumbprint c) params))
        as (u & p & t & Heq & Hcase).
      exists u, p, t. split; [exact Heq|].
      destruct Hcase as [(pre & c0 & post & -> & Hu & Hc & Ht & Hpre)|(-> & -> & Ht & Hall)].
      * left. exists (c :: pre), c0, post. split_and!; try done.
        intros c' [->|Hin]%elem_of_cons Hc'; [eauto|by apply Hpre].
      * right. split_and!; try done.
        -- rewrite filter_cons_True by done. rewrite fmap_cons. simpl in Ht. rewrite Ht.
           by destruct (VSphereClusterThumbprint <$> filter usable rest) as [|x l] using rev_ind;
             [|rewrite app_comm_cons, !last_snoc].
        -- intros c' [->|Hin]%elem_of_cons Hc'; [eauto|by apply Hall].
Qed.

(** X25.  The session of a zone is asked for the server of the zone and
    the datacenter of its failure domain.  It uses the credentials of the
    first VSphereCluster on that server whose identity resolves, with
    the thumbprint of that cluster; when there is none it uses the
    credentials of the controller, with the thumbprint of the last
    VSphereCluster on the server that has an identity, though its
    credentials did not resolve. *)
Theorem zone_getVCenterSession_credentials r deploymentZoneCtx datacenter items :
  listClusters r = Ok items →
  let server :=
    VSphereDeploymentZone.Server (Object (VSphereDeploymentZone deploymentZoneCtx)) in
  let usable := λ c : VSphereCluster,
    VSphereClusterServer c = server ∧ IdentityRef c ≠ None in
  ∃ u p t,
    getVCenterSession r deploymentZoneCtx datacenter
    = GetOrCreate r (session.mkParams server datacenter u p t)
    ∧ ((∃ pre c post,
          items = pre ++ c :: post
          ∧ usable c
          ∧ GetCredentials r c = Ok (u, p)
          ∧ t = VSphereClusterThumbprint c
          ∧ ∀ c', c' ∈ pre → usable c' → ∃ e, GetCredentials r c' = Err e)
       ∨ (u = Username r
          ∧ p = Password r
          ∧ t = default "" (last (VSphereClusterThumbprint <$> filter usable items))
          ∧ ∀ c', c' ∈ items → usable c' → ∃ e, GetCredentials r c' = Err e)).
Proof.
  intros Hlist server usable. unfold getVCenterSession. rewrite Hlist. fold server.
  apply (sessionLoop_params r server items
           (session.mkParams server datacenter (Username r) (Password r) "")).
Qed.

(** The placement check leaves the record of the zone alone. *)
Lemma reconcilePlacementConstraint_object r authSession deploymentZoneCtx :
  Object (VSphereDeploymentZone
            (reconcilePlacementConstraint r authSession deploymentZoneCtx).2)
  = Object (VSphereDeploymentZone deploymentZoneCtx).
Proof. unfold reconcilePlacementConstraint. by repeat case_match. Qed.

(** X26.  The placement constraint is met exactly when the resource pool
    and the folder, where named, are both found; the context is then
    returned as it was.  The resource pool is looked up first: when it is
    missing the condition carries the resource-pool reason whatever the
    folder, and the folder reason is reported only once the resource
    pool has passed. *)
Theorem reconcilePlacementConstraint_checks r authSession deploymentZoneCtx :
  let zone := VSphereDeploymentZone deploymentZoneCtx in
  let out := reconcilePlacementConstraint r authSession deploymentZoneCtx in
  let poolOk :=
    ResourcePool zone = "" ∨ FinderResourcePool r authSession (ResourcePool zone) = None in
  let folderOk := Folder zone = "" ∨ FinderFolder r authSession (Folder zone) = None in
  let reason := λ c : VSphereDeploymentZoneContext,
    clusterv1.Reason <$> Conditions (VSphereDeploymentZone c) !! PlacementConstraintMetCondition in
  (out.1 = None ↔ poolOk ∧ folderOk)
  ∧ (out.1 = None → out.2 = deploymentZoneCtx)
  ∧ (¬ poolOk → reason out.2 = Some ResourcePoolNotFoundReason)
  ∧ (poolOk → ¬ folderOk → reason out.2 = Some FolderNotFoundReason)
  ∧ Ready (VSphereDeploymentZone out.2) = Ready zone
  ∧ Object (VSphereDeploymentZone out.2) = Object zone.
Proof.
  cbv zeta. unfold reconcilePlacementConstraint.
  set (zone := VSphereDeploymentZone deploymentZoneCtx).
  destruct (decide (ResourcePool zone = "")) as [Hp|Hp].
  - rewrite (bool_decide_eq_false_2 (ResourcePool zone ≠ "")) by (intros Hn; by apply Hn).
    destruct (decide (Folder zone = "")) as [Hf|Hf].
    + rewrite (bool_decide_eq_false_2 (Folder zone ≠ "")) by (intros Hn; by apply Hn).
      simpl. split_and!; try done; tauto.
    + rewrite (bool_decide_eq_true_2 (Folder zone ≠ "")) by done.
      destruct (FinderFolder r authSession (Folder zone)) as [e|] eqn:He; simpl.
      * split_and!; try done.
        -- split; [done|]. intros [_ [?|?]]; done.
        -- tauto.
        -- intros _ _. unfold markFalse, conditions.MarkFalse, conditions.Set_. simpl.
           by rewrite lookup_insert_eq.
      * split_and!; try done; tauto.
  - rewrite (bool_decide_eq_true_2 (ResourcePool zone ≠ "")) by done.
    destruct (FinderResourcePool r authSession (ResourcePool zone)) as [e|] eqn:He; simpl.
    + split_and!; try done.
      * split; [done|]. intros [[?|?] _]; done.
      * intros _. unfold markFalse, conditions.MarkFalse, conditions.Set_. simpl.
        by rewrite lookup_insert_eq.
      * intros [?|?]; done.
    + destruct (decide (Folder zone = "")) as [Hf|Hf].
      * rewrite (bool_decide_eq_false_2 (Folder zone ≠ "")) by (intros Hn; by apply Hn).
        simpl. split_and!; try done; tauto.
      * rewrite (bool_decide_eq_true_2 (Folder zone ≠ "")) by done.
        destruct (FinderFolder r authSession (Folder zone)) as [e|] eqn:He'; simpl.
        -- split_and!; try done.
           ++ split; [done|]. intros [_ [?|?]]; done.
           ++ tauto.
           ++ intros _ _. unfold markFalse, conditions.MarkFalse, conditions.Set_. simpl.
              by rewrite lookup_insert_eq.
        -- split_and!; try done; tauto.
Qed.

(** A placement check that passes returns the context as it was. *)
Lemma reconcilePlacementConstraint_passes r authSession deploymentZoneCtx :
  (reconcilePlacementConstraint r authSession deploymentZoneCtx).1 = None →
  (reconcilePlacementConstraint r authSession deploymentZoneCtx).2 = deploymentZoneCtx.
Proof. unfold reconcilePlacementConstraint. by repeat case_match. Qed.

(** X27.  The normal path of a zone leaves the zone and the failure
    domains as they were when the failure domain cannot be fetched, the
    readiness flag included.  Once the failure domain is fetched the
    flag tells the outcome: true exactly when the path returns no error,
    false on every error.  When no session can be opened, and when the
    session is opened and the placement constraint is not met, the path
    returns that failure wrapped, writes no failure domain and keeps the
    record of the zone.  Otherwise the failure domains are those the
    reconcile of the failure domain leaves, run on the zone marked with
    the two conditions met, and the path succeeds exactly when that
    reconcile does. *)
Theorem zone_reconcileNormal_readiness r deploymentZoneCtx w :
  let zone := VSphereDeploymentZone deploymentZoneCtx in
  let out := reconcileNormal r deploymentZoneCtx w in
  let zone' := VSphereDeploymentZone out.1.2 in
  match ZoneController.getFailureDomain (Base r) w
          (VSphereDeploymentZone.FailureDomain (Object zone)) with
  | Err e =>
      out = (Some (Wrapf e "VSphereFailureDomain could not be retrieved"),
             deploymentZoneCtx, w)
  | Ok failureDomain =>
      (out.1.1 = None ↔ Ready zone' = Some true)
      ∧ (out.1.1 ≠ None → Ready zone' = Some false)
      ∧ match getVCenterSession r deploymentZoneCtx (TopologyDatacenter failureDomain) with
        | Err e =>
            out.1.1 = Some (Wrapf e "unable to create auth session")
            ∧ out.2 = w
            ∧ Object zone' = Object zone
        | Ok authSession =>
            let checked :=
              mkContext (markTrue VCenterAvailableCondition zone) (Some authSession) in
            match (reconcilePlacementConstraint r authSession checked).1 with
            | Some e =>
                out.1.1 = Some (Wrapf e "placement constraint is misconfigured")
                ∧ out.2 = w
                ∧ Object zone' = Object zone
            | None =>
                let placed :=
                  setZone
                    (markTrue PlacementConstraintMetCondition
                       (VSphereDeploymentZone checked))
                    checked in
                let run := reconcileFailureDomain r placed failureDomain w in
                out.2 = run.2
                ∧ (out.1.1 = None ↔ run.1.1 = None)
            end
        end
  end.
Proof.
  cbv zeta. unfold reconcileNormal.
  destruct (ZoneController.getFailureDomain _ w _) as [failureDomain|e]; [|done].
  destruct (getVCenterSession r deploymentZoneCtx _) as [authSession|e]; simpl.
  2: { by split_and!. }
  pose proof (reconcilePlacementConstraint_object r authSession
                (mkContext (markTrue VCenterAvailableCondition
                              (VSphereDeploymentZone deploymentZoneCtx))
                   (Some authSession))) as Hobj.
  pose proof (reconcilePlacementConstraint_passes r authSession
                (mkContext (markTrue VCenterAvailableCondition
                              (VSphereDeploymentZone deploymentZoneCtx))
                   (Some authSession))) as Hpass.
  destruct (reconcilePlacementConstraint r authSession _) as [[e|] c1]; simpl in *.
  { by split_and!. }
  rewrite (Hpass eq_refl).
  destruct (reconcileFailureDomain r _ failureDomain w) as [[[e|] c2] w2]; simpl.
  - by split_and!.
  - by split_and!.
Qed.

(** X28.  A zone that is not being deleted and lacks the zone finalizer
    gets the finalizer and nothing else on its first reconcile, with a
    client that reports no failure: the failure domains, the readiness
    flag and the placement constraint are as they were, and the zone is
    patched with the finalizer added. *)
Theorem Reconcile_zone_finalizer_first r w request zone :
  zones w !! request = Some zone →
  getZoneError r request = None →
  newZoneHelperError r zone = None →
  (∀ z, patchZoneError r z = None) →
  let meta := VSphereDeploymentZone.ObjectMeta (Object zone) in
  notDeleting meta = true →
  DeploymentZoneFinalizer ∉ Finalizers meta →
  ∃ zone',
    Reconcile r w request
    = (None, mkZoneStore (<[Name meta := zone']> (zones w)) (domains w)
               (zonePatches w ++ [Name meta]))
    ∧ Finalizers (VSphereDeploymentZone.ObjectMeta (Object zone'))
      = Finalizers meta ++ [DeploymentZoneFinalizer]
    ∧ Ready zone' = Ready zone
    ∧ ResourcePool zone' = ResourcePool zone
    ∧ Folder zone' = Folder zone.
Proof.
  intros Hzone Hget Hnew Hpatch meta Hnd Hfin.
  unfold Reconcile, getZone. rewrite Hget, Hzone, Hnew. cbv zeta.
  change (VSphereDeploymentZone.ObjectMeta (Object zone)) with meta.
  rewrite Hnd. unfold ctrlutil.ContainsFinalizer.
  rewrite (bool_decide_eq_false_2 _ Hfin). cbn [negb].
  unfold patchOnExit. rewrite Hpatch. cbv zeta.
  unfold ctrlutil.AddFinalizer, ctrlutil.ContainsFinalizer.
  rewrite (bool_decide_eq_false_2 _ Hfin).
  subst meta. destruct zone as [[kind m srv fd] pool folder rdy cs].
  destruct m as [n ns u ls an ct dt fs ors]. simpl in *.
  unfold notDeleting in *. simpl in *. destruct dt; [done|]. simpl.
  eexists. split; [reflexivity|]. done.
Qed.

End ZoneNormalProperties.

(** ** The config map of provider service accounts *)

Section ServiceAccountProperties.
Import metav1 ServiceAccounts.

Lemma lookupData_stored cm k : lookupData (stored cm) k = lookupData cm k.
Proof.
  unfold stored. case_bool_decide as Hd; [|done].
  unfold lookupData. rewrite Hd. simpl. by rewrite lookup_empty.
Qed.

(** What a successful removal of an entry leaves: the entry is gone, the
    other entries are as they were, and the config map is still there. *)
Lemma deleteServiceAccountConfigMap_step r w svcAccount :
  let k := getSystemServiceAccountFullName svcAccount in
  match deleteServiceAccountConfigMap r w svcAccount with
  | Panicked => False
  | Returned (Some _, w') => w' = w
  | Returned (None, w') =>
      match configMap w with
      | None => False
      | Some cm =>
          ∃ cm', configMap w' = Some cm'
                 ∧ lookupData cm' k ≠ Some "true"
                 ∧ (∀ k', k' ≠ k → lookupData cm' k' = lookupData cm k')
                 ∧ (∀ k' v, lookupData cm' k' = Some v → lookupData cm k' = Some v)
                 ∧ (lookupData cm k ≠ Some "true" → w' = w)
      end
  end.
Proof.
  cbv zeta. unfold deleteServiceAccountConfigMap, getConfigMapAndBuffer.
  set (k := getSystemServiceAccountFullName svcAccount).
  destruct (getConfigMap r w) as [cm|e] eqn:Hget; [|done].
  assert (Hcm : configMap w = Some cm).
  { unfold getConfigMap in Hget. by repeat case_match; simplify_eq. }
  case_bool_decide as Hk; simpl.
  2: { rewrite Hcm. exists cm. split_and!; done. }
  unfold CreateOrPatch. rewrite Hget. simpl.
  rewrite bool_decide_eq_true_2 by done.
  assert (Hne : setData (delete k <$> Data cm) cm ≠ cm).
  { intros Heq. apply (f_equal (λ c, lookupData c k)) in Heq.
    rewrite Hk in Heq. unfold lookupData in Heq, Hk. simpl in Heq.
    destruct (Data cm); [|done]. simpl in Heq. by rewrite lookup_delete_eq in Heq. }
  rewrite (bool_decide_eq_false_2 _ Hne).
  destruct (patchConfigMapError r); [done|]. rewrite Hcm. simpl.
  eexists. split; [reflexivity|]. split_and!.
  - rewrite lookupData_stored. unfold lookupData. simpl.
    destruct (Data cm); [|done]. simpl. by rewrite lookup_delete_eq.
  - intros k' Hk'. rewrite lookupData_stored. unfold lookupData. simpl.
    destruct (Data cm); [|done]. simpl. by rewrite lookup_delete_ne.
  - intros k' v. rewrite lookupData_stored. unfold lookupData. simpl.
    destruct (Data cm); [|done]. simpl. by intros [_ ?]%lookup_delete_Some.
  - done.
Qed.

Lemma deleteLoop_effect r accounts w :
  match deleteLoop r accounts w with
  | Panicked => False
  | Returned (Some _, _) => True
  | Returned (None, w') =>
      accounts = [] ∧ w' = w
      ∨ match configMap w with
        | None => False
        | Some cm =>
            ∃ cm', configMap w' = Some cm'
                   ∧ (∀ a, a ∈ accounts →
                           lookupData cm' (getSystemServiceAccountFullName a) ≠ Some "true")
                   ∧ (∀ k, (∀ a, a ∈ accounts → k ≠ getSystemServiceAccountFullName a) →
                           lookupData cm' k = lookupData cm k)
                   ∧ (∀ k v, lookupData cm' k = Some v → lookupData cm k = Some v)
        end
  end.
Proof.
  revert w. induction accounts as [|a rest IH]; intros w; [by left|].
  cbn [deleteLoop].
  pose proof (deleteServiceAccountConfigMap_step r w a) as Hstep. cbv zeta in Hstep.
  destruct (deleteServiceAccountConfigMap r w a) as [[[e|] w1]|]; [done| |done].
  destruct (configMap w) as [cm|] eqn:Hcm; [|done].
  destruct Hstep as (cm1 & Hcm1 & Hgone & Hframe & Hmono & _).
  specialize (IH w1). destruct (deleteLoop r rest w1) as [[[e|] w2]|]; [done| |done].
  right. destruct IH as [[-> ->]|IH].
  - exists cm1. split_and!; try done.
    + by intros a' ->%list_elem_of_singleton.
    + intros k Hk. apply Hframe. apply Hk. constructor.
  - rewrite Hcm1 in IH. destruct IH as (cm2 & Hcm2 & Hgone2 & Hframe2 & Hmono2).
    exists cm2. split_and!; try done.
    + intros a' [->|Hin]%elem_of_cons; [|by apply Hgone2].
      intros Htrue. apply Hmono2 in Htrue. done.
    + intros k Hk. rewrite <- Hframe.
      * apply Hframe2. intros a' Hin. apply Hk. by constructor.
      * apply Hk. constructor.
    + intros k v Hv. by apply Hmono, Hmono2.
Qed.

(** X29.  Ensuring the entry of a provider service account panics on a
    readable config map whose data is nil.  When it returns without
    error the entry of the account reads true and every other entry is
    as before, and a second run on the result writes nothing; when it
    returns an error nothing was written. *)
Theorem ensureServiceAccountConfigMap_effect r w svcAccount cm :
  getConfigMapError r = None →
  configMap w = Some cm →
  let k := getSystemServiceAccountFullName svcAccount in
  match ensureServiceAccountConfigMap r w svcAccount with
  | Panicked => Data cm = None
  | Returned (Some _, w') => w' = w
  | Returned (None, w') =>
      ∃ cm', configMap w' = Some cm'
             ∧ lookupData cm' k = Some "true"
             ∧ (∀ k', k' ≠ k → lookupData cm' k' = lookupData cm k')
             ∧ ensureServiceAccountConfigMap r w' svcAccount = Returned (None, w')
  end
  ∧ (Data cm = None → ensureServiceAccountConfigMap r w svcAccount = Panicked).
Proof.
  intros Hget Hcm k.
  assert (Hidle : ∀ w0 cm0, configMap w0 = Some cm0 → lookupData cm0 k = Some "true" →
            ensureServiceAccountConfigMap r w0 svcAccount = Returned (None, w0)).
  { intros w0 cm0 H0 Hk. unfold ensureServiceAccountConfigMap, getConfigMapAndBuffer,
      getConfigMap. rewrite Hget, H0. simpl. fold k. by rewrite bool_decide_eq_true_2. }
  destruct (decide (lookupData cm k = Some "true")) as [Hk|Hk].
  { rewrite (Hidle w cm Hcm Hk). split.
    - exists cm. split_and!; try done. by apply (Hidle w cm).
    - intros Hnil. unfold lookupData in Hk. by rewrite Hnil in Hk. }
  assert (Hrun : ensureServiceAccountConfigMap r w svcAccount
                 = match Data cm with
                   | None => Panicked
                   | Some d =>
                       match patchConfigMapError r with
                       | Some e => Returned (Some e, w)
                       | None =>
                           Returned
                             (None,
                              mkWorld (Some (stored (setData (Some (<[k:="true"]> d)) cm)))
                                (configMapCalls w ++ [CallPatchConfigMap]))
                       end
                   end).
  { unfold ensureServiceAccountConfigMap, getConfigMapAndBuffer, getConfigMap.
    rewrite Hget, Hcm. simpl. fold k. rewrite (bool_decide_eq_false_2 _ Hk).
    unfold CreateOrPatch, getConfigMap. rewrite Hget, Hcm. simpl.
    destruct (Data cm) as [d|] eqn:Hd; simpl; [|done].
    rewrite bool_decide_eq_true_2 by done.
    assert (Hne : setData (Some (<[k:="true"]> d)) cm ≠ cm).
    { intros Heq. apply (f_equal (λ c, lookupData c k)) in Heq.
      unfold lookupData in Heq, Hk. simpl in Heq. rewrite Hd in Heq, Hk.
      rewrite lookup_insert_eq in Heq. congruence. }
    by rewrite (bool_decide_eq_false_2 _ Hne). }
  rewrite Hrun. destruct (Data cm) as [d|] eqn:Hd; [|done].
  destruct (patchConfigMapError r); [done|]. split; [|done].
  eexists. split; [reflexivity|].
  assert (Hk' : lookupData (stored (setData (Some (<[k:="true"]> d)) cm)) k = Some "true").
  { rewrite lookupData_stored. unfold lookupData. simpl. apply lookup_insert_eq. }
  split_and!; [done| |].
  - intros k' Hne'. rewrite lookupData_stored. unfold lookupData. simpl. rewrite Hd.
    by rewrite lookup_insert_ne.
  - by eapply Hidle.
Qed.

(** X30.  With the provider service accounts listed and the config map
    present, the delete path of the service-account controller does not
    panic.  When it succeeds, the entries of the provider service
    accounts of the VSphereCluster that are not themselves being deleted
    no longer read true, no entry was added, and every other entry is as
    before. *)
Theorem serviceAccount_ReconcileDelete_removes_entries r vsphereCluster w items cm :
  listProviderServiceAccounts r (Namespace vsphereCluster) = Ok items →
  configMap w = Some cm →
  let mine := λ a : ProviderServiceAccount,
    DeletionTimestamp (AccountMeta a) = None ∧ Ref a = Some (Name vsphereCluster) in
  match ReconcileDelete r vsphereCluster w with
  | Panicked => False
  | Returned (Some _, _) => True
  | Returned (None, w') =>
      ∃ cm', configMap w' = Some cm'
             ∧ (∀ a, a ∈ items → mine a →
                     lookupData cm' (getSystemServiceAccountFullName a) ≠ Some "true")
             ∧ (∀ k, (∀ a, a ∈ items → mine a → k ≠ getSystemServiceAccountFullName a) →
                     lookupData cm' k = lookupData cm k)
             ∧ (∀ k v, lookupData cm' k = Some v → lookupData cm k = Some v)
  end.
Proof.
  intros Hlist Hcm mine. unfold ReconcileDelete, getProviderServiceAccounts.
  rewrite Hlist.
  pose proof (deleteLoop_effect r (filter mine items) w) as Hloop.
  change (deleteLoop r (filter _ items) w) with (deleteLoop r (filter mine items) w).
  destruct (deleteLoop r (filter mine items) w) as [[[e|] w']|]; [done| |done].
  rewrite Hcm in Hloop. destruct Hloop as [[Hnil ->]|(cm' & Hcm' & Hgone & Hframe & Hmono)].
  - exists cm. split_and!; try done.
    intros a Hin Hmine. assert (a ∈ filter mine items) as Ha by (by apply list_elem_of_filter).
    rewrite Hnil in Ha. by apply elem_of_nil in Ha.
  - exists cm'. split_and!; try done.
    + intros a Hin Hmine. apply Hgone. by apply list_elem_of_filter.
    + intros k Hk. apply Hframe. intros a [Hmine Hin]%list_elem_of_filter. by apply Hk.
Qed.

End ServiceAccountProperties.

(** ** The further properties on the sample objects *)

Section MoreSamples.
Import metav1 infrav1 capvcontext VMController Traces Invariants Frames VMMappers.

Lemma Reconcile_keeps_placement_witness :
  let r := Fixtures.readyBackend "h-1" in
  let w := Fixtures.worldOf Samples2.placedVM in
  match vms (Reconcile r w Fixtures.keyA).2 !! Fixtures.keyA with
  | Some vm' =>
      VSphereVMStatus.VMRef (VSphereVM.Status vm') = "vm-0"
      ∧ VSphereVMStatus.Ready (VSphereVM.Status vm') = true
  | None => False
  end.
Proof.
  cbv zeta.
  destruct (vms (Reconcile (Fixtures.readyBackend "h-1")
                   (Fixtures.worldOf Samples2.placedVM) Fixtures.keyA).2 !! Fixtures.keyA)
    as [vm'|] eqn:Hafter.
  - destruct (Reconcile_keeps_placement (Fixtures.readyBackend "h-1")
                (Fixtures.worldOf Samples2.placedVM) Fixtures.keyA Samples2.placedVM vm'
                eq_refl Hafter) as [Href Hready].
    split; [apply Href; vm_compute; discriminate|apply Hready; reflexivity].
  - vm_compute in Hafter. discriminate Hafter.
Defined.

Lemma Reconcile_frame_witness :
  let r := Fixtures.readyBackend "h-1" in
  let w := Fixtures.worldOf Samples2.placedVM in
  match vms (Reconcile r w Fixtures.keyA).2 !! Fixtures.keyA with
  | Some vm' => sameButLifecycle Samples2.placedVM vm'
  | None => False
  end.
Proof.
  cbv zeta.
  destruct (vms (Reconcile (Fixtures.readyBackend "h-1")
                   (Fixtures.worldOf Samples2.placedVM) Fixtures.keyA).2 !! Fixtures.keyA)
    as [vm'|] eqn:Hafter.
  - exact (Reconcile_frame (Fixtures.readyBackend "h-1")
             (Fixtures.worldOf Samples2.placedVM) Fixtures.keyA Samples2.placedVM vm'
             eq_refl Hafter).
  - vm_compute in Hafter. discriminate Hafter.
Defined.

Lemma Reconcile_keeps_live_vm_witness :
  let r := Fixtures.readyBackend "h-1" in
  let w := Fixtures.worldOf Samples2.placedVM in
  ∃ vm',
    vms (Reconcile r w Fixtures.keyA).2 !! Fixtures.keyA = Some vm'
    ∧ notDeleting (VSphereVM.ObjectMeta vm') = true
    ∧ (VMFinalizer ∈ Finalizers (VSphereVM.ObjectMeta Samples2.placedVM) →
       VMFinalizer ∈ Finalizers (VSphereVM.ObjectMeta vm')).
Proof.
  exact (Reconcile_keeps_live_vm (Fixtures.readyBackend "h-1")
           (Fixtures.worldOf Samples2.placedVM) Fixtures.keyA Samples2.placedVM
           eq_refl eq_refl).
Defined.

Lemma Reconcile_idle_cases_witness :
  let r := Fixtures.readyBackend "h-1" in
  let w := Fixtures.worldOf Samples2.failedVM in
  claims (Reconcile r w Fixtures.keyA).2 = claims w
  ∧ (calls (Reconcile r w Fixtures.keyA).2 = calls w
     ∨ ∃ k, calls (Reconcile r w Fixtures.keyA).2 = calls w ++ [CallPatchVM k]).
Proof.
  apply (Reconcile_idle_cases (Fixtures.readyBackend "h-1")
           (Fixtures.worldOf Samples2.failedVM) Fixtures.keyA Samples2.failedVM).
  - reflexivity.
  - reflexivity.
  - right. left. vm_compute. discriminate.
Defined.

Lemma Reconcile_backend_discipline_witness :
  let r := Fixtures.readyBackend "h-1" in
  let vm := Samples2.deletingVM [Fixtures.poolDevice] in
  let w := Fixtures.worldOf vm in
  ∃ l,
    calls (Reconcile r w Fixtures.keyA).2 = calls w ++ l
    ∧ (length (filter (λ c, isBackendCall c = true) l) ≤ 1)%nat
    ∧ (notDeleting (VSphereVM.ObjectMeta vm) = true →
       (CallDestroyVM ∉ l)
       ∧ (∀ name, CallDeleteNode name ∉ l)
       ∧ Forall (λ c, isClaimRelease c = false) l)
    ∧ (notDeleting (VSphereVM.ObjectMeta vm) = false →
       (CallReconcileVM ∉ l)
       ∧ Forall (λ c, isClaimEnsure c = false) l).
Proof.
  exact (Reconcile_backend_discipline (Fixtures.readyBackend "h-1")
           (Fixtures.worldOf (Samples2.deletingVM [Fixtures.poolDevice])) Fixtures.keyA
           (Samples2.deletingVM [Fixtures.poolDevice]) eq_refl).
Defined.

Lemma reconcileDelete_node_deletion_best_effort_witness :
  let r := Samples3.backendWith (Ok Fixtures.cluster1) (Ok Fixtures.vsphereCluster1)
             (λ _, None) (Some (StatusOther "node is stuck")) (λ _, None) false (Ok "md") in
  let vmCtx := Fixtures.contextOf (Samples2.deletingVM [Fixtures.dhcpDevice]) in
  let out := reconcileDelete r vmCtx (Fixtures.worldOf (VSphereVM vmCtx)) in
  out.1.1 = (reconcile.zero, None)
  ∧ VMFinalizer ∉ Finalizers (VSphereVM.ObjectMeta (VSphereVM out.1.2)).
Proof.
  apply (reconcileDelete_node_deletion_best_effort
           (Samples3.backendWith (Ok Fixtures.cluster1) (Ok Fixtures.vsphereCluster1)
              (λ _, None) (Some (StatusOther "node is stuck")) (λ _, None) false (Ok "md"))
           (Fixtures.contextOf (Samples2.deletingVM [Fixtures.dhcpDevice]))
           (Fixtures.worldOf (Samples2.deletingVM [Fixtures.dhcpDevice]))
           reconcile.zero (Fixtures.observed VirtualMachineStateNotFound "")).
  - reflexivity.
  - reflexivity.
  - reflexivity.
  - intros k e H. discriminate H.
  - intros k. reflexivity.
  - intros k. reflexivity.
Defined.

Lemma reconcileDelete_requeues_when_cluster_locked_witness :
  let r := Samples3.backendWith (Ok Fixtures.cluster1) (Ok Fixtures.vsphereCluster1)
             (λ _, Some ErrClusterLocked) None (λ _, None) false (Ok "md") in
  let vmCtx := Fixtures.contextOf (Samples2.deletingVM [Fixtures.dhcpDevice]) in
  let w := Fixtures.worldOf (VSphereVM vmCtx) in
  let out := reconcileDelete r vmCtx w in
  out.1.1 = (reconcile.mkResult true 0, None)
  ∧ Finalizers (VSphereVM.ObjectMeta (VSphereVM out.1.2))
    = Finalizers (VSphereVM.ObjectMeta (VSphereVM vmCtx))
  ∧ claims out.2 = claims w
  ∧ calls out.2 = calls w ++ [CallDestroyVM].
Proof.
  apply (reconcileDelete_requeues_when_cluster_locked
           (Samples3.backendWith (Ok Fixtures.cluster1) (Ok Fixtures.vsphereCluster1)
              (λ _, Some ErrClusterLocked) None (λ _, None) false (Ok "md"))
           (Fixtures.contextOf (Samples2.deletingVM [Fixtures.dhcpDevice]))
           (Fixtures.worldOf (Samples2.deletingVM [Fixtures.dhcpDevice]))
           reconcile.zero (Fixtures.observed VirtualMachineStateNotFound "")
           Fixtures.cluster1 ErrClusterLocked); reflexivity.
Defined.

Lemma reconcileDelete_waits_for_backend_witness :
  let r := Samples3.pendingBackend in
  let vmCtx := Fixtures.contextOf (Samples2.deletingVM [Fixtures.poolDevice]) in
  let w := Fixtures.worldOf (VSphereVM vmCtx) in
  let out := reconcileDelete r vmCtx w in
  out.1.1.2 = None
  ∧ out.1.1.1 = reconcile.zero
  ∧ Finalizers (VSphereVM.ObjectMeta (VSphereVM out.1.2))
    = Finalizers (VSphereVM.ObjectMeta (VSphereVM vmCtx))
  ∧ claims out.2 = claims w
  ∧ calls out.2 = calls w ++ [CallDestroyVM].
Proof.
  apply (reconcileDelete_waits_for_backend Samples3.pendingBackend
           (Fixtures.contextOf (Samples2.deletingVM [Fixtures.poolDevice]))
           (Fixtures.worldOf (Samples2.deletingVM [Fixtures.poolDevice]))
           reconcile.zero (Fixtures.observed VirtualMachineStatePending "")).
  - reflexivity.
  - right. vm_compute. discriminate.
Defined.

Lemma reconcileNormal_ready_witness :
  let r := Fixtures.readyBackend "h-1" in
  let vmCtx := Fixtures.contextOf (Fixtures.vmWith [VMFinalizer] "" [Fixtures.dhcpDevice]) in
  let out := reconcileNormal r vmCtx (Fixtures.worldOf (VSphereVM vmCtx)) in
  let vm' := VSphereVM out.1.2 in
  out.1.1 = (reconcile.zero, None)
  ∧ VSphereVMSpec.BiosUUID (VSphereVM.Spec vm') = "h-1"
  ∧ VSphereVMStatus.Network (VSphereVM.Status vm')
    = [mkNetworkStatus true ["10.0.0.5"] "" "net"]
  ∧ VSphereVMStatus.Addresses (VSphereVM.Status vm') = ["10.0.0.5"]
  ∧ VSphereVMStatus.Ready (VSphereVM.Status vm') = true
  ∧ VSphereVM.GetConditions vm' !! VMProvisionedCondition
    = Some (conditions.TrueCondition VMProvisionedCondition).
Proof.
  apply (reconcileNormal_ready (Fixtures.readyBackend "h-1")
           (Fixtures.contextOf (Fixtures.vmWith [VMFinalizer] "" [Fixtures.dhcpDevice]))
           (Fixtures.worldOf (Fixtures.vmWith [VMFinalizer] "" [Fixtures.dhcpDevice]))
           (Fixtures.observed VirtualMachineStateReady "h-1")).
  - reflexivity.
  - reflexivity.
  - reflexivity.
  - vm_compute; reflexivity.
  - reflexivity.
  - reflexivity.
  - vm_compute. discriminate.
  - vm_compute. discriminate.
Defined.

Lemma reconcileNormal_waits_for_addresses_witness :
  let r := Samples3.noAddressBackend in
  let vmCtx := Fixtures.contextOf (Fixtures.vmWith [VMFinalizer] "" [Fixtures.dhcpDevice]) in
  let out := reconcileNormal r vmCtx (Fixtures.worldOf (VSphereVM vmCtx)) in
  let vm' := VSphereVM out.1.2 in
  out.1.1 = (reconcile.mkResult false 10, None)
  ∧ VSphereVMStatus.Ready (VSphereVM.Status vm') = false
  ∧ VSphereVMStatus.Addresses (VSphereVM.Status vm') = []
  ∧ VSphereVM.GetConditions vm' !! VMProvisionedCondition
    = Some (conditions.FalseCondition VMProvisionedCondition WaitingForIPAllocationReason
              clusterv1.ConditionSeverityInfo "").
Proof.
  apply (reconcileNormal_waits_for_addresses Samples3.noAddressBackend
           (Fixtures.contextOf (Fixtures.vmWith [VMFinalizer] "" [Fixtures.dhcpDevice]))
           (Fixtures.worldOf (Fixtures.vmWith [VMFinalizer] "" [Fixtures.dhcpDevice]))
           Samples3.observedNoAddress).
  - reflexivity.
  - reflexivity.
  - reflexivity.
  - vm_compute; reflexivity.
  - reflexivity.
  - reflexivity.
  - vm_compute. discriminate.
  - reflexivity.
Defined.

Lemma createOrPatchIPAddressClaim_creates_witness :
  let r := Fixtures.readyBackend "h-1" in
  let vm := Fixtures.vmWith [VMFinalizer] "" [Fixtures.poolDevice] in
  let w := Fixtures.worldOf vm in
  ∃ claim,
    (createOrPatchIPAddressClaim r (Fixtures.contextOf vm) w "vm-a-0-0" Fixtures.poolRefA).1
    = Ok (claim, true)
    ∧ Finalizers (ipamv1.ObjectMeta claim) = [IPAddressClaimFinalizer]
    ∧ ipAddressClaimToVSphereVM claim = [Fixtures.keyA].
Proof.
  destruct (createOrPatchIPAddressClaim_creates (Fixtures.readyBackend "h-1")
              (Fixtures.contextOf (Fixtures.vmWith [VMFinalizer] "" [Fixtures.poolDevice]))
              (Fixtures.worldOf (Fixtures.vmWith [VMFinalizer] "" [Fixtures.poolDevice]))
              "vm-a-0-0" Fixtures.poolRefA eq_refl eq_refl eq_refl)
    as (claim & Hrun & _ & _ & Hfin & _ & _ & _ & _ & Hmap).
  exists claim. split_and!.
  - cbv zeta. by rewrite Hrun.
  - exact Hfin.
  - apply Hmap; reflexivity.
Defined.

Lemma createOrPatchIPAddressClaim_idempotent_witness :
  let r := Fixtures.readyBackend "h-1" in
  let vmCtx := Fixtures.contextOf (Fixtures.vmWith [VMFinalizer] "" [Fixtures.poolDevice]) in
  let out :=
    createOrPatchIPAddressClaim r vmCtx (mkWorld ∅ ∅ []) "vm-a-0-0" Fixtures.poolRefA in
  ∃ claim,
    out.1 = Ok (claim, true)
    ∧ createOrPatchIPAddressClaim r vmCtx out.2 "vm-a-0-0" Fixtures.poolRefA
      = (Ok (claim, false), out.2).
Proof.
  eexists. split; [vm_compute; reflexivity|].
  apply (createOrPatchIPAddressClaim_idempotent (Fixtures.readyBackend "h-1")
           (Fixtures.contextOf (Fixtures.vmWith [VMFinalizer] "" [Fixtures.poolDevice]))
           (mkWorld ∅ ∅ []) "vm-a-0-0" Fixtures.poolRefA _ true).
  - intros k c Hk. simpl in Hk. rewrite lookup_empty in Hk. discriminate Hk.
  - reflexivity.
  - vm_compute; reflexivity.
Defined.

Lemma reconcileIPAddressClaims_collects_errors_witness :
  let r := Samples3.backendWith (Ok Fixtures.cluster1) (Ok Fixtures.vsphereCluster1)
             (λ _, None) None (λ _, Some (StatusOther "quota exceeded")) false (Ok "md") in
  let vmCtx := Fixtures.contextOf (Fixtures.vmWith [VMFinalizer] "" [Fixtures.poolDevice]) in
  let out := reconcileIPAddressClaims r vmCtx (mkWorld ∅ ∅ []) in
  ∃ es, StatusOther "quota exceeded" ∈ es
        ∧ out.1.1 = Some (Aggregate es)
        ∧ VSphereVM.GetConditions (VSphereVM out.1.2) !! IPAddressClaimedCondition
          = Some (conditions.FalseCondition IPAddressClaimedCondition
                    IPAddressClaimNotFoundReason clusterv1.ConditionSeverityError
                    (errorText r (Aggregate es))).
Proof.
  refine (proj1 (reconcileIPAddressClaims_collects_errors
                   (Samples3.backendWith (Ok Fixtures.cluster1) (Ok Fixtures.vsphereCluster1)
                      (λ _, None) None (λ _, Some (StatusOther "quota exceeded")) false
                      (Ok "md"))
                   (Fixtures.contextOf
                      (Fixtures.vmWith [VMFinalizer] "" [Fixtures.poolDevice]))
                   (mkWorld ∅ ∅ []) ("default", "vm-a-0-0") (StatusOther "quota exceeded")
                   _ _ _ _ _)).
  - intros k c Hk. simpl in Hk. rewrite lookup_empty in Hk. discriminate Hk.
  - intros k. reflexivity.
  - vm_compute. constructor.
  - reflexivity.
  - reflexivity.
Defined.

Lemma deleteIPAddressClaims_only_drops_finalizer_witness :
  let r := Fixtures.readyBackend "h-1" in
  let vmCtx := Fixtures.contextOf (Fixtures.vmWith [VMFinalizer] "" [Fixtures.poolDevice]) in
  let w := mkWorld ∅ {[("default", "vm-a-0-0") := Fixtures.resolvedClaim]} [] in
  let w' := (deleteIPAddressClaims r vmCtx w).2 in
  vms w' = vms w
  ∧ (∀ k, k ∉ claimKeys (VSphereVM vmCtx) → claims w' !! k = claims w !! k)
  ∧ (∀ k c', claims w' !! k = Some c' →
       ∃ c, claims w !! k = Some c
            ∧ (c' = c
               ∨ c' = ipamv1.setObjectMeta
                        (setFinalizers
                           (filter (λ g, g ≠ IPAddressClaimFinalizer)
                              (Finalizers (ipamv1.ObjectMeta c)))
                           (ipamv1.ObjectMeta c)) c)).
Proof.
  apply (deleteIPAddressClaims_only_drops_finalizer (Fixtures.readyBackend "h-1")
           (Fixtures.contextOf (Fixtures.vmWith [VMFinalizer] "" [Fixtures.poolDevice]))
           (mkWorld ∅ {[("default", "vm-a-0-0") := Fixtures.resolvedClaim]} [])).
  intros k c Hk. simpl in Hk. apply lookup_singleton_Some in Hk as [<- <-].
  reflexivity.
Defined.

Lemma Reconcile_touches_only_own_objects_witness :
  let r := Fixtures.readyBackend "h-1" in
  let vm := Fixtures.vmWith [VMFinalizer] "" [Fixtures.poolDevice] in
  let w := Fixtures.worldOf vm in
  let w' := (Reconcile r w Fixtures.keyA).2 in
  (∀ k, k ≠ key (VSphereVM.ObjectMeta vm) → vms w' !! k = vms w !! k)
  ∧ (∀ k, k ∉ claimKeys vm → claims w' !! k = claims w !! k).
Proof.
  apply (Reconcile_touches_only_own_objects (Fixtures.readyBackend "h-1")
           (Fixtures.worldOf (Fixtures.vmWith [VMFinalizer] "" [Fixtures.poolDevice]))
           Fixtures.keyA (Fixtures.vmWith [VMFinalizer] "" [Fixtures.poolDevice])).
  - reflexivity.
  - intros k c Hk. simpl in Hk. rewrite lookup_empty in Hk. discriminate Hk.
Defined.

Lemma clusterToVSphereVMs_labelled_witness :
  let r := Fixtures.readyBackend "h-1" in
  let w := Fixtures.worldOf (Fixtures.vmWith [VMFinalizer] "" [Fixtures.dhcpDevice]) in
  let a := clusterv1.ClusterMeta Fixtures.cluster1 in
  (∀ k, k ∈ clusterToVSphereVMs r w a
        ↔ listVMsError r = None
          ∧ ∃ vm, vms w !! k = Some vm
                  ∧ Labels (VSphereVM.ObjectMeta vm) !! clusterv1.ClusterNameLabel
                    = Some (Name a))
  ∧ NoDup (clusterToVSphereVMs r w a).
Proof.
  apply (clusterToVSphereVMs_labelled (Fixtures.readyBackend "h-1")
           (Fixtures.worldOf (Fixtures.vmWith [VMFinalizer] "" [Fixtures.dhcpDevice]))
           (clusterv1.ClusterMeta Fixtures.cluster1)).
  intros k vm Hk. simpl in Hk. apply lookup_singleton_Some in Hk as [<- <-].
  reflexivity.
Defined.

Lemma vsphereClusterWatch_only_on_module_change_witness :
  let r := Fixtures.readyBackend "h-1" in
  let w := Fixtures.worldOf (Fixtures.vmWith [VMFinalizer] "" [Fixtures.dhcpDevice]) in
  let e := event.UpdateEvent (Samples3.labelledCluster [])
             (Samples3.labelledCluster [mkClusterModule false "md" "uuid-1"]) in
  ∃ oldCluster newCluster,
    e = event.UpdateEvent oldCluster newCluster
    ∧ ClusterModules oldCluster ≠ ClusterModules newCluster.
Proof.
  destruct (vsphereClusterWatch_only_on_module_change
              (λ a b, bool_decide (length a = length b))
              (Fixtures.readyBackend "h-1")
              (Fixtures.worldOf (Fixtures.vmWith [VMFinalizer] "" [Fixtures.dhcpDevice]))
              (event.UpdateEvent (Samples3.labelledCluster [])
                 (Samples3.labelledCluster [mkClusterModule false "md" "uuid-1"]))
              Fixtures.keyA)
    as (o & n & He & Hc & _).
  - vm_compute. constructor.
  - exists o, n. split; [exact He|]. intros Heq. rewrite Heq in Hc.
    rewrite bool_decide_eq_true_2 in Hc by reflexivity. discriminate Hc.
Defined.

Lemma reconcile_module_lookup_failure_witness :
  let r := Samples3.backendWith (Ok Fixtures.cluster1) (Ok Fixtures.vsphereCluster1)
             (λ _, None) None (λ _, None) true (Err (StatusOther "no owner")) in
  let vmCtx := Fixtures.contextOf (Samples2.deletingVM [Fixtures.dhcpDevice]) in
  let w := Fixtures.worldOf (VSphereVM vmCtx) in
  let input := mkFetchClusterModuleInput Fixtures.vsphereCluster1 Fixtures.machine1 in
  reconcile_ r vmCtx w input = reconcileDelete r (setClusterModuleInfo None vmCtx) w.
Proof.
  exact (reconcile_module_lookup_failure
           (Samples3.backendWith (Ok Fixtures.cluster1) (Ok Fixtures.vsphereCluster1)
              (λ _, None) None (λ _, None) true (Err (StatusOther "no owner")))
           (Fixtures.contextOf (Samples2.deletingVM [Fixtures.dhcpDevice]))
           (Fixtures.worldOf (Samples2.deletingVM [Fixtures.dhcpDevice]))
           (mkFetchClusterModuleInput Fixtures.vsphereCluster1 Fixtures.machine1)
           (StatusOther "no owner") eq_refl eq_refl).
Defined.

Lemma retrieveVcenterSession_credentials_witness :
  let r := Samples3.backendWith (Ok Fixtures.cluster1) (Ok Samples3.identityCluster)
             (λ _, None) None (λ _, None) false (Ok "md") in
  let vm := Fixtures.vmWith [VMFinalizer] "" [Fixtures.dhcpDevice] in
  ∃ u p,
    GetOrCreate r (session.mkParams "vcenter" "dc" u p "") = Ok Fixtures.session1
    ∧ GetCredentials r Samples3.identityCluster = Ok (u, p).
Proof.
  destruct (retrieveVcenterSession_credentials
              (Samples3.backendWith (Ok Fixtures.cluster1) (Ok Samples3.identityCluster)
                 (λ _, None) None (λ _, None) false (Ok "md"))
              (Fixtures.vmWith [VMFinalizer] "" [Fixtures.dhcpDevice])
              Fixtures.session1 eq_refl)
    as (u & p & Hsession & [(c & ref & vc & _ & _ & Hvc & _ & Hcred)|(_ & _ & Hnone)]).
  - exists u, p. split; [exact Hsession|]. simpl in Hvc. injection Hvc as <-. exact Hcred.
  - exfalso.
    pose proof (Hnone Fixtures.cluster1 (clusterv1.mkObjectReference "c1")
                  Samples3.identityCluster eq_refl eq_refl eq_refl) as Hid.
    discriminate Hid.
Defined.

Lemma Reconcile_paused_is_idle_witness :
  let r := Samples3.backendWith (Ok Samples3.pausedCluster) (Ok Fixtures.vsphereCluster1)
             (λ _, None) None (λ _, None) false (Ok "md") in
  let vm := Fixtures.vmWith [VMFinalizer] "" [Fixtures.poolDevice] in
  let w := Fixtures.worldOf vm in
  let w' := (Reconcile r w Fixtures.keyA).2 in
  claims w' = claims w
  ∧ (calls w' = calls w ∨ ∃ k, calls w' = calls w ++ [CallPatchVM k])
  ∧ ∀ vm', vms w' !! Fixtures.keyA = Some vm' →
           VSphereVM.SetConditions (VSphereVM.GetConditions vm) vm' = vm.
Proof.
  apply (Reconcile_paused_is_idle
           (Samples3.backendWith (Ok Samples3.pausedCluster) (Ok Fixtures.vsphereCluster1)
              (λ _, None) None (λ _, None) false (Ok "md"))
           (Fixtures.worldOf (Fixtures.vmWith [VMFinalizer] "" [Fixtures.poolDevice]))
           Fixtures.keyA (Fixtures.vmWith [VMFinalizer] "" [Fixtures.poolDevice])
           Samples3.pausedCluster); reflexivity.
Defined.

Lemma zone_getVCenterSession_credentials_witness :
  let r := Samples3.zoneReconciler [Samples3.clusterBad; Samples3.clusterGood] in
  let deploymentZoneCtx := ZoneNormal.mkContext Samples3.freshZone None in
  ∃ t,
    ZoneNormal.getVCenterSession r deploymentZoneCtx "dc"
    = ZoneNormal.GetOrCreate r (session.mkParams "vcenter" "dc" "id-user" "id-secret" t).
Proof.
  destruct (zone_getVCenterSession_credentials
              (Samples3.zoneReconciler [Samples3.clusterBad; Samples3.clusterGood])
              (ZoneNormal.mkContext Samples3.freshZone None) "dc"
              [Samples3.clusterBad; Samples3.clusterGood] eq_refl)
    as (u & p & t & Hrun & _).
  exists t. reflexivity.
Defined.

Lemma Reconcile_zone_finalizer_first_witness :
  let r := Samples3.zoneReconciler [] in
  ∃ zone',
    ZoneNormal.Reconcile r Samples3.zoneStore1 "zone-a"
    = (None,
       ZoneNormal.mkZoneStore (<["zone-a" := zone']> (ZoneNormal.zones Samples3.zoneStore1))
         (ZoneNormal.domains Samples3.zoneStore1) ["zone-a"])
    ∧ Finalizers (VSphereDeploymentZone.ObjectMeta (ZoneNormal.Object zone'))
      = [DeploymentZoneFinalizer]
    ∧ ZoneNormal.Ready zone' = None.
Proof.
  destruct (Reconcile_zone_finalizer_first (Samples3.zoneReconciler [])
              Samples3.zoneStore1 "zone-a" Samples3.freshZone)
    as (zone' & Hrun & Hfin & Hready & _).
  - reflexivity.
  - reflexivity.
  - reflexivity.
  - intros z. reflexivity.
  - reflexivity.
  - vm_compute. apply not_elem_of_nil.
  - exists zone'. split_and!; [exact Hrun|exact Hfin|exact Hready].
Defined.

Lemma ensureServiceAccountConfigMap_effect_witness :
  let r := Samples3.serviceAccountReconciler in
  ServiceAccounts.ensureServiceAccountConfigMap r (Samples3.configMapWith None)
    (Samples3.account "sa-1" None)
  = ServiceAccounts.Panicked.
Proof.
  apply (proj2 (ensureServiceAccountConfigMap_effect Samples3.serviceAccountReconciler
                  (Samples3.configMapWith None) (Samples3.account "sa-1" None)
                  (ServiceAccounts.mkConfigMap "cm" "kube-system" None) eq_refl eq_refl)).
  reflexivity.
Defined.

Lemma serviceAccount_ReconcileDelete_removes_entries_witness :
  let r := Samples3.serviceAccountReconciler in
  let d : gmap string string :=
    {["system.serviceaccount.ns.sa-1" := "true"; "system.serviceaccount.ns.sa-2" := "true"]} in
  match ServiceAccounts.ReconcileDelete r (Fixtures.plainMeta "c1")
          (Samples3.configMapWith (Some d)) with
  | ServiceAccounts.Returned (None, w') =>
      ∃ cm', ServiceAccounts.configMap w' = Some cm'
             ∧ ServiceAccounts.lookupData cm' "system.serviceaccount.ns.sa-1" ≠ Some "true"
  | _ => False
  end.
Proof.
  cbv zeta.
  pose proof (serviceAccount_ReconcileDelete_removes_entries
                Samples3.serviceAccountReconciler (Fixtures.plainMeta "c1")
                (Samples3.configMapWith
                   (Some {["system.serviceaccount.ns.sa-1" := "true";
                           "system.serviceaccount.ns.sa-2" := "true"]}))
                [Samples3.account "sa-1" None; Samples3.account "sa-2" (Some 3)]
                (ServiceAccounts.mkConfigMap "cm" "kube-system"
                   (Some {["system.serviceaccount.ns.sa-1" := "true";
                           "system.serviceaccount.ns.sa-2" := "true"]}))
                eq_refl eq_refl) as Hrun.
  cbv zeta in Hrun.
  destruct (ServiceAccounts.ReconcileDelete _ _ _) as [[[e|] w']|] eqn:Hout.
  - vm_compute in Hout. discriminate Hout.
  - destruct Hrun as (cm' & Hcm' & Hgone & _). exists cm'. split; [exact Hcm'|].
    apply (Hgone (Samples3.account "sa-1" None)); [constructor|split; reflexivity].
  - exact Hrun.
Defined.

Lemma reconcileIPAddressClaims_fallback_witness :
  let vmCtx := Fixtures.contextOf (Fixtures.vmWith [VMFinalizer] "" [Fixtures.poolDevice]) in
  let w := mkWorld ∅ {[("default", "vm-a-0-0") := Samples3.resolvedWithoutReady]} [] in
  let out := reconcileIPAddressClaims (Fixtures.readyBackend "h-1") vmCtx w in
  VSphereVM.GetConditions (VSphereVM out.1.2) !! IPAddressClaimedCondition
  = Some (conditions.TrueCondition IPAddressClaimedCondition).
Proof.
  pose proof (reconcileIPAddressClaims_fallback (Fixtures.readyBackend "h-1")
    (Fixtures.contextOf (Fixtures.vmWith [VMFinalizer] "" [Fixtures.poolDevice]))
    (mkWorld ∅ {[("default", "vm-a-0-0") := Samples3.resolvedWithoutReady]} []))
    as Hfall.
  cbv zeta in Hfall.
  refine (proj1 (proj2 (proj2 (Hfall _ _ _))) _).
  - intros k c Hk. simpl in Hk. apply lookup_singleton_Some in Hk as [<- <-].
    reflexivity.
  - vm_compute; reflexivity.
  - vm_compute; lia.
  - vm_compute; reflexivity.
Defined.

End MoreSamples.
